(** * LDES consumer orchestrator: a shallow embedding of [ldes-consumer/app.py]

    The program reads a YAML list of feeds, derives one container
    environment per feed, spawns one container per feed through the Docker
    SDK, polls the spawned containers and tears them down on shutdown.

    Pure parts (environment derivation, naming) are plain functions.  The
    parts that talk to the outside (Docker daemon, file system, standard
    output) run in a small state-and-exception monad over an abstract world;
    the Docker SDK, the YAML loader, [mkdir] and Python's [str.lower] are
    fields of an interface record, so every theorem holds for every
    behaviour of these collaborators. *)

From Stdlib Require Import ZArith String List Ascii Bool DecimalString Lia.
Import ListNotations.
Local Open Scope string_scope.
Local Open Scope list_scope.

(** ** Python values *)

(** The scalar values [yaml.safe_load] produces for a flat mapping.  Floats,
    nested sequences and mappings are left out.  A string is the UTF-8
    encoding of the Python string. *)
Inductive pyval : Type :=
| PNone
| PBool (b : bool)
| PInt (n : Z)
| PStr (s : string).

(** [str(v)], which is also how an f-string formats [v]. *)
Definition py_str (v : pyval) : string :=
  match v with
  | PNone => "None"
  | PBool true => "True"
  | PBool false => "False"
  | PInt n => NilZero.string_of_int (Z.to_int n)
  | PStr s => s
  end.

(** [isinstance(v, str)] *)
Definition is_str (v : pyval) : bool :=
  match v with
  | PStr _ => true
  | _ => false
  end.

(** [str.lower] follows the Unicode case mappings; the program calls it and
    does not define it, so it is a parameter [str_lower] of what uses it.
    [ascii_lower] is what [str.lower] does on ASCII text, and serves to run
    the program on ASCII samples. *)
Definition lower_ascii (c : ascii) : ascii :=
  let n := nat_of_ascii c in
  if (65 <=? n)%nat && (n <=? 90)%nat then ascii_of_nat (n + 32) else c.

Fixpoint ascii_lower (s : string) : string :=
  match s with
  | EmptyString => EmptyString
  | String c r => String (lower_ascii c) (ascii_lower r)
  end.

(** ** Exceptions *)

(** Subclasses of Python's [Exception] the program can meet.  [APIError] and
    [NotFound] are subclasses of [DockerException]. *)
Inductive exception : Type :=
| FileNotFoundError
| YAMLError
| AttributeError
| TypeError
| OSError (msg : string)
| DockerException (msg : string)
| APIError (msg : string)
| NotFound (msg : string)
| OtherException (msg : string).

Definition is_DockerException (e : exception) : bool :=
  match e with
  | DockerException _ | APIError _ | NotFound _ => true
  | _ => false
  end.

(** What can leave a function: an [Exception], or [SystemExit] raised by
    [sys.exit], or [KeyboardInterrupt]; the last two are not caught by
    [except Exception]. *)
Inductive base_exception : Type :=
| Exc (e : exception)
| SystemExit (code : Z)
| KeyboardInterrupt.

(** [v.lower()] on a value read from YAML: only [str] has the method. *)
Definition py_lower (str_lower : string -> string) (v : pyval) : exception + pyval :=
  match v with
  | PStr s => inr (PStr (str_lower s))
  | _ => inl AttributeError
  end.

(** ** Dictionaries

    A Python [dict] keeps insertion order, and the program depends on it
    (feeds are processed in stored order, the first network is picked), so a
    dictionary is an association list; [dict_set] overwrites in place or
    appends, as [d[k] = v] does. *)
Definition dict (V : Type) : Type := list (string * V).

Fixpoint dict_get {V : Type} (d : dict V) (k : string) : option V :=
  match d with
  | [] => None
  | (k', v) :: r => if String.eqb k' k then Some v else dict_get r k
  end.

(** [d.get(k, default)] *)
Definition dict_get_or {V : Type} (d : dict V) (k : string) (default : V) : V :=
  match dict_get d k with
  | Some v => v
  | None => default
  end.

(** [k in d] *)
Definition dict_contains {V : Type} (d : dict V) (k : string) : bool :=
  match dict_get d k with
  | Some _ => true
  | None => false
  end.

(** [d[k] = v] *)
Fixpoint dict_set {V : Type} (d : dict V) (k : string) (v : V) : dict V :=
  match d with
  | [] => [(k, v)]
  | (k', v') :: r =>
      if String.eqb k' k then (k, v) :: r else (k', v') :: dict_set r k v
  end.

Definition keys {V : Type} (d : dict V) : list string := map fst d.

(** ** Process environment *)

Definition environ : Type := dict string.

(** [os.getenv(k)] *)
Definition getenv_opt (os : environ) (k : string) : option string := dict_get os k.

(** [os.getenv(k, default)], [os.environ.get(k, default)] *)
Definition getenv (os : environ) (k : string) (default : string) : string :=
  dict_get_or os k default.

(** ** Configuration *)

(** The [environment] entry of a feed: missing, or something that is not a
    mapping ([null], a scalar, a sequence), or a mapping of overrides, whose
    keys are taken to be strings. *)
Inductive environment_entry : Type :=
| NoEnvironment
| EnvironmentNotMapping
| Environment (d : dict pyval).

(** A feed that is a mapping: [url] and [target_graph] are each optional,
    and hold any value when present. *)
Record feed_data : Type := mk_feed_data {
  url : option pyval;
  target_graph : option pyval;
  environment : environment_entry
}.

(** One value of the [feeds] mapping: a mapping, or something else
    ([null], a scalar, a sequence). *)
Inductive feed_value : Type :=
| FeedNotMapping
| Feed (fd : feed_data).

(** The feeds in stored order.  A YAML key need not be a string. *)
Definition feed_list : Type := list (pyval * feed_value).

(** The value under [feeds]: one without a length ([null], a number, a
    boolean), a sequence or string of some length, or a mapping. *)
Inductive feeds_entry : Type :=
| FeedsUnsized
| FeedsSequence (n : nat)
| FeedsMapping (fs : feed_list).

(** What [yaml.safe_load] returns: a value that supports no membership
    test ([None] for an empty file, a number, a boolean), a sequence or a
    string, which holds ["feeds"] or does not, or a mapping, with or
    without the [feeds] key. *)
Inductive feeds_config : Type :=
| NotIterable
| NotMapping (holds_feeds : bool)
| Mapping (feeds : option feeds_entry).

(** ** Feed environment (process_feeds, lines 154-210) *)

(** [gdb_repo] and [default_sparql_endpoint], lines 154-158. *)
Definition gdb_repo (os : environ) : string := getenv os "GDB_REPO" "kgap".

Definition default_sparql_endpoint (os : environ) : string :=
  getenv os "DEFAULT_SPARQL_ENDPOINT"
    ("http://graphdb:7200/repositories/" ++ gdb_repo os ++ "/statements").

Definition graph_prefix (os : environ) : string := getenv os "GRAPH_PREFIX" "ldes".

(** [feed_env = feed_data.get("environment", {})], as the mapping on which
    [.get] is then called: a value that is not a mapping has no [.get], and
    the first call, at line 181, raises. *)
Definition feed_env (fd : feed_data) : exception + dict pyval :=
  match environment fd with
  | NoEnvironment => inr []
  | EnvironmentNotMapping => inl AttributeError
  | Environment d => inr d
  end.

(** [feed_url = feed_data.get("url", "")] *)
Definition feed_url (fd : feed_data) : pyval :=
  match url fd with
  | Some v => v
  | None => PStr ""
  end.

(** [f"urn:kgap:{graph_prefix}:{feed_name}"] *)
Definition default_target_graph (os : environ) (feed_name : pyval) : string :=
  "urn:kgap:" ++ graph_prefix os ++ ":" ++ py_str feed_name.

(** Lines 181-183, once [feed_env] is known to be a mapping. *)
Definition target_graph_in (fe : dict pyval) (os : environ) (feed_name : pyval)
  (fd : feed_data) : pyval :=
  dict_get_or fe "TARGET_GRAPH"
    (match target_graph fd with
     | Some v => v
     | None => PStr (default_target_graph os feed_name)
     end).

Definition resolved_target_graph (os : environ) (feed_name : pyval) (fd : feed_data)
  : exception + pyval :=
  match feed_env fd with
  | inl e => inl e
  | inr fe => inr (target_graph_in fe os feed_name fd)
  end.

(** The dictionary display of lines 187-205.  With a mapping for
    [feed_env], only [.lower()] can raise. *)
Definition env_vars_display (str_lower : string -> string) (os : environ)
  (feed_name : pyval) (fd : feed_data) : exception + dict pyval :=
  match feed_env fd with
  | inl e => inl e
  | inr fe =>
      match py_lower str_lower
              (dict_get_or fe "LOG_LEVEL"
                 (PStr (getenv os "LDES_LOG_LEVEL" (getenv os "LOG_LEVEL" "DEBUG")))) with
      | inl e => inl e
      | inr log_level =>
          inr [ ("SPARQL_ENDPOINT",
                  dict_get_or fe "SPARQL_ENDPOINT"
                    (PStr (getenv os "DEFAULT_SPARQL_ENDPOINT" "")));
                ("TARGET_GRAPH", target_graph_in fe os feed_name fd);
                ("FOLLOW", dict_get_or fe "FOLLOW" (PStr "false"));
                ("MEMBER_BATCH_SIZE", dict_get_or fe "MEMBER_BATCH_SIZE" (PStr "500"));
                ("MATERIALIZE", dict_get_or fe "MATERIALIZE" (PStr "false"));
                ("LOG_LEVEL", log_level);
                ("LDES", feed_url fd);
                ("POLLING_FREQUENCY", dict_get_or fe "POLLING_FREQUENCY" (PStr "60000"));
                ("FAILURE_IS_FATAL", dict_get_or fe "FAILURE_IS_FATAL" (PStr "false"));
                ("OPERATION_MODE", dict_get_or fe "OPERATION_MODE" (PStr "Replication"));
                ("SHAPE", dict_get_or fe "SHAPE" (PStr "")) ]
      end
  end.

(** The loop of lines 208-210. *)
Definition add_custom (env_vars : dict pyval) (kv : string * pyval) : dict pyval :=
  let (env_key, env_value) := kv in
  if dict_contains env_vars env_key then env_vars
  else dict_set env_vars env_key (PStr (py_str env_value)).

(** [env_vars] as it is when the spawn is tried. *)
Definition env_vars (str_lower : string -> string) (os : environ)
  (feed_name : pyval) (fd : feed_data) : exception + dict pyval :=
  match feed_env fd with
  | inl e => inl e
  | inr fe =>
      match env_vars_display str_lower os feed_name fd with
      | inl e => inl e
      | inr d => inr (fold_left add_custom fe d)
      end
  end.

(** The eleven keys of the display. *)
Definition required_keys : list string :=
  [ "SPARQL_ENDPOINT"; "TARGET_GRAPH"; "FOLLOW"; "MEMBER_BATCH_SIZE"; "MATERIALIZE";
    "LOG_LEVEL"; "LDES"; "POLLING_FREQUENCY"; "FAILURE_IS_FATAL"; "OPERATION_MODE";
    "SHAPE" ].

(** [f"ldes-consumer-{feed_name}"], lines 223 and 234. *)
Definition container_name (feed_name : pyval) : string :=
  "ldes-consumer-" ++ py_str feed_name.

(** [f"{host_pwd}/data/ldes-consumer/state/{feed_name}"] *)
Definition feed_state_dir (host_pwd : string) (feed_name : pyval) : string :=
  host_pwd ++ "/data/ldes-consumer/state/" ++ py_str feed_name.

(** ** What the Docker SDK hands out *)

(** A JSON attribute that can be missing, [null] or present. *)
Inductive attr (A : Type) : Type :=
| Missing
| Null
| Value (a : A).
Arguments Missing {A}.
Arguments Null {A}.
Arguments Value {A} a.

(** The orchestrator's own container, as [containers.get(hostname)] returns
    it.  [labels] is a property of the SDK object that raises when the
    inspected attributes lack their [Config] section; [NetworkSettings] is
    [attrs["NetworkSettings"]], holding the names under ["Networks"] in
    their stored order. *)
Record self_container : Type := mk_self {
  labels : exception + dict string;
  NetworkSettings : attr (attr (list string))
}.

(** A spawned container object: its id, [attrs["Name"]] and the status of
    its last refresh. *)
Record Container : Type := mk_container {
  container_id : string;
  attrs_Name : option string;
  status : string
}.

Definition short_id (c : Container) : string := substring 0 12 (container_id c).

(** The keyword arguments of [containers.run], lines 221-239. *)
Record container_config : Type := mk_config {
  cfg_image : string;
  cfg_name : string;
  cfg_environment : dict pyval;
  cfg_detach : bool;
  cfg_remove : bool;
  cfg_volumes : dict (dict string);
  cfg_labels : option (dict string);
  cfg_network : option string
}.

(** ** Observable events: calls that leave the process, and printed lines *)

Inductive line : Type :=
| ComposeDetected (project : string)
| ComposeNotDetected (e : exception)
| NetworkDetected (network_name : string)
| NetworkNotDetected (e : exception)
| NetworkFromEnv (docker_network : string)
| ConfigNotFound (config_path : string)
| YamlParseError
| NoFeedsSection
| FoundFeeds (n : nat)
| DefaultEndpoint (endpoint : string)
| FeedHeader (feed_name : pyval)
| FeedUrl (feed_url : pyval)
| TargetGraphLine (target_graph : pyval)
| ContainerStarted (feed_name : pyval) (short : string)
| ErrorSpawning (feed_name : pyval) (e : exception)
| UnexpectedError (feed_name : pyval) (e : exception)
| CleaningUp
| Stopping (info : string)
| Stopped
| Removing (info : string)
| Removed
| ErrorCleaningUp (e : exception)
| Connected
| ErrorConnecting (e : exception)
| SpawnedCount (n : nat)
| Running (active total : nat)
| AllStopped
| ShutdownSignal.

Inductive event : Type :=
| CallFromEnv (r : exception + unit)
| CallPing (r : exception + unit)
| CallGet (hostname : string) (r : exception + self_container)
| CallRun (cfg : container_config) (r : exception + Container)
| CallReload (c : Container) (r : exception + Container)
| CallStop (c : Container) (timeout : Z) (r : exception + unit)
| CallRemove (c : Container) (r : exception + unit)
| CallMkdir (path : string) (r : exception + unit)
| CallLoad (path : string) (r : exception + feeds_config)
| Sleep (seconds : Z)
| Printed (l : line).

(** ** The collaborators *)

(** What the program calls and does not define: the Docker daemon, the
    file system and one method of Python's strings.  Each call to the
    outside may change the world and may raise.  [safe_load path] stands
    for [open(path)] followed by [yaml.safe_load]; [reload] yields the
    refreshed container object; [getcwd] is [os.getcwd()]; [str_lower] is
    [str.lower]. *)
Record Runtime (W : Type) : Type := mk_runtime {
  getcwd : string;
  str_lower : string -> string;
  from_env : W -> W * (exception + unit);
  ping : W -> W * (exception + unit);
  containers_get : string -> W -> W * (exception + self_container);
  containers_run : container_config -> W -> W * (exception + Container);
  reload : Container -> W -> W * (exception + Container);
  stop : Container -> Z -> W -> W * (exception + unit);
  remove_container : Container -> W -> W * (exception + unit);
  mkdir : string -> W -> W * (exception + unit);
  safe_load : string -> W -> W * (exception + feeds_config)
}.
Arguments getcwd {W} _.
Arguments str_lower {W} _ _.
Arguments from_env {W} _ _.
Arguments ping {W} _ _.
Arguments containers_get {W} _ _ _.
Arguments containers_run {W} _ _ _.
Arguments reload {W} _ _ _.
Arguments stop {W} _ _ _ _.
Arguments remove_container {W} _ _ _.
Arguments mkdir {W} _ _ _.
Arguments safe_load {W} _ _ _.

(** ** The monad: world, events emitted, and a value or a raised exception *)

Definition M (W A : Type) : Type := W -> W * list event * (base_exception + A).

Definition ret {W A : Type} (a : A) : M W A := fun w => (w, [], inr a).

Definition raise {W A : Type} (e : base_exception) : M W A := fun w => (w, [], inl e).

Definition bind {W A B : Type} (m : M W A) (k : A -> M W B) : M W B :=
  fun w =>
    match m w with
    | (w1, t1, inl e) => (w1, t1, inl e)
    | (w1, t1, inr a) =>
        match k a w1 with
        | (w2, t2, r) => (w2, t1 ++ t2, r)
        end
    end.

Definition emit {W : Type} (ev : event) : M W unit := fun w => (w, [ev], inr tt).

Definition print {W : Type} (l : line) : M W unit := emit (Printed l).

(** A call to a collaborator, recorded with its outcome. *)
Definition call {W A : Type} (op : W -> W * (exception + A))
  (ev : exception + A -> event) : M W A :=
  fun w =>
    match op w with
    | (w1, inl e) => (w1, [ev (inl e)], inl (Exc e))
    | (w1, inr a) => (w1, [ev (inr a)], inr a)
    end.

(** [try: m  except ...: h]: the handler sees subclasses of [Exception]
    only and answers [None] for those no clause matches. *)
Definition try_except {W A : Type} (m : M W A) (h : exception -> option (M W A)) : M W A :=
  fun w =>
    match m w with
    | (w1, t1, inl (Exc e)) =>
        match h e with
        | Some k => match k w1 with (w2, t2, r) => (w2, t1 ++ t2, r) end
        | None => (w1, t1, inl (Exc e))
        end
    | other => other
    end.

(** Use of an already computed value that may be a raised exception. *)
Definition lift {W A : Type} (r : exception + A) : M W A :=
  match r with
  | inl e => raise (Exc e)
  | inr a => ret a
  end.

Notation "x <- m ;; k" := (bind m (fun x => k))
  (at level 61, m at next level, right associativity).
Notation "m ;;; k" := (bind m (fun _ => k))
  (at level 61, right associativity).

(** The three parts of a run. *)
Definition world_of {W A : Type} (x : W * list event * (base_exception + A)) : W :=
  fst (fst x).

Definition trace_of {W A : Type} (x : W * list event * (base_exception + A)) : list event :=
  snd (fst x).

Definition result_of {W A : Type} (x : W * list event * (base_exception + A))
  : base_exception + A :=
  snd x.

(** The exit status of the interpreter. *)
Definition exit_code {A : Type} (r : base_exception + A) : Z :=
  match r with
  | inr _ => 0%Z
  | inl (SystemExit code) => code
  | inl _ => 1%Z
  end.

(** Python truth of an optional string: [None] and [""] are false. *)
Definition truthy (s : option string) : bool :=
  match s with
  | None => false
  | Some s => negb (String.eqb s "")
  end.

(** ** The program *)

Section Program.

Context {W : Type} (R : Runtime W).

Definition compose_keys : list string :=
  [ "com.docker.compose.project";
    "com.docker.compose.project.working_dir";
    "com.docker.compose.project.config_files" ].

(** Lines 49-51: copy the allowed keys that the container carries. *)
Definition copy_label (container_labels : dict string) (compose_labels : dict string)
  (key : string) : dict string :=
  match dict_get container_labels key with
  | Some v => dict_set compose_labels key v
  | None => compose_labels
  end.

Definition get_compose_labels (os : environ) : M W (dict string) :=
  try_except
    (match getenv_opt os "HOSTNAME" with
     | None => ret []
     | Some hostname =>
         if String.eqb hostname "" then ret []
         else
           container <- call (containers_get R hostname) (CallGet hostname) ;;
           container_labels <- lift (labels container) ;;
           let compose_labels := fold_left (copy_label container_labels) compose_keys [] in
           match compose_labels with
           | [] => ret compose_labels
           | _ :: _ =>
               print (ComposeDetected
                        (dict_get_or compose_labels "com.docker.compose.project" "unknown")) ;;;
               ret compose_labels
           end
     end)
    (fun e => Some (print (ComposeNotDetected e) ;;; ret [])).

(** [container.attrs.get("NetworkSettings", {}).get("Networks", {})]:
    [None.get] raises [AttributeError]; the result is the key list, or
    [None] for a [null] entry. *)
Definition attrs_networks (c : self_container) : exception + option (list string) :=
  match NetworkSettings c with
  | Missing => inr (Some [])
  | Null => inl AttributeError
  | Value Missing => inr (Some [])
  | Value Null => inr None
  | Value (Value ns) => inr (Some ns)
  end.

Definition get_parent_network (os : environ) : M W (option string) :=
  try_except
    (match getenv_opt os "HOSTNAME" with
     | None => ret None
     | Some hostname =>
         if String.eqb hostname "" then ret None
         else
           container <- call (containers_get R hostname) (CallGet hostname) ;;
           networks <- lift (attrs_networks container) ;;
           match networks with
           | Some (network_name :: _) =>
               print (NetworkDetected network_name) ;;;
               ret (Some network_name)
           | _ => ret None
           end
     end)
    (fun e => Some (print (NetworkNotDetected e) ;;; ret None)).

Definition load_ldes_feeds (config_path : string) : M W feeds_config :=
  try_except
    (call (safe_load R config_path) (CallLoad config_path))
    (fun e =>
       match e with
       | FileNotFoundError =>
           Some (print (ConfigNotFound config_path) ;;; raise (SystemExit 1))
       | YAMLError =>
           Some (print YamlParseError ;;; raise (SystemExit 1))
       | _ => None
       end).

(** Lines 221-239. *)
Definition container_config_of (ldes2sparql_image : string) (feed_name : pyval)
  (env : dict pyval) (vols : dict (dict string))
  (compose_labels : dict string) (docker_network : option string) : container_config :=
  {| cfg_image := ldes2sparql_image;
     cfg_name := container_name feed_name;
     cfg_environment := env;
     cfg_detach := true;
     cfg_remove := false;
     cfg_volumes := vols;
     cfg_labels :=
       match compose_labels with
       | [] => None
       | _ :: _ =>
           Some (dict_set compose_labels "com.docker.compose.service" (container_name feed_name))
       end;
     cfg_network := if truthy docker_network then docker_network else None |}.

(** One turn of the loop of lines 163-250.  A feed value that is not a
    mapping has no [.get]: line 165 raises, after the name is printed.
    Everything before the spawn is outside the [try] block. *)
Definition process_feed (os : environ) (ldes2sparql_image host_pwd : string)
  (compose_labels : dict string) (docker_network : option string)
  (containers : list Container) (feed : pyval * feed_value) : M W (list Container) :=
  let (feed_name, feed_data) := feed in
  print (FeedHeader feed_name) ;;;
  match feed_data with
  | FeedNotMapping => raise (Exc AttributeError)
  | Feed fd =>
      print (FeedUrl (match url fd with Some v => v | None => PStr "N/A" end)) ;;;
      let state_dir := feed_state_dir host_pwd feed_name in
      call (mkdir R state_dir) (CallMkdir state_dir) ;;;
      let vols := [ (state_dir, [ ("bind", "/state"); ("mode", "rw") ]) ] in
      target <- lift (resolved_target_graph os feed_name fd) ;;
      print (TargetGraphLine target) ;;;
      env <- lift (env_vars (str_lower R) os feed_name fd) ;;
      try_except
        (let container_config :=
           container_config_of ldes2sparql_image feed_name env vols
             compose_labels docker_network in
         container <- call (containers_run R container_config) (CallRun container_config) ;;
         print (ContainerStarted feed_name (short_id container)) ;;;
         ret (containers ++ [container]))
        (fun e =>
           Some (print (if is_DockerException e
                        then ErrorSpawning feed_name e
                        else UnexpectedError feed_name e) ;;;
                 ret containers))
  end.

Fixpoint process_feed_list (os : environ) (ldes2sparql_image host_pwd : string)
  (compose_labels : dict string) (docker_network : option string)
  (fs : feed_list) (containers : list Container) : M W (list Container) :=
  match fs with
  | [] => ret containers
  | feed :: rest =>
      containers' <- process_feed os ldes2sparql_image host_pwd compose_labels
                       docker_network containers feed ;;
      process_feed_list os ldes2sparql_image host_pwd compose_labels docker_network
        rest containers'
  end.

(** Lines 140-161: what is read and detected before the loop. *)
Definition choose_network (os : environ) (detected : option string) : M W (option string) :=
  if truthy detected then ret detected
  else
    let from_var := getenv_opt os "DOCKER_NETWORK" in
    if truthy from_var
    then print (NetworkFromEnv (dict_get_or os "DOCKER_NETWORK" "")) ;;; ret from_var
    else ret from_var.

(** [process_feeds].  The membership test of line 132 raises [TypeError]
    on a value that cannot be iterated; line 136 raises it on a sequence or
    string that holds ["feeds"]; [len] at line 137 raises it on a value
    without a length; and [.items()] at line 163 raises [AttributeError] on
    a sequence or string. *)
Definition process_feeds (os : environ) (config : feeds_config)
  (ldes2sparql_image : string) : M W (list Container) :=
  match config with
  | NotIterable => raise (Exc TypeError)
  | NotMapping true => raise (Exc TypeError)
  | NotMapping false | Mapping None => print NoFeedsSection ;;; ret []
  | Mapping (Some FeedsUnsized) => raise (Exc TypeError)
  | Mapping (Some (FeedsSequence n)) =>
      print (FoundFeeds n) ;;;
      compose_labels <- get_compose_labels os ;;
      detected <- get_parent_network os ;;
      docker_network <- choose_network os detected ;;
      print (DefaultEndpoint (default_sparql_endpoint os)) ;;;
      raise (Exc AttributeError)
  | Mapping (Some (FeedsMapping fs)) =>
      print (FoundFeeds (length fs)) ;;;
      let host_pwd := getenv os "HOST_PWD" (getcwd R) in
      compose_labels <- get_compose_labels os ;;
      detected <- get_parent_network os ;;
      docker_network <- choose_network os detected ;;
      print (DefaultEndpoint (default_sparql_endpoint os)) ;;;
      process_feed_list os ldes2sparql_image host_pwd compose_labels docker_network fs []
  end.

(** [container.attrs.get("Name", container.short_id)] *)
Definition container_info (c : Container) : string :=
  match attrs_Name c with
  | Some n => n
  | None => short_id c
  end.

(** Lines 270-279. *)
Definition cleanup_container (container : Container) : M W unit :=
  try_except
    (print (Stopping (container_info container)) ;;;
     call (stop R container 10) (CallStop container 10) ;;;
     print Stopped ;;;
     print (Removing (container_info container)) ;;;
     call (remove_container R container) (CallRemove container) ;;;
     print Removed)
    (fun e => Some (print (ErrorCleaningUp e))).

Fixpoint cleanup_each (containers : list Container) : M W unit :=
  match containers with
  | [] => ret tt
  | container :: rest => cleanup_container container ;;; cleanup_each rest
  end.

Definition cleanup_containers (containers : list Container) : M W unit :=
  match containers with
  | [] => ret tt
  | _ :: _ => print CleaningUp ;;; cleanup_each containers
  end.

(** Lines 341-348.  The container objects are refreshed in place, so the
    tracked list is returned next to [active_containers]. *)
Fixpoint refresh_all (containers : list Container)
  : M W (list Container * list Container) :=
  match containers with
  | [] => ret ([], [])
  | container :: rest =>
      one <- try_except
               (fresh <- call (reload R container) (CallReload container) ;;
                if String.eqb (status fresh) "running"
                then ret (fresh, [fresh])
                else ret (fresh, []))
               (fun _ => Some (ret (container, []))) ;;
      others <- refresh_all rest ;;
      ret (fst one :: fst others, snd one ++ snd others)
  end.

(** One turn of the [while True] of lines 335-360; yields the tracked list
    and [active_containers]. *)
Definition monitor_once (containers : list Container)
  : M W (list Container * list Container) :=
  polled <- refresh_all containers ;;
  let active_containers := snd polled in
  (match active_containers with
   | _ :: _ => print (Running (length active_containers) (length containers))
   | [] => print AllStopped
   end) ;;;
  emit (Sleep 10) ;;;
  ret polled.

(** Lines 286-319: everything before the supervision loop. *)
Definition main_startup (os : environ) : M W (list Container) :=
  let config_path := getenv os "LDES_CONFIG_PATH" "/data/ldes-feeds.yaml" in
  let ldes2sparql_image :=
    getenv os "LDES2SPARQL_IMAGE" "ghcr.io/maregraph-eu/ldes2sparql:latest" in
  try_except
    (call (from_env R) CallFromEnv ;;;
     call (ping R) CallPing ;;;
     print Connected)
    (fun e => Some (print (ErrorConnecting e) ;;; raise (SystemExit 1))) ;;;
  config <- load_ldes_feeds config_path ;;
  containers <- process_feeds os config ldes2sparql_image ;;
  print (SpawnedCount (length containers)) ;;;
  ret containers.

(** The first [k] handles of a turn refreshed: lines 341-348 cut short. *)
Fixpoint refresh_first (k : nat) (containers : list Container) : M W (list Container) :=
  match k, containers with
  | S k', container :: rest =>
      one <- try_except
               (call (reload R container) (CallReload container))
               (fun _ => Some (ret container)) ;;
      others <- refresh_first k' rest ;;
      ret (one :: others)
  | _, _ => ret containers
  end.

(** The turn during which the signal arrives.  [point] counts the steps of
    the turn done by then: its refreshes one by one, then its status line.
    A signal during the sleep of a turn is [point = 0] of the next.  A
    signal during a refresh cuts it off; the refresh, which only reads, is
    then left out. *)
Definition interrupted_turn (point : nat) (containers : list Container)
  : M W (list Container) :=
  if (length containers <? point)%nat
  then
    polled <- refresh_all containers ;;
    (match snd polled with
     | _ :: _ => print (Running (length (snd polled)) (length containers))
     | [] => print AllStopped
     end) ;;;
    ret (fst polled)
  else refresh_first point containers.

(** The supervision loop runs until SIGINT or SIGTERM arrives: after
    [polls] whole turns and [point] steps of the next one [signal_handler]
    runs, tears down and exits with status 0; its [SystemExit] passes the
    [except Exception] of line 346 and the [except KeyboardInterrupt] of
    line 362.  The handlers are installed at lines 327-328; a signal before
    that, and a second signal during the teardown, are not modelled. *)
Fixpoint supervise (polls point : nat) (containers : list Container) : M W unit :=
  match polls with
  | O =>
      tracked <- interrupted_turn point containers ;;
      print ShutdownSignal ;;;
      cleanup_containers tracked ;;;
      raise (SystemExit 0)
  | S n =>
      polled <- monitor_once containers ;;
      supervise n point (fst polled)
  end.

Definition main (os : environ) (polls point : nat) : M W unit :=
  containers <- main_startup os ;;
  supervise polls point containers.

End Program.

(** ** A small Docker daemon and file system

    An instance of [Runtime] that computes, used to run the program on
    concrete inputs. *)
Module Mock.

Record world : Type := mk_world {
  daemon_up : bool;
  files : dict (exception + feeds_config);
  held : list Container;
  counter : nat;
  refused : list string;
  self : option self_container
}.

Definition with_held (w : world) (cs : list Container) (n : nat) : world :=
  {| daemon_up := daemon_up w; files := files w; held := cs; counter := n;
     refused := refused w; self := self w |}.

Definition same_id (cid : string) (c : Container) : bool :=
  String.eqb (container_id c) cid.

Definition present (w : world) (cid : string) : bool := existsb (same_id cid) (held w).

Definition name_taken (w : world) (n : string) : bool :=
  existsb (fun c => match attrs_Name c with
                    | Some m => String.eqb m n
                    | None => false
                    end) (held w).

Definition up (w : world) : world * (exception + unit) :=
  if daemon_up w then (w, inr tt) else (w, inl (DockerException "connection refused")).

Definition get (hostname : string) (w : world) : world * (exception + self_container) :=
  match self w with
  | Some c => (w, inr c)
  | None => (w, inl (NotFound hostname))
  end.

Definition run (cfg : container_config) (w : world) : world * (exception + Container) :=
  if existsb (String.eqb (cfg_name cfg)) (refused w) || name_taken w (cfg_name cfg)
  then (w, inl (APIError (cfg_name cfg)))
  else
    let cid := ("c" ++ NilZero.string_of_uint (Nat.to_uint (counter w)))%string in
    (with_held w (held w ++ [mk_container cid (Some (cfg_name cfg)) "running"]) (S (counter w)),
     inr (mk_container cid (Some (cfg_name cfg)) "created")).

Definition inspect (c : Container) (w : world) : world * (exception + Container) :=
  match find (same_id (container_id c)) (held w) with
  | Some c' => (w, inr c')
  | None => (w, inl (NotFound (container_id c)))
  end.

Definition halt (c : Container) (timeout : Z) (w : world) : world * (exception + unit) :=
  if present w (container_id c)
  then (with_held w
          (map (fun c' => if same_id (container_id c) c'
                          then mk_container (container_id c') (attrs_Name c') "exited"
                          else c') (held w)) (counter w),
        inr tt)
  else (w, inl (NotFound (container_id c))).

Definition delete (c : Container) (w : world) : world * (exception + unit) :=
  if present w (container_id c)
  then (with_held w (filter (fun c' => negb (same_id (container_id c) c')) (held w)) (counter w),
        inr tt)
  else (w, inl (NotFound (container_id c))).

Definition make_dir (path : string) (w : world) : world * (exception + unit) := (w, inr tt).

Definition read (path : string) (w : world) : world * (exception + feeds_config) :=
  match dict_get (files w) path with
  | Some r => (w, r)
  | None => (w, inl FileNotFoundError)
  end.

Definition runtime : Runtime world :=
  {| getcwd := "/app";
     str_lower := ascii_lower;
     from_env := fun w => (w, inr tt);
     ping := up;
     containers_get := get;
     containers_run := run;
     reload := inspect;
     stop := halt;
     remove_container := delete;
     mkdir := make_dir;
     safe_load := read |}.

(** A feed with nothing but a URL, and the spec's end-to-end feed. *)
Definition plain_feed (u : string) : feed_data :=
  {| url := Some (PStr u); target_graph := None; environment := NoEnvironment |}.

Definition sensors : feed_data :=
  {| url := Some (PStr "https://example/feed");
     target_graph := None;
     environment := Environment [ ("FOLLOW", PStr "true") ] |}.

Definition abc : feed_list :=
  [ (PStr "a", Feed (plain_feed "https://a")); (PStr "b", Feed (plain_feed "https://b"));
    (PStr "c", Feed (plain_feed "https://c")) ].

Definition three_feeds : feeds_config := Mapping (Some (FeedsMapping abc)).

Definition config_path : string := "/data/ldes-feeds.yaml".

(** Daemon reachable, nothing running, no self container, one config file. *)
Definition fresh (config : exception + feeds_config) (refuse : list string) : world :=
  {| daemon_up := true; files := [ (config_path, config) ]; held := []; counter := 0;
     refused := refuse; self := None |}.

End Mock.

(** ** Reading a trace *)

Fixpoint collect {A : Type} (f : event -> option A) (t : list event) : list A :=
  match t with
  | [] => []
  | ev :: rest =>
      match f ev with
      | Some a => a :: collect f rest
      | None => collect f rest
      end
  end.

(** The calls to [containers.run], [reload], [stop] and [remove], each with
    its outcome, in the order they were made. *)
Definition run_calls : list event -> list (container_config * (exception + Container)) :=
  collect (fun ev => match ev with CallRun cfg r => Some (cfg, r) | _ => None end).

Definition reload_calls : list event -> list (Container * (exception + Container)) :=
  collect (fun ev => match ev with CallReload c r => Some (c, r) | _ => None end).

Definition stop_calls : list event -> list (Container * (exception + unit)) :=
  collect (fun ev => match ev with CallStop c _ r => Some (c, r) | _ => None end).

Definition remove_calls : list event -> list (Container * (exception + unit)) :=
  collect (fun ev => match ev with CallRemove c r => Some (c, r) | _ => None end).

(** Everything but printed lines and sleeps. *)
Definition api_calls : list event -> list event :=
  collect (fun ev => match ev with Printed _ | Sleep _ => None | _ => Some ev end).

(** Calls to the Docker daemon. *)
Definition docker_calls : list event -> list event :=
  collect (fun ev => match ev with
                     | Printed _ | Sleep _ | CallMkdir _ _ | CallLoad _ _ => None
                     | _ => Some ev
                     end).

(** The values of the calls that returned, the calls that raised. *)
Definition returned {A B : Type} (calls : list (A * (exception + B))) : list B :=
  flat_map (fun call => match snd call with inr b => [b] | inl _ => [] end) calls.

Definition raised {A B : Type} (calls : list (A * (exception + B))) : list (A * exception) :=
  flat_map (fun call => match snd call with inr _ => [] | inl e => [(fst call, e)] end) calls.

(** [active_containers] as a function of the refreshes. *)
Definition running_of (calls : list (Container * (exception + Container))) : list Container :=
  filter (fun c => String.eqb (status c) "running") (returned calls).

(** ** Conditions on the surroundings *)

(** The orchestrator cannot find its own container: no hostname, or the
    lookup raises, or the container comes without labels and networks. *)
Inductive no_self_identity {W : Type} (R : Runtime W) (os : environ) (w : W) : Prop :=
| no_hostname :
    truthy (getenv_opt os "HOSTNAME") = false -> no_self_identity R os w
| lookup_raises (hostname : string) (e : exception) :
    getenv_opt os "HOSTNAME" = Some hostname ->
    snd (containers_get R hostname w) = inl e ->
    no_self_identity R os w
| attributes_missing (hostname : string) (c : self_container) :
    getenv_opt os "HOSTNAME" = Some hostname ->
    snd (containers_get R hostname w) = inr c ->
    (labels c = inr [] \/ exists e, labels c = inl e) ->
    (NetworkSettings c = Missing \/ NetworkSettings c = Null \/
     NetworkSettings c = Value Missing \/ NetworkSettings c = Value Null) ->
    no_self_identity R os w.

(** Creating a state directory never raises. *)
Definition mkdir_succeeds {W : Type} (R : Runtime W) : Prop :=
  forall (path : string) (w : W), snd (mkdir R path w) = inr tt.

(** A daemon that stops and removes the containers it holds, and holds no
    container it did not hold before a stop or a remove.  [present w cid]
    says that the daemon holds a container with id [cid]. *)
Record well_behaved {W : Type} (R : Runtime W) (present : W -> string -> bool) : Prop := {
  stop_present :
    forall c t w, present w (container_id c) = true -> snd (stop R c t w) = inr tt;
  stop_same :
    forall c t w cid, present (fst (stop R c t w)) cid = present w cid;
  remove_present :
    forall c w, present w (container_id c) = true ->
                snd (remove_container R c w) = inr tt /\
                present (fst (remove_container R c w)) (container_id c) = false;
  remove_no_new :
    forall c w cid, present (fst (remove_container R c w)) cid = true ->
                    present w cid = true
}.

(** A trace of context detection: lookups of the own container and printed
    lines only. *)
Definition is_lookup (ev : event) : Prop :=
  match ev with
  | CallGet _ _ | Printed _ => True
  | _ => False
  end.

(** The handles of the calls that returned. *)
Definition succeeded {A B : Type} (calls : list (A * (exception + B))) : list A :=
  flat_map (fun call => match snd call with inr _ => [fst call] | inl _ => [] end) calls.

(** A call to [containers.run] is the spawn call of a feed: it carries the
    name derived from the feed name, the configured image and the feed's
    environment. *)
Definition spawn_call_of (str_lower : string -> string) (os : environ)
  (ldes2sparql_image : string) (feed : pyval * feed_value)
  (call : container_config * (exception + Container)) : Prop :=
  cfg_name (fst call) = container_name (fst feed) /\
  cfg_image (fst call) = ldes2sparql_image /\
  exists fd, snd feed = Feed fd /\
             env_vars str_lower os (fst feed) fd = inr (cfg_environment (fst call)).

(** The outcome of a feed's spawn call is printed: the start, or the error
    under one of the two [except] clauses. *)
Definition outcome_logged (t : list event)
  (feed : pyval * feed_value) (call : container_config * (exception + Container)) : Prop :=
  match snd call with
  | inr c => In (Printed (ContainerStarted (fst feed) (short_id c))) t
  | inl e => In (Printed (if is_DockerException e
                          then ErrorSpawning (fst feed) e
                          else UnexpectedError (fst feed) e)) t
  end.

(** What [docker.from_env()] followed by [docker_client.ping()] gives in a
    world: the world afterwards and whether either call raised. *)
Definition connect {W : Type} (R : Runtime W) (w : W) : W * (exception + unit) :=
  match from_env R w with
  | (w1, inl e) => (w1, inl e)
  | (w1, inr _) => ping R w1
  end.

(** [LDES_CONFIG_PATH], with its fallback (line 286). *)
Definition config_path_of (os : environ) : string :=
  getenv os "LDES_CONFIG_PATH" "/data/ldes-feeds.yaml".

(** The feed's override map, as the configuration file gives it: the
    mapping under [environment]; a feed without one overrides nothing. *)
Definition overrides (fd : feed_data) : dict pyval :=
  match environment fd with
  | Environment d => d
  | NoEnvironment | EnvironmentNotMapping => []
  end.

(** The feed's [LOG_LEVEL] override, when given, is a string. *)
Definition log_level_text (fd : feed_data) : bool :=
  match dict_get (overrides fd) "LOG_LEVEL" with
  | Some v => is_str v
  | None => true
  end.

(** A feed entry of the shape the program expects: a mapping, whose
    [environment] is left out or a mapping, and whose [LOG_LEVEL] override,
    if any, is a string. *)
Definition well_formed (value : feed_value) : bool :=
  match value with
  | FeedNotMapping => false
  | Feed fd =>
      match environment fd with
      | EnvironmentNotMapping => false
      | NoEnvironment | Environment _ => log_level_text fd
      end
  end.

(** The nine required keys whose value is read from the override map as it
    is. *)
Definition overridable_keys : list string :=
  [ "SPARQL_ENDPOINT"; "TARGET_GRAPH"; "FOLLOW"; "MEMBER_BATCH_SIZE"; "MATERIALIZE";
    "POLLING_FREQUENCY"; "FAILURE_IS_FATAL"; "OPERATION_MODE"; "SHAPE" ].

(** The two keys that a feed can also give in a field of its own:
    [target_graph] for TARGET_GRAPH, [url] for LDES. *)
Definition shorthand_keys : list string := [ "TARGET_GRAPH"; "LDES" ].

(** ** Further readings of a run *)

(** A trace that holds events of the allowed kinds only. *)
Definition only (allowed : event -> bool) (t : list event) : Prop :=
  Forall (fun ev => allowed ev = true) t.

Definition detection_event (ev : event) : bool :=
  match ev with
  | CallGet _ _ | Printed _ => true
  | _ => false
  end.

Definition spawn_event (ev : event) : bool :=
  match ev with
  | CallMkdir _ _ | CallRun _ _ | Printed _ => true
  | _ => false
  end.

Definition process_event (ev : event) : bool :=
  match ev with
  | CallGet _ _ | CallMkdir _ _ | CallRun _ _ | Printed _ => true
  | _ => false
  end.

Definition reload_event (ev : event) : bool :=
  match ev with
  | CallReload _ _ => true
  | _ => false
  end.

Definition poll_event (ev : event) : bool :=
  match ev with
  | CallReload _ _ | Printed _ | Sleep _ => true
  | _ => false
  end.

Definition teardown_event (ev : event) : bool :=
  match ev with
  | CallStop _ _ _ | CallRemove _ _ | Printed _ => true
  | _ => false
  end.

Definition startup_event (ev : event) : bool :=
  match ev with
  | CallReload _ _ | CallStop _ _ _ | CallRemove _ _ | Sleep _ => false
  | _ => true
  end.

(** The arguments of [time.sleep], the lookups of the own container, and
    the directory creations and spawn calls in the order they were made. *)
Definition sleeps : list event -> list Z :=
  collect (fun ev => match ev with Sleep seconds => Some seconds | _ => None end).

Definition get_calls : list event -> list string :=
  collect (fun ev => match ev with CallGet hostname _ => Some hostname | _ => None end).

Definition mkdir_and_run_calls : list event -> list event :=
  collect (fun ev => match ev with
                     | CallMkdir _ _ | CallRun _ _ => Some ev
                     | _ => None
                     end).

(** [volumes], line 173. *)
Definition state_volume (host_pwd : string) (feed_name : pyval) : dict (dict string) :=
  [ (feed_state_dir host_pwd feed_name, [ ("bind", "/state"); ("mode", "rw") ]) ].

(** What [process_feeds] holds in [compose_labels] and [docker_network]
    when it enters its loop from world [w] (lines 144-152). *)
Definition detected_labels {W : Type} (R : Runtime W) (os : environ) (w : W) : dict string :=
  match result_of (get_compose_labels R os w) with
  | inr d => d
  | inl _ => []
  end.

Definition chosen_network {W : Type} (R : Runtime W) (os : environ) (w : W) : option string :=
  match result_of (get_parent_network R os (world_of (get_compose_labels R os w))) with
  | inr detected =>
      if truthy detected then detected else getenv_opt os "DOCKER_NETWORK"
  | inl _ => None
  end.

(** The keyword arguments [process_feeds] builds for a feed, given what it
    detected. *)
Definition spawn_config_of {W : Type} (R : Runtime W) (os : environ)
  (ldes2sparql_image : string) (w : W) (feed : pyval * feed_value)
  (cfg : container_config) : Prop :=
  exists fd env,
    snd feed = Feed fd /\
    env_vars (str_lower R) os (fst feed) fd = inr env /\
    cfg = container_config_of ldes2sparql_image (fst feed) env
            (state_volume (getenv os "HOST_PWD" (getcwd R)) (fst feed))
            (detected_labels R os w) (chosen_network R os w).

(** The orchestrator running as a compose service, attached to two
    networks, in a daemon that holds nothing yet. *)
Definition compose_parent : self_container :=
  {| labels := inr [ ("com.docker.compose.project", "kgap");
                     ("com.docker.compose.service", "ldes-consumer");
                     ("com.docker.compose.project.working_dir", "/srv/kgap") ];
     NetworkSettings := Value (Value [ "kgap_default"; "bridge" ]) |}.

Definition composed (config : exception + feeds_config) (refuse : list string) : Mock.world :=
  {| Mock.daemon_up := true; Mock.files := [ (Mock.config_path, config) ];
     Mock.held := []; Mock.counter := 0; Mock.refused := refuse;
     Mock.self := Some compose_parent |}.

Definition in_container : environ := [ ("HOSTNAME", "0123456789ab") ].

(** Three feeds, the second with [LOG_LEVEL: off], which YAML reads as a
    boolean. *)
Definition off_feed : feed_data :=
  {| url := Some (PStr "https://b"); target_graph := None;
     environment := Environment [ ("LOG_LEVEL", PBool false) ] |}.

Definition off_feeds : feeds_config :=
  Mapping (Some (FeedsMapping [ (PStr "a", Feed (Mock.plain_feed "https://a"));
                                (PStr "b", Feed off_feed);
                                (PStr "c", Feed (Mock.plain_feed "https://c")) ])).


(** The small daemon over a file system that refuses to create
    directories, and the small daemon refusing every stop. *)
Definition read_only : Runtime Mock.world :=
  {| getcwd := "/app";
     str_lower := ascii_lower;
     from_env := fun w => (w, inr tt);
     ping := Mock.up;
     containers_get := Mock.get;
     containers_run := Mock.run;
     reload := Mock.inspect;
     stop := Mock.halt;
     remove_container := Mock.delete;
     mkdir := fun path w => (w, inl (OSError "Read-only file system"));
     safe_load := Mock.read |}.

Definition unstoppable : Runtime Mock.world :=
  {| getcwd := "/app";
     str_lower := ascii_lower;
     from_env := fun w => (w, inr tt);
     ping := Mock.up;
     containers_get := Mock.get;
     containers_run := Mock.run;
     reload := Mock.inspect;
     stop := fun c timeout w => (w, inl (APIError "cannot stop container"));
     remove_container := Mock.delete;
     mkdir := Mock.make_dir;
     safe_load := Mock.read |}.

(** The outcome recorded for a [stop] is the daemon's answer to a [stop]
    with a ten-second timeout. *)
Definition stop_answer {W : Type} (R : Runtime W)
  (call : Container * (exception + unit)) : Prop :=
  exists w', snd call = snd (stop R (fst call) 10 w').

(** What stays tracked after a turn of the supervision loop: the refreshed
    object of a handle whose refresh returned, the handle as it was when
    the refresh raised. *)
Definition tracked_after (calls : list (Container * (exception + Container)))
  : list Container :=
  map (fun call => match snd call with
                   | inr fresh => fresh
                   | inl _ => fst call
                   end) calls.

(** The fixed fallbacks of the dictionary display, lines 193-204. *)
Definition fixed_defaults : dict string :=
  [ ("FOLLOW", "false"); ("MEMBER_BATCH_SIZE", "500"); ("MATERIALIZE", "false");
    ("POLLING_FREQUENCY", "60000"); ("FAILURE_IS_FATAL", "false");
    ("OPERATION_MODE", "Replication"); ("SHAPE", "") ].

(** * Properties *)

(** ** Dictionaries *)

Lemma dict_get_None_not_in {V : Type} (d : dict V) (k : string) :
  dict_get d k = None <-> ~ In k (keys d).
Proof.
  induction d as [|[k' v] r IH]; simpl.
  - tauto.
  - destruct (String.eqb_spec k' k) as [->|Hne].
    + split; [discriminate | intros H; exfalso; apply H; now left].
    + rewrite IH. tauto.
Qed.

Lemma dict_get_Some_in {V : Type} (d : dict V) (k : string) (v : V) :
  dict_get d k = Some v -> In k (keys d).
Proof.
  intros H. destruct (in_dec string_dec k (keys d)) as [Hin|Hout]; [assumption|].
  apply dict_get_None_not_in in Hout. congruence.
Qed.

Lemma dict_get_set_same {V : Type} (d : dict V) (k : string) (v : V) :
  dict_get (dict_set d k v) k = Some v.
Proof.
  induction d as [|[k' v'] r IH]; simpl.
  - now rewrite String.eqb_refl.
  - destruct (String.eqb_spec k' k) as [->|Hne]; simpl.
    + now rewrite String.eqb_refl.
    + destruct (String.eqb_spec k' k); [contradiction | assumption].
Qed.

Lemma dict_get_set_other {V : Type} (d : dict V) (k k' : string) (v : V) :
  k <> k' -> dict_get (dict_set d k v) k' = dict_get d k'.
Proof.
  intros Hne. induction d as [|[k0 v0] r IH]; simpl.
  - destruct (String.eqb_spec k k'); [contradiction | reflexivity].
  - destruct (String.eqb_spec k0 k) as [->|Hk]; simpl.
    + destruct (String.eqb_spec k k'); [contradiction | reflexivity].
    + destruct (String.eqb_spec k0 k'); [reflexivity | assumption].
Qed.

Lemma keys_dict_set_absent {V : Type} (d : dict V) (k : string) (v : V) :
  dict_get d k = None -> keys (dict_set d k v) = keys d ++ [k].
Proof.
  induction d as [|[k' v'] r IH]; simpl; intros H.
  - reflexivity.
  - destruct (String.eqb_spec k' k) as [->|Hne]; [discriminate|].
    simpl. f_equal. now apply IH.
Qed.

Lemma keys_dict_set_present {V : Type} (d : dict V) (k : string) (v : V) :
  dict_get d k <> None -> keys (dict_set d k v) = keys d.
Proof.
  induction d as [|[k' v'] r IH]; simpl; intros H.
  - congruence.
  - destruct (String.eqb_spec k' k) as [->|Hne]; simpl; [reflexivity|].
    f_equal. now apply IH.
Qed.

Lemma dict_set_NoDup {V : Type} (d : dict V) (k : string) (v : V) :
  NoDup (keys d) -> NoDup (keys (dict_set d k v)).
Proof.
  intros Hnd. destruct (dict_get d k) eqn:E.
  - rewrite keys_dict_set_present; [assumption | congruence].
  - rewrite keys_dict_set_absent by assumption.
    apply NoDup_app; [assumption | repeat constructor; intros [] | ].
    intros x Hx [<-|[]]. apply dict_get_None_not_in in E. contradiction.
Qed.

(** ** The loop that adds custom variables *)

Lemma add_custom_keeps (d : dict pyval) (kv : string * pyval) (k : string) (v : pyval) :
  dict_get d k = Some v -> dict_get (add_custom d kv) k = Some v.
Proof.
  destruct kv as [k' v']. unfold add_custom, dict_contains. intros H.
  destruct (dict_get d k') eqn:E; [assumption|].
  rewrite dict_get_set_other; [assumption|]. intros ->. congruence.
Qed.

Lemma fold_add_custom_keeps (fe d : dict pyval) (k : string) (v : pyval) :
  dict_get d k = Some v -> dict_get (fold_left add_custom fe d) k = Some v.
Proof.
  revert d. induction fe as [|kv r IH]; simpl; intros d H; [assumption|].
  apply IH. now apply add_custom_keeps.
Qed.

Lemma add_custom_NoDup (d : dict pyval) (kv : string * pyval) :
  NoDup (keys d) -> NoDup (keys (add_custom d kv)).
Proof.
  destruct kv as [k v]. unfold add_custom. intros H.
  destruct (dict_contains d k); [assumption | now apply dict_set_NoDup].
Qed.

Lemma fold_add_custom_NoDup (fe d : dict pyval) :
  NoDup (keys d) -> NoDup (keys (fold_left add_custom fe d)).
Proof.
  revert d. induction fe as [|kv r IH]; simpl; intros d H; [assumption|].
  apply IH. now apply add_custom_NoDup.
Qed.

Lemma fold_add_custom_new (fe d : dict pyval) (k : string) (v : pyval) :
  dict_get d k = None -> dict_get fe k = Some v ->
  dict_get (fold_left add_custom fe d) k = Some (PStr (py_str v)).
Proof.
  revert d. induction fe as [|[k' v'] r IH]; simpl; intros d Hd Hfe; [discriminate|].
  destruct (String.eqb_spec k' k) as [->|Hne].
  - injection Hfe as ->. apply fold_add_custom_keeps.
    unfold dict_contains. rewrite Hd. apply dict_get_set_same.
  - apply IH; [|assumption].
    unfold dict_contains. destruct (dict_get d k'); [assumption|].
    now rewrite dict_get_set_other.
Qed.

Lemma fold_add_custom_keys (fe d : dict pyval) (k : string) :
  In k (keys (fold_left add_custom fe d)) -> In k (keys d) \/ In k (keys fe).
Proof.
  revert d. induction fe as [|[k' v'] r IH]; simpl; intros d H; [now left|].
  apply IH in H. destruct H as [H|H]; [|now right; right].
  unfold dict_contains in H. destruct (dict_get d k') eqn:E; [now left|].
  rewrite keys_dict_set_absent in H by assumption.
  apply in_app_or in H. destruct H as [H|[<-|[]]]; [now left | now right; left].
Qed.

(** ** The environment of one feed *)

Lemma feed_env_overrides (fd : feed_data) (fe : dict pyval) :
  feed_env fd = inr fe -> fe = overrides fd.
Proof.
  unfold feed_env, overrides. destruct (environment fd); congruence.
Qed.

(** The dictionary display, once built, in terms of the override map. *)
Lemma env_vars_display_inr (str_lower : string -> string) (os : environ)
  (feed_name : pyval) (fd : feed_data) (d : dict pyval) :
  env_vars_display str_lower os feed_name fd = inr d ->
  feed_env fd = inr (overrides fd) /\
  exists t,
    dict_get_or (overrides fd) "LOG_LEVEL"
      (PStr (getenv os "LDES_LOG_LEVEL" (getenv os "LOG_LEVEL" "DEBUG"))) = PStr t /\
    d = [ ("SPARQL_ENDPOINT",
            dict_get_or (overrides fd) "SPARQL_ENDPOINT"
              (PStr (getenv os "DEFAULT_SPARQL_ENDPOINT" "")));
          ("TARGET_GRAPH", target_graph_in (overrides fd) os feed_name fd);
          ("FOLLOW", dict_get_or (overrides fd) "FOLLOW" (PStr "false"));
          ("MEMBER_BATCH_SIZE", dict_get_or (overrides fd) "MEMBER_BATCH_SIZE" (PStr "500"));
          ("MATERIALIZE", dict_get_or (overrides fd) "MATERIALIZE" (PStr "false"));
          ("LOG_LEVEL", PStr (str_lower t));
          ("LDES", feed_url fd);
          ("POLLING_FREQUENCY", dict_get_or (overrides fd) "POLLING_FREQUENCY" (PStr "60000"));
          ("FAILURE_IS_FATAL", dict_get_or (overrides fd) "FAILURE_IS_FATAL" (PStr "false"));
          ("OPERATION_MODE", dict_get_or (overrides fd) "OPERATION_MODE" (PStr "Replication"));
          ("SHAPE", dict_get_or (overrides fd) "SHAPE" (PStr "")) ].
Proof.
  unfold env_vars_display. destruct (feed_env fd) as [e|fe] eqn:Efe; [discriminate|].
  apply feed_env_overrides in Efe. subst fe.
  destruct (dict_get_or (overrides fd) "LOG_LEVEL" _) as [| |n|t] eqn:Elog;
    simpl; try discriminate.
  intros H. injection H as <-. split; [reflexivity|]. now exists t.
Qed.

Lemma env_vars_display_keys (str_lower : string -> string) (os : environ)
  (feed_name : pyval) (fd : feed_data) (d : dict pyval) :
  env_vars_display str_lower os feed_name fd = inr d -> keys d = required_keys.
Proof.
  intros H. destruct (env_vars_display_inr _ _ _ _ _ H) as [_ [t [_ ->]]]. reflexivity.
Qed.

Lemma well_formed_cases (fd : feed_data) :
  well_formed (Feed fd) = true <->
  environment fd <> EnvironmentNotMapping /\
  forall v, dict_get (overrides fd) "LOG_LEVEL" = Some v -> is_str v = true.
Proof.
  unfold well_formed, log_level_text, overrides.
  destruct (environment fd) as [| |d]; simpl.
  - split; [intros _; split; [discriminate | intros v H; discriminate H] | reflexivity].
  - split; [discriminate | intros [H _]; now contradiction H].
  - destruct (dict_get d "LOG_LEVEL") as [v|].
    + split.
      * intros H. split; [discriminate | intros v' Hv; now injection Hv as <-].
      * intros [_ H]. now apply H.
    + split; [intros _; split; [discriminate | intros v H; discriminate H] | reflexivity].
Qed.

Lemma env_vars_builds (str_lower : string -> string) (os : environ)
  (feed_name : pyval) (fd : feed_data) :
  well_formed (Feed fd) = true ->
  resolved_target_graph os feed_name fd =
    inr (target_graph_in (overrides fd) os feed_name fd) /\
  exists env, env_vars str_lower os feed_name fd = inr env.
Proof.
  intros H. apply well_formed_cases in H. destruct H as [Hmap Htext].
  assert (Hfe : feed_env fd = inr (overrides fd)).
  { unfold feed_env, overrides.
    destruct (environment fd); [reflexivity | now contradiction Hmap | reflexivity]. }
  unfold resolved_target_graph, env_vars, env_vars_display. rewrite Hfe.
  split; [reflexivity|]. unfold dict_get_or.
  destruct (dict_get (overrides fd) "LOG_LEVEL") as [v|] eqn:E.
  - specialize (Htext v eq_refl). destruct v; try discriminate. simpl. eauto.
  - simpl. eauto.
Qed.

Lemma env_vars_raises (str_lower : string -> string) (os : environ)
  (feed_name : pyval) (fd : feed_data) (e : exception) :
  env_vars str_lower os feed_name fd = inl e ->
  e = AttributeError /\ well_formed (Feed fd) = false.
Proof.
  unfold env_vars, env_vars_display, well_formed, log_level_text, feed_env, overrides,
    dict_get_or.
  destruct (environment fd) as [| |d].
  - simpl. intros H. discriminate H.
  - intros H. injection H as <-. now split.
  - destruct (dict_get d "LOG_LEVEL") as [v|].
    + destruct v; simpl; intros H; try discriminate H; injection H as <-; now split.
    + simpl. intros H. discriminate H.
Qed.

Lemma target_graph_raises (os : environ) (feed_name : pyval) (fd : feed_data)
  (e : exception) :
  resolved_target_graph os feed_name fd = inl e ->
  e = AttributeError /\ well_formed (Feed fd) = false.
Proof.
  unfold resolved_target_graph, well_formed, feed_env.
  destruct (environment fd); intros H; try discriminate H.
  injection H as <-. now split.
Qed.

Lemma required_keys_NoDup : NoDup required_keys.
Proof.
  unfold required_keys.
  repeat (constructor;
          [simpl; intros H; repeat destruct H as [H|H]; try discriminate; assumption|]).
  constructor.
Qed.

Lemma env_vars_inr (str_lower : string -> string) (os : environ) (feed_name : pyval)
  (fd : feed_data) (env : dict pyval) :
  env_vars str_lower os feed_name fd = inr env ->
  exists d, env_vars_display str_lower os feed_name fd = inr d /\
            env = fold_left add_custom (overrides fd) d.
Proof.
  unfold env_vars. destruct (feed_env fd) as [e|fe] eqn:Efe; [discriminate|].
  apply feed_env_overrides in Efe. subst fe.
  destruct (env_vars_display str_lower os feed_name fd) as [e|d]; [discriminate|].
  intros H. injection H as <-. eauto.
Qed.

Lemma env_vars_required_value (str_lower : string -> string) (os : environ)
  (feed_name : pyval) (fd : feed_data) (env d : dict pyval) (k : string) :
  env_vars_display str_lower os feed_name fd = inr d ->
  env = fold_left add_custom (overrides fd) d ->
  In k required_keys -> dict_get env k = dict_get d k /\ dict_get d k <> None.
Proof.
  intros Hd -> Hk. rewrite <- (env_vars_display_keys _ _ _ _ _ Hd) in Hk.
  destruct (dict_get d k) as [v|] eqn:E.
  - split; [now apply fold_add_custom_keeps | discriminate].
  - apply dict_get_None_not_in in E. contradiction.
Qed.

(** C1 (the code departs from the claim).  For a feed without a
    SPARQL_ENDPOINT override the resolved SPARQL_ENDPOINT is the
    DEFAULT_SPARQL_ENDPOINT variable when it is set, but the empty string
    when it is not: the endpoint computed from the repository template at
    lines 154-158, which is never empty, is printed and then not used. *)
Theorem C1_endpoint_without_override :
  forall (str_lower : string -> string) (os : environ) (feed_name : pyval)
         (fd : feed_data) (env : dict pyval),
    env_vars str_lower os feed_name fd = inr env ->
    dict_get (overrides fd) "SPARQL_ENDPOINT" = None ->
    (forall v, getenv_opt os "DEFAULT_SPARQL_ENDPOINT" = Some v ->
               dict_get env "SPARQL_ENDPOINT" = Some (PStr v) /\
               default_sparql_endpoint os = v) /\
    (getenv_opt os "DEFAULT_SPARQL_ENDPOINT" = None ->
       dict_get env "SPARQL_ENDPOINT" = Some (PStr "") /\
       default_sparql_endpoint os =
         ("http://graphdb:7200/repositories/" ++ gdb_repo os ++ "/statements")%string /\
       default_sparql_endpoint os <> "").
Proof.
  intros str_lower os feed_name fd env Henv Hov.
  destruct (env_vars_inr _ _ _ _ _ Henv) as [d [Hd He]].
  assert (Hv : dict_get env "SPARQL_ENDPOINT" =
               Some (PStr (getenv os "DEFAULT_SPARQL_ENDPOINT" ""))).
  { destruct (env_vars_required_value str_lower os feed_name fd env d "SPARQL_ENDPOINT" Hd He)
      as [-> _].
    - simpl; tauto.
    - destruct (env_vars_display_inr _ _ _ _ _ Hd) as [_ [t [_ ->]]].
      simpl. unfold dict_get_or at 1. now rewrite Hov. }
  unfold getenv_opt, default_sparql_endpoint, getenv, dict_get_or in *.
  split; [intros v E | intros E]; rewrite E in Hv |- *.
  - now split.
  - repeat split; [assumption | discriminate].
Qed.

Lemma C1_endpoint_without_override_witness :
  dict_get [ ("SPARQL_ENDPOINT", PStr "");
             ("TARGET_GRAPH", PStr "urn:kgap:ldes:sensors");
             ("FOLLOW", PStr "true"); ("MEMBER_BATCH_SIZE", PStr "500");
             ("MATERIALIZE", PStr "false"); ("LOG_LEVEL", PStr "debug");
             ("LDES", PStr "https://example/feed");
             ("POLLING_FREQUENCY", PStr "60000");
             ("FAILURE_IS_FATAL", PStr "false");
             ("OPERATION_MODE", PStr "Replication"); ("SHAPE", PStr "") ] "SPARQL_ENDPOINT"
    = Some (PStr "") /\
  default_sparql_endpoint [] = "http://graphdb:7200/repositories/kgap/statements".
Proof.
  destruct (C1_endpoint_without_override ascii_lower [] (PStr "sensors") Mock.sensors _
              eq_refl eq_refl) as [_ H].
  destruct (H eq_refl) as [H1 [H2 _]]. split; [exact H1 | exact H2].
Defined.

(** C3, as amended.  Two keys have a shorthand field.  For the target
    graph the override TARGET_GRAPH wins, then the feed's [target_graph]
    field, then the computed [urn:kgap:<prefix>:<feedName>], whose prefix
    is the process variable GRAPH_PREFIX or [ldes].  For the source URL
    there is no precedence: LDES is the feed's [url] field, or the empty
    string without one, whatever the override map holds under LDES. *)
Theorem C3_override_shorthand_default :
  forall (str_lower : string -> string) (os : environ) (feed_name : pyval)
         (fd : feed_data) (env : dict pyval),
    env_vars str_lower os feed_name fd = inr env ->
    (forall O, dict_get (overrides fd) "TARGET_GRAPH" = Some O ->
               dict_get env "TARGET_GRAPH" = Some O) /\
    (forall S, dict_get (overrides fd) "TARGET_GRAPH" = None ->
               target_graph fd = Some S ->
               dict_get env "TARGET_GRAPH" = Some S) /\
    (dict_get (overrides fd) "TARGET_GRAPH" = None ->
     target_graph fd = None ->
     dict_get env "TARGET_GRAPH" =
       Some (PStr ("urn:kgap:" ++ getenv os "GRAPH_PREFIX" "ldes" ++ ":"
                   ++ py_str feed_name)%string)) /\
    (forall S, url fd = Some S -> dict_get env "LDES" = Some S) /\
    (url fd = None -> dict_get env "LDES" = Some (PStr "")).
Proof.
  intros str_lower os feed_name fd env Henv.
  destruct (env_vars_inr _ _ _ _ _ Henv) as [d [Hd He]].
  assert (Hreq : forall k, In k required_keys -> dict_get env k = dict_get d k).
  { intros k Hk.
    now destruct (env_vars_required_value str_lower os feed_name fd env d k Hd He Hk). }
  destruct (env_vars_display_inr _ _ _ _ _ Hd) as [_ [t [_ ->]]].
  rewrite (Hreq "TARGET_GRAPH") by (simpl; tauto).
  rewrite (Hreq "LDES") by (simpl; tauto).
  simpl. unfold target_graph_in, feed_url, dict_get_or.
  split; [|split; [|split; [|split]]].
  - intros O ->. reflexivity.
  - intros S -> ->. reflexivity.
  - intros -> ->. reflexivity.
  - intros S ->. reflexivity.
  - intros ->. reflexivity.
Qed.

(** Three feeds named [sensors]: one with the override and the field, one
    with the field alone, one with neither. *)
Lemma C3_override_shorthand_default_witness :
  dict_get [ ("SPARQL_ENDPOINT", PStr ""); ("TARGET_GRAPH", PStr "urn:o");
             ("FOLLOW", PStr "false"); ("MEMBER_BATCH_SIZE", PStr "500");
             ("MATERIALIZE", PStr "false"); ("LOG_LEVEL", PStr "debug");
             ("LDES", PStr "https://a"); ("POLLING_FREQUENCY", PStr "60000");
             ("FAILURE_IS_FATAL", PStr "false");
             ("OPERATION_MODE", PStr "Replication"); ("SHAPE", PStr "") ] "TARGET_GRAPH"
    = Some (PStr "urn:o") /\
  dict_get [ ("SPARQL_ENDPOINT", PStr ""); ("TARGET_GRAPH", PStr "urn:s");
             ("FOLLOW", PStr "true"); ("MEMBER_BATCH_SIZE", PStr "500");
             ("MATERIALIZE", PStr "false"); ("LOG_LEVEL", PStr "debug");
             ("LDES", PStr "https://a"); ("POLLING_FREQUENCY", PStr "60000");
             ("FAILURE_IS_FATAL", PStr "false");
             ("OPERATION_MODE", PStr "Replication"); ("SHAPE", PStr "") ] "TARGET_GRAPH"
    = Some (PStr "urn:s") /\
  dict_get [ ("SPARQL_ENDPOINT", PStr ""); ("TARGET_GRAPH", PStr "urn:kgap:marine:sensors");
             ("FOLLOW", PStr "false"); ("MEMBER_BATCH_SIZE", PStr "500");
             ("MATERIALIZE", PStr "false"); ("LOG_LEVEL", PStr "debug");
             ("LDES", PStr ""); ("POLLING_FREQUENCY", PStr "60000");
             ("FAILURE_IS_FATAL", PStr "false");
             ("OPERATION_MODE", PStr "Replication"); ("SHAPE", PStr "") ] "TARGET_GRAPH"
    = Some (PStr "urn:kgap:marine:sensors").
Proof.
  split; [|split].
  - exact (proj1 (C3_override_shorthand_default ascii_lower [] (PStr "sensors")
      {| url := Some (PStr "https://a"); target_graph := Some (PStr "urn:s");
         environment := Environment [ ("TARGET_GRAPH", PStr "urn:o") ] |} _ eq_refl)
      (PStr "urn:o") eq_refl).
  - exact (proj1 (proj2 (C3_override_shorthand_default ascii_lower [] (PStr "sensors")
      {| url := Some (PStr "https://a"); target_graph := Some (PStr "urn:s");
         environment := Environment [ ("FOLLOW", PStr "true") ] |} _ eq_refl))
      (PStr "urn:s") eq_refl eq_refl).
  - exact (proj1 (proj2 (proj2 (C3_override_shorthand_default ascii_lower
      [ ("GRAPH_PREFIX", "marine") ] (PStr "sensors")
      {| url := None; target_graph := None; environment := NoEnvironment |} _ eq_refl)))
      eq_refl eq_refl).
Defined.

(** C3 as stated fails for the source URL, a key with a shorthand field
    ([url]), an override (LDES in the override map) and a default (the
    empty string): with [url: https://a] and the override
    [LDES: https://b] the override is present and the resolved value is
    the field's. *)
Lemma C3_override_loses_to_url :
  ~ (forall (str_lower : string -> string) (os : environ) (feed_name : pyval)
            (fd : feed_data) (env : dict pyval) (k : string) (O : pyval),
        env_vars str_lower os feed_name fd = inr env ->
        In k shorthand_keys ->
        dict_get (overrides fd) k = Some O ->
        dict_get env k = Some O).
Proof.
  intros H.
  specialize (H ascii_lower [] (PStr "s")
    {| url := Some (PStr "https://a"); target_graph := None;
       environment := Environment [ ("LDES", PStr "https://b") ] |}
    _ "LDES" (PStr "https://b") eq_refl).
  simpl in H.
  assert (E : Some (PStr "https://a") = Some (PStr "https://b")).
  { apply H; [tauto | reflexivity]. }
  discriminate E.
Qed.

(** C4.  A produced environment holds each of the eleven required keys, no
    key twice, every override key outside the required set with its value
    turned into a string by [str], and nothing else; the required keys keep
    the values of the dictionary display. *)
Theorem C4_environment_keys :
  forall (str_lower : string -> string) (os : environ) (feed_name : pyval)
         (fd : feed_data) (env : dict pyval),
    env_vars str_lower os feed_name fd = inr env ->
    (forall k, In k required_keys -> In k (keys env)) /\
    NoDup (keys env) /\
    (forall k v, dict_get (overrides fd) k = Some v -> ~ In k required_keys ->
                 dict_get env k = Some (PStr (py_str v))) /\
    (forall k, In k required_keys ->
               inr (dict_get env k) =
               match env_vars_display str_lower os feed_name fd with
               | inl e => inl e
               | inr d => inr (dict_get d k)
               end) /\
    (forall k, In k (keys env) -> In k required_keys \/ In k (keys (overrides fd))).
Proof.
  intros str_lower os feed_name fd env Henv.
  destruct (env_vars_inr _ _ _ _ _ Henv) as [d [Hd He]].
  pose proof (env_vars_display_keys _ _ _ _ _ Hd) as Hk.
  repeat split.
  - intros k Hin.
    destruct (env_vars_required_value str_lower os feed_name fd env d k Hd He Hin) as [H1 H2].
    destruct (dict_get env k) as [v|] eqn:E; [|congruence].
    eapply dict_get_Some_in; eassumption.
  - subst env. apply fold_add_custom_NoDup. rewrite Hk. apply required_keys_NoDup.
  - intros k v Hfe Hout. subst env. apply fold_add_custom_new; [|assumption].
    apply dict_get_None_not_in. now rewrite Hk.
  - intros k Hin. rewrite Hd. f_equal.
    now destruct (env_vars_required_value str_lower os feed_name fd env d k Hd He Hin).
  - intros k Hin. subst env. apply fold_add_custom_keys in Hin. now rewrite Hk in Hin.
Qed.

Lemma C4_environment_keys_witness :
  NoDup (keys [ ("SPARQL_ENDPOINT", PStr ""); ("TARGET_GRAPH", PStr "urn:kgap:ldes:s");
                ("FOLLOW", PStr "false"); ("MEMBER_BATCH_SIZE", PInt 250);
                ("MATERIALIZE", PStr "false"); ("LOG_LEVEL", PStr "debug");
                ("LDES", PStr ""); ("POLLING_FREQUENCY", PStr "60000");
                ("FAILURE_IS_FATAL", PStr "false");
                ("OPERATION_MODE", PStr "Replication"); ("SHAPE", PStr "");
                ("RETRIES", PStr "3"); ("VERBOSE", PStr "True") ]).
Proof.
  exact (proj1 (proj2 (C4_environment_keys ascii_lower [] (PStr "s")
    {| url := None; target_graph := None;
       environment := Environment [ ("RETRIES", PInt 3); ("MEMBER_BATCH_SIZE", PInt 250);
                                    ("VERBOSE", PBool true) ] |} _ eq_refl))).
Defined.

(** C10, as amended.  The resolved LOG_LEVEL is what [str.lower] makes of
    the override when there is one, and of the process default otherwise;
    the nine keys of [overridable_keys] take their override value as it is;
    LDES is the feed's [url] field whatever the override map says. *)
Theorem C10_log_level_lowercased :
  forall (str_lower : string -> string) (os : environ) (feed_name : pyval)
         (fd : feed_data) (env : dict pyval),
    env_vars str_lower os feed_name fd = inr env ->
    (exists t,
        dict_get_or (overrides fd) "LOG_LEVEL"
          (PStr (getenv os "LDES_LOG_LEVEL" (getenv os "LOG_LEVEL" "DEBUG"))) = PStr t /\
        dict_get env "LOG_LEVEL" = Some (PStr (str_lower t))) /\
    (forall t, dict_get (overrides fd) "LOG_LEVEL" = Some (PStr t) ->
               dict_get env "LOG_LEVEL" = Some (PStr (str_lower t))) /\
    (forall k v, In k overridable_keys ->
                 dict_get (overrides fd) k = Some v -> dict_get env k = Some v) /\
    dict_get env "LDES" = Some (feed_url fd).
Proof.
  intros str_lower os feed_name fd env Henv.
  destruct (env_vars_inr _ _ _ _ _ Henv) as [d [Hd He]].
  assert (Hreq : forall k, In k required_keys -> dict_get env k = dict_get d k).
  { intros k Hk.
    now destruct (env_vars_required_value str_lower os feed_name fd env d k Hd He Hk). }
  destruct (env_vars_display_inr _ _ _ _ _ Hd) as [_ [t [Elog ->]]].
  split; [|split; [|split]].
  - exists t. split; [exact Elog|].
    rewrite Hreq by (simpl; tauto). reflexivity.
  - intros t' Hov. unfold dict_get_or in Elog. rewrite Hov in Elog.
    injection Elog as ->. rewrite Hreq by (simpl; tauto). reflexivity.
  - intros k v Hk Hov.
    assert (Hin : In k required_keys).
    { simpl in Hk |- *. intuition. }
    rewrite (Hreq k Hin).
    simpl in Hk.
    repeat (destruct Hk as [<-|Hk];
            [simpl; unfold target_graph_in, dict_get_or; now rewrite Hov|]).
    destruct Hk.
  - rewrite Hreq by (simpl; tauto). reflexivity.
Qed.

Lemma C10_log_level_lowercased_witness :
  dict_get [ ("SPARQL_ENDPOINT", PStr ""); ("TARGET_GRAPH", PStr "urn:kgap:ldes:s");
             ("FOLLOW", PStr "false"); ("MEMBER_BATCH_SIZE", PStr "500");
             ("MATERIALIZE", PStr "false"); ("LOG_LEVEL", PStr "warn");
             ("LDES", PStr "https://a"); ("POLLING_FREQUENCY", PStr "60000");
             ("FAILURE_IS_FATAL", PStr "false");
             ("OPERATION_MODE", PStr "Replication"); ("SHAPE", PStr "") ] "LOG_LEVEL"
    = Some (PStr (ascii_lower "WARN")).
Proof.
  exact (proj1 (proj2 (C10_log_level_lowercased ascii_lower [] (PStr "s")
    {| url := Some (PStr "https://a"); target_graph := None;
       environment := Environment [ ("LOG_LEVEL", PStr "WARN");
                                    ("LDES", PStr "https://b") ] |}
    _ eq_refl)) "WARN" eq_refl).
Defined.

(** C10 as stated fails for LDES: a required key other than LOG_LEVEL whose
    override is not taken.  With [url: https://a] and the override
    [LDES: https://b] the environment holds [LDES=https://a]. *)
Lemma C10_ldes_override_ignored :
  ~ (forall (str_lower : string -> string) (os : environ) (feed_name : pyval)
            (fd : feed_data) (env : dict pyval) (k : string) (v : pyval),
        env_vars str_lower os feed_name fd = inr env ->
        In k required_keys -> k <> "LOG_LEVEL" ->
        dict_get (overrides fd) k = Some v ->
        dict_get env k = Some v).
Proof.
  intros H.
  specialize (H ascii_lower [] (PStr "s")
    {| url := Some (PStr "https://a"); target_graph := None;
       environment := Environment [ ("LDES", PStr "https://b") ] |}
    _ "LDES" (PStr "https://b") eq_refl).
  simpl in H.
  assert (E : Some (PStr "https://a") = Some (PStr "https://b")).
  { apply H; [tauto | discriminate | reflexivity]. }
  discriminate E.
Qed.


(** ** Traces *)

(** Open the monad's operations, leaving the collaborators' calls in sight. *)
Ltac open_monad :=
  unfold try_except, bind, call, lift, print, emit, ret, raise.

Lemma collect_app {A : Type} (f : event -> option A) (t1 t2 : list event) :
  collect f (t1 ++ t2) = collect f t1 ++ collect f t2.
Proof.
  induction t1 as [|ev r IH]; simpl; [reflexivity|].
  destruct (f ev); simpl; now rewrite IH.
Qed.

Lemma collect_none {A : Type} (f : event -> option A) (t : list event) :
  Forall (fun ev => f ev = None) t -> collect f t = [].
Proof.
  induction 1 as [|ev r H _ IH]; simpl; [reflexivity|]. now rewrite H.
Qed.

Lemma run_calls_app (t1 t2 : list event) :
  run_calls (t1 ++ t2) = run_calls t1 ++ run_calls t2.
Proof. apply collect_app. Qed.

Lemma lookups_no_run (t : list event) : Forall is_lookup t -> run_calls t = [].
Proof.
  intros H. apply collect_none. eapply Forall_impl; [|exact H].
  intros [] Hev; simpl in *; tauto.
Qed.

Lemma returned_app {A B : Type} (c1 c2 : list (A * (exception + B))) :
  returned (c1 ++ c2) = returned c1 ++ returned c2.
Proof. apply flat_map_app. Qed.

Lemma returned_raised_length {A B : Type} (calls : list (A * (exception + B))) :
  length (returned calls) + length (raised calls) = length calls.
Proof.
  induction calls as [|[a [e|b]] r IH]; simpl; lia.
Qed.

(** ** Context detection *)

Section Detection.

Context {W : Type} (R : Runtime W).

Lemma get_compose_labels_returns (os : environ) (w : W) :
  exists w' t d,
    get_compose_labels R os w = (w', t, inr d) /\ Forall is_lookup t.
Proof.
  unfold get_compose_labels. open_monad.
  destruct (getenv_opt os "HOSTNAME") as [hostname|]; [|repeat eexists; constructor].
  destruct (String.eqb hostname ""); [repeat eexists; constructor|].
  destruct (containers_get R hostname w) as [w1 [e|c]]; cbv beta iota zeta.
  - repeat eexists. repeat constructor.
  - destruct (labels c) as [e|ls]; cbv beta iota zeta.
    + repeat eexists. repeat constructor.
    + destruct (fold_left (copy_label ls) compose_keys []); cbv beta iota zeta;
        repeat eexists; repeat constructor.
Qed.

Lemma get_parent_network_returns (os : environ) (w : W) :
  exists w' t n,
    get_parent_network R os w = (w', t, inr n) /\ Forall is_lookup t.
Proof.
  unfold get_parent_network. open_monad.
  destruct (getenv_opt os "HOSTNAME") as [hostname|]; [|repeat eexists; constructor].
  destruct (String.eqb hostname ""); [repeat eexists; constructor|].
  destruct (containers_get R hostname w) as [w1 [e|c]]; simpl.
  - repeat eexists. repeat constructor.
  - destruct (attrs_networks c) as [e|[[|n ns]|]]; simpl;
      repeat eexists; repeat constructor.
Qed.

Lemma no_identity_no_labels (os : environ) (w : W) :
  no_self_identity R os w -> result_of (get_compose_labels R os w) = inr [].
Proof.
  unfold get_compose_labels, result_of. open_monad.
  intros [Hh | hostname e Hh Hget | hostname c Hh Hget Hl Hn].
  - unfold truthy in Hh. destruct (getenv_opt os "HOSTNAME") as [hostname|]; [|reflexivity].
    destruct (String.eqb hostname ""); [reflexivity | discriminate].
  - rewrite Hh. destruct (String.eqb hostname ""); [reflexivity|].
    destruct (containers_get R hostname w) as [w1 r]. simpl in Hget. subst r. reflexivity.
  - rewrite Hh. destruct (String.eqb hostname ""); [reflexivity|].
    destruct (containers_get R hostname w) as [w1 r]. simpl in Hget. subst r. simpl.
    destruct Hl as [-> | [e ->]]; reflexivity.
Qed.

Lemma no_identity_no_network (os : environ) (w : W) :
  no_self_identity R os w -> result_of (get_parent_network R os w) = inr None.
Proof.
  unfold get_parent_network, result_of. open_monad.
  intros [Hh | hostname e Hh Hget | hostname c Hh Hget Hl Hn].
  - unfold truthy in Hh. destruct (getenv_opt os "HOSTNAME") as [hostname|]; [|reflexivity].
    destruct (String.eqb hostname ""); [reflexivity | discriminate].
  - rewrite Hh. destruct (String.eqb hostname ""); [reflexivity|].
    destruct (containers_get R hostname w) as [w1 r]. simpl in Hget. subst r. reflexivity.
  - rewrite Hh. destruct (String.eqb hostname ""); [reflexivity|].
    destruct (containers_get R hostname w) as [w1 r]. simpl in Hget. subst r. simpl.
    unfold attrs_networks.
    destruct Hn as [-> | [-> | [-> | ->]]]; reflexivity.
Qed.

End Detection.

(** C9.  Neither detection function lets an exception out, whatever the
    daemon answers; when the orchestrator cannot find its own container the
    label detection returns the empty mapping and the network detection
    returns [None]. *)
Theorem C9_detection_never_raises :
  forall (W : Type) (R : Runtime W) (os : environ) (w : W),
    (exists d, result_of (get_compose_labels R os w) = inr d) /\
    (exists n, result_of (get_parent_network R os w) = inr n) /\
    (no_self_identity R os w ->
     result_of (get_compose_labels R os w) = inr [] /\
     result_of (get_parent_network R os w) = inr None).
Proof.
  intros W R os w. repeat split.
  - destruct (get_compose_labels_returns R os w) as [w' [t [d [E _]]]].
    exists d. now rewrite E.
  - destruct (get_parent_network_returns R os w) as [w' [t [n [E _]]]].
    exists n. now rewrite E.
  - now apply no_identity_no_labels.
  - now apply no_identity_no_network.
Qed.

Lemma C9_detection_never_raises_witness :
  result_of (get_compose_labels Mock.runtime [ ("HOSTNAME", "0123456789ab") ]
               (Mock.fresh (inr Mock.three_feeds) [])) = inr [] /\
  result_of (get_parent_network Mock.runtime [ ("HOSTNAME", "0123456789ab") ]
               (Mock.fresh (inr Mock.three_feeds) [])) = inr None.
Proof.
  apply (C9_detection_never_raises Mock.world Mock.runtime).
  apply (lookup_raises _ _ _ "0123456789ab" (NotFound "0123456789ab")); reflexivity.
Defined.

(** ** Supervision *)

Section Supervision.

Context {W : Type} (R : Runtime W).

Lemma refresh_all_returns (containers : list Container) (w : W) :
  exists w' t tracked active,
    refresh_all R containers w = (w', t, inr (tracked, active)) /\
    map fst (reload_calls t) = containers /\
    active = running_of (reload_calls t) /\
    api_calls t = t /\
    length tracked = length containers.
Proof.
  revert w. induction containers as [|c rest IH]; intros w.
  - exists w, [], [], []. repeat split.
  - simpl refresh_all. unfold try_except, bind, call, ret.
    destruct (reload R c w) as [w1 [e|fresh]]; cbv beta iota zeta;
      [|destruct (String.eqb (status fresh) "running") eqn:Es; cbv beta iota zeta];
      destruct (IH w1) as [w2 [t [tracked [active [E [Hc [Ha [Hapi Hl]]]]]]]];
      rewrite E; cbv beta iota zeta; simpl; rewrite ?app_nil_r;
      (eexists; eexists; eexists; eexists; split; [reflexivity|]);
      unfold reload_calls, api_calls, running_of in *; simpl; rewrite ?Es;
      repeat split; congruence.
Qed.

Lemma running_excludes_raised (calls : list (Container * (exception + Container))) :
  length (running_of calls) + length (raised calls) <= length calls.
Proof.
  unfold running_of. rewrite <- (returned_raised_length calls).
  pose proof (filter_length_le (fun c => String.eqb (status c) "running") (returned calls)).
  lia.
Qed.

End Supervision.

Lemma monitor_once_unfold {W : Type} (R : Runtime W) (containers : list Container)
  (w w1 : W) (t : list event) (tracked active : list Container) :
  refresh_all R containers w = (w1, t, inr (tracked, active)) ->
  monitor_once R containers w =
    (w1,
     t ++ [ Printed (match active with
                     | [] => AllStopped
                     | _ :: _ => Running (length active) (length containers)
                     end);
            Sleep 10 ],
     inr (tracked, active)).
Proof.
  intros E. unfold monitor_once, bind, print, emit, ret. rewrite E.
  cbv beta iota zeta. simpl snd. destruct active; reflexivity.
Qed.

(** C8.  One turn of the supervision loop refreshes every tracked handle in
    order and returns without raising, whatever the refreshes do; the
    active list is exactly the refreshed handles whose status is
    ["running"], so a handle whose refresh raised is not counted; the count
    printed is the length of that list. *)
Theorem C8_poll_counts_running :
  forall (W : Type) (R : Runtime W) (containers : list Container) (w : W),
  exists w' t tracked active,
    monitor_once R containers w = (w', t, inr (tracked, active)) /\
    map fst (reload_calls t) = containers /\
    active = running_of (reload_calls t) /\
    length active + length (raised (reload_calls t)) <= length containers /\
    In (Printed (match active with
                 | [] => AllStopped
                 | _ :: _ => Running (length active) (length containers)
                 end)) t.
Proof.
  intros W R containers w.
  destruct (refresh_all_returns R containers w)
    as [w1 [t [tracked [active [E [Hc [Ha [Hapi Hl]]]]]]]].
  exists w1. eexists. exists tracked, active.
  split; [exact (monitor_once_unfold R containers w w1 t tracked active E)|].
  assert (Hre : forall l, reload_calls (t ++ [Printed l; Sleep 10]) = reload_calls t).
  { intros l. unfold reload_calls. rewrite collect_app. simpl. apply app_nil_r. }
  rewrite Hre. repeat split; try assumption.
  - pose proof (running_excludes_raised (reload_calls t)) as H. rewrite <- Ha in H.
    rewrite <- Hc, length_map. exact H.
  - apply in_or_app. right. now left.
Qed.

(** ** Teardown *)

Section Teardown.

Context {W : Type} (R : Runtime W).

(** What one handle's teardown does to the world and to the trace. *)
Lemma cleanup_container_returns (c : Container) (w : W) :
  exists w' t,
    cleanup_container R c w = (w', t, inr tt) /\
    map fst (stop_calls t) = [c] /\
    map fst (remove_calls t) = succeeded (stop_calls t) /\
    (forall present, well_behaved R present ->
       present w' (container_id c) = false /\
       (forall cid, present w' cid = true -> present w cid = true)).
Proof.
  unfold cleanup_container. open_monad.
  destruct (stop R c 10 w) as [w1 [e|[]]] eqn:Es; cbv beta iota zeta.
  - eexists; eexists; split; [reflexivity|]. repeat split.
    + destruct (present w (container_id c)) eqn:P.
      * pose proof (stop_present R present H c 10%Z w P) as Hs.
        rewrite Es in Hs. discriminate.
      * pose proof (stop_same R present H c 10%Z w (container_id c)) as Hs.
        rewrite Es in Hs. simpl in Hs. congruence.
    + intros cid. pose proof (stop_same R present H c 10%Z w cid) as Hs.
      rewrite Es in Hs. simpl in Hs. congruence.
  - assert (Hsame : forall present, well_behaved R present ->
                                    forall cid, present w1 cid = present w cid).
    { intros present H cid. pose proof (stop_same R present H c 10%Z w cid) as Hs.
      now rewrite Es in Hs. }
    destruct (remove_container R c w1) as [w2 [e|[]]] eqn:Er; cbv beta iota zeta;
      (eexists; eexists; split; [reflexivity|]); repeat split.
    + destruct (present w1 (container_id c)) eqn:P.
      * destruct (remove_present R present H c w1 P) as [Hr _].
        rewrite Er in Hr. discriminate.
      * destruct (present w2 (container_id c)) eqn:P2; [|reflexivity].
        pose proof (remove_no_new R present H c w1 (container_id c)) as Hn.
        rewrite Er in Hn. simpl in Hn. rewrite (Hn P2) in P. discriminate.
    + intros cid P2. rewrite <- (Hsame present H).
      pose proof (remove_no_new R present H c w1 cid) as Hn.
      rewrite Er in Hn. now apply Hn.
    + destruct (present w2 (container_id c)) eqn:P2; [|reflexivity].
      pose proof (remove_no_new R present H c w1 (container_id c)) as Hn.
      rewrite Er in Hn. simpl in Hn. specialize (Hn P2).
      destruct (remove_present R present H c w1 Hn) as [_ Hgone].
      rewrite Er in Hgone. simpl in Hgone. congruence.
    + intros cid P2. rewrite <- (Hsame present H).
      pose proof (remove_no_new R present H c w1 cid) as Hn.
      rewrite Er in Hn. now apply Hn.
Qed.

(** A handle whose [stop] raises is not removed: the [except] clause is
    reached before [remove]. *)
Lemma stop_raises_skips_remove (c : Container) (w : W) (e : exception) :
  snd (stop R c 10 w) = inl e ->
  remove_calls (trace_of (cleanup_container R c w)) = [] /\
  In (Printed (ErrorCleaningUp e)) (trace_of (cleanup_container R c w)) /\
  result_of (cleanup_container R c w) = inr tt.
Proof.
  unfold cleanup_container, trace_of, result_of. open_monad.
  destruct (stop R c 10 w) as [w1 r]. simpl. intros ->. simpl. tauto.
Qed.

Lemma cleanup_each_returns (containers : list Container) (w : W) :
  exists w' t,
    cleanup_each R containers w = (w', t, inr tt) /\
    map fst (stop_calls t) = containers /\
    map fst (remove_calls t) = succeeded (stop_calls t) /\
    (forall present, well_behaved R present ->
       (forall c, In c containers -> present w' (container_id c) = false) /\
       (forall cid, present w' cid = true -> present w cid = true)).
Proof.
  revert w. induction containers as [|c rest IH]; intros w.
  - exists w, []. repeat split; [intros c [] | auto].
  - simpl cleanup_each. unfold bind.
    destruct (cleanup_container_returns c w) as [w1 [t1 [E1 [Hs1 [Hr1 Hp1]]]]].
    destruct (IH w1) as [w2 [t2 [E2 [Hs2 [Hr2 Hp2]]]]].
    rewrite E1, E2. exists w2, (t1 ++ t2). split; [reflexivity|].
    unfold stop_calls, remove_calls in *. rewrite !collect_app.
    unfold succeeded in *. rewrite flat_map_app, !map_app.
    split; [now rewrite Hs1, Hs2|]. split; [now rewrite Hr1, Hr2|].
    intros present H. destruct (Hp1 present H) as [G1 M1].
    destruct (Hp2 present H) as [G2 M2]. split.
    + intros c' [<-|Hin]; [|now apply G2].
      destruct (present w2 (container_id c)) eqn:P; [|reflexivity].
      rewrite (M2 _ P) in G1. discriminate.
    + intros cid P. auto.
Qed.

Lemma cleanup_containers_returns (containers : list Container) (w : W) :
  exists w' t,
    cleanup_containers R containers w = (w', t, inr tt) /\
    map fst (stop_calls t) = containers /\
    map fst (remove_calls t) = succeeded (stop_calls t) /\
    (forall present, well_behaved R present ->
       (forall c, In c containers -> present w' (container_id c) = false) /\
       (forall cid, present w' cid = true -> present w cid = true)).
Proof.
  destruct containers as [|c rest].
  - exists w, []. repeat split; [intros c [] | auto].
  - unfold cleanup_containers, bind, print, emit.
    destruct (cleanup_each_returns (c :: rest) w) as [w1 [t [E [Hs [Hr Hp]]]]].
    rewrite E. exists w1, ([Printed CleaningUp] ++ t). split; [reflexivity|].
    simpl. unfold stop_calls, remove_calls in *. simpl. auto.
Qed.

End Teardown.

(** C7.  Teardown never raises, on a first call or on a second, whatever
    the daemon does; it calls [stop] on every handle in order, an earlier
    failure notwithstanding, and [remove] on exactly the handles whose
    [stop] returned.  With a daemon that stops and removes the containers
    it holds, no handle of the set is left after the first call, and none
    after the second. *)
Theorem C7_teardown_best_effort_idempotent :
  forall (W : Type) (R : Runtime W) (containers : list Container) (w : W),
    let first := cleanup_containers R containers w in
    let second := cleanup_containers R containers (world_of first) in
    result_of first = inr tt /\
    result_of second = inr tt /\
    map fst (stop_calls (trace_of first)) = containers /\
    map fst (remove_calls (trace_of first)) = succeeded (stop_calls (trace_of first)) /\
    map fst (stop_calls (trace_of second)) = containers /\
    (forall present, well_behaved R present ->
       (forall c, In c containers -> present (world_of first) (container_id c) = false) /\
       (forall c, In c containers -> present (world_of second) (container_id c) = false)).
Proof.
  intros W R containers w first second. subst second first.
  destruct (cleanup_containers_returns R containers w) as [w1 [t1 [E1 [Hs1 [Hr1 Hp1]]]]].
  rewrite E1. unfold world_of, trace_of, result_of. simpl.
  destruct (cleanup_containers_returns R containers w1) as [w2 [t2 [E2 [Hs2 [Hr2 Hp2]]]]].
  rewrite E2. simpl. repeat split; try assumption.
  - now apply Hp1.
  - now apply Hp2.
Qed.

(** The small daemon of [Mock] stops and removes what it holds. *)
Lemma mock_halt_keeps_ids (cid : string) (f : Container -> bool) (cs : list Container) :
  existsb (Mock.same_id cid)
    (map (fun c' => if f c'
                    then mk_container (container_id c') (attrs_Name c') "exited"
                    else c') cs)
  = existsb (Mock.same_id cid) cs.
Proof.
  induction cs as [|c r IH]; simpl; [reflexivity|].
  rewrite IH. f_equal. destruct (f c); reflexivity.
Qed.

Lemma mock_delete_gone (cid : string) (cs : list Container) :
  existsb (Mock.same_id cid) (filter (fun c' => negb (Mock.same_id cid c')) cs) = false.
Proof.
  induction cs as [|c r IH]; simpl; [reflexivity|].
  destruct (Mock.same_id cid c) eqn:E; simpl; [assumption|].
  now rewrite E.
Qed.

Lemma mock_delete_no_new (cid : string) (f : Container -> bool) (cs : list Container) :
  existsb (Mock.same_id cid) (filter f cs) = true -> existsb (Mock.same_id cid) cs = true.
Proof.
  induction cs as [|c r IH]; simpl; [auto|].
  destruct (f c); simpl.
  - intros H. apply orb_true_iff in H. apply orb_true_iff. tauto.
  - intros H. apply orb_true_iff. right. auto.
Qed.

Lemma mock_well_behaved : well_behaved Mock.runtime Mock.present.
Proof.
  constructor; simpl; unfold Mock.halt, Mock.delete.
  - intros c t w P. now rewrite P.
  - intros c t w cid. destruct (Mock.present w (container_id c)); [|reflexivity].
    unfold Mock.present. simpl. apply mock_halt_keeps_ids.
  - intros c w P. rewrite P. split; [reflexivity|].
    unfold Mock.present. simpl. apply mock_delete_gone.
  - intros c w cid. destruct (Mock.present w (container_id c)); [|auto].
    unfold Mock.present. simpl. apply mock_delete_no_new.
Qed.

Lemma C7_teardown_best_effort_idempotent_witness :
  let handles := [ mk_container "c0" (Some "ldes-consumer-a") "created";
                   mk_container "c1" (Some "ldes-consumer-c") "created" ] in
  let w := world_of (process_feeds Mock.runtime [] Mock.three_feeds "img"
                       (Mock.fresh (inr Mock.three_feeds) [ "ldes-consumer-b" ])) in
  Mock.present w "c0" = true /\
  forall c, In c handles ->
    Mock.present
      (world_of (cleanup_containers Mock.runtime handles
                   (world_of (cleanup_containers Mock.runtime handles w))))
      (container_id c) = false.
Proof.
  intros handles w. split; [reflexivity|].
  destruct (C7_teardown_best_effort_idempotent Mock.world Mock.runtime handles w)
    as [_ [_ [_ [_ [_ H]]]]].
  exact (proj2 (H Mock.present mock_well_behaved)).
Defined.

(** ** Spawning *)

Lemma choose_network_returns {W : Type} (R : Runtime W) (os : environ)
  (detected : option string) (w : W) :
  exists t,
    choose_network (W:=W) os detected w =
      (w, t, inr (if truthy detected then detected else getenv_opt os "DOCKER_NETWORK")) /\
    Forall is_lookup t.
Proof.
  unfold choose_network, ret, bind, print, emit.
  destruct (truthy detected); [eexists; split; [reflexivity | constructor]|].
  destruct (truthy (getenv_opt os "DOCKER_NETWORK"));
    eexists; (split; [reflexivity | repeat constructor]).
Qed.

Section Spawning.

Context {W : Type} (R : Runtime W).
Hypothesis mkdir_ok : mkdir_succeeds R.

Variables (os : environ) (ldes2sparql_image host_pwd : string).

Lemma process_feed_returns (compose_labels : dict string) (docker_network : option string)
  (containers : list Container) (feed : pyval * feed_value) (w : W) :
  well_formed (snd feed) = true ->
  exists w' t call,
    process_feed R os ldes2sparql_image host_pwd compose_labels docker_network
      containers feed w = (w', t, inr (containers ++ returned [call])) /\
    run_calls t = [call] /\
    spawn_call_of (str_lower R) os ldes2sparql_image feed call /\
    outcome_logged t feed call.
Proof.
  destruct feed as [feed_name [|fd]]; simpl fst; simpl snd; intros Hwf; [discriminate Hwf|].
  destruct (env_vars_builds (str_lower R) os feed_name fd Hwf) as [Htarget [env Henv]].
  unfold process_feed. open_monad.
  pose proof (mkdir_ok (feed_state_dir host_pwd feed_name) w) as Hmk.
  destruct (mkdir R (feed_state_dir host_pwd feed_name) w) as [w1 r].
  simpl in Hmk. subst r. rewrite Htarget, Henv. cbv beta iota zeta.
  match goal with
  | |- context [containers_run R ?cfg w1] =>
      set (container_config := cfg);
      destruct (containers_run R container_config w1) as [w2 [e|c]]
  end; cbv beta iota zeta.
  - exists w2. eexists. exists (container_config, inl e).
    split; [simpl; rewrite app_nil_r; reflexivity|].
    split; [reflexivity|].
    split; [split; [reflexivity | split; [reflexivity | now exists fd]]|].
    unfold outcome_logged. simpl. tauto.
  - exists w2. eexists. exists (container_config, inr c).
    split; [reflexivity|].
    split; [reflexivity|].
    split; [split; [reflexivity | split; [reflexivity | now exists fd]]|].
    unfold outcome_logged. simpl. tauto.
Qed.

Lemma outcome_logged_app (t1 t2 t3 : list event) (feed : pyval * feed_value)
  (call : container_config * (exception + Container)) :
  outcome_logged t2 feed call -> outcome_logged (t1 ++ t2 ++ t3) feed call.
Proof.
  unfold outcome_logged. destruct (snd call); intros H;
    apply in_or_app; right; apply in_or_app; now left.
Qed.

Lemma process_feed_list_returns (compose_labels : dict string)
  (docker_network : option string) (fs : feed_list) :
  Forall (fun feed => well_formed (snd feed) = true) fs ->
  forall (containers : list Container) (w : W),
  exists w' t,
    process_feed_list R os ldes2sparql_image host_pwd compose_labels docker_network
      fs containers w = (w', t, inr (containers ++ returned (run_calls t))) /\
    Forall2 (fun feed call => spawn_call_of (str_lower R) os ldes2sparql_image feed call /\
                              outcome_logged t feed call) fs (run_calls t).
Proof.
  induction 1 as [|feed rest Hfeed Hrest IH]; intros containers w.
  - exists w, []. simpl. split; [now rewrite app_nil_r | constructor].
  - simpl process_feed_list. unfold bind.
    destruct (process_feed_returns compose_labels docker_network containers feed w Hfeed)
      as [w1 [t1 [call [E1 [Hc1 [Hs1 Hl1]]]]]].
    rewrite E1.
    destruct (IH (containers ++ returned [call]) w1) as [w2 [t2 [E2 H2]]].
    rewrite E2. exists w2, (t1 ++ t2).
    rewrite run_calls_app, Hc1.
    split.
    + now rewrite returned_app, app_assoc.
    + simpl. constructor.
      * split; [assumption|].
        now apply (outcome_logged_app [] t1 t2).
      * eapply Forall2_impl; [|exact H2].
        intros f c [Hs Hl]. split; [assumption|].
        rewrite <- (app_nil_r t2). now apply outcome_logged_app.
Qed.

End Spawning.

Lemma outcome_logged_suffix (t1 t2 : list event) (feed : pyval * feed_value)
  (call : container_config * (exception + Container)) :
  outcome_logged t2 feed call -> outcome_logged (t1 ++ t2) feed call.
Proof.
  intros H. rewrite <- (app_nil_r t2). now apply outcome_logged_app.
Qed.

(** Every feed gets its spawn call, in the stored order, whatever the
    earlier calls did, and the handles returned are those of the calls that
    returned.  Preparation of a feed (state directory, environment) runs
    outside the [try] block, hence the two conditions. *)
Lemma process_feeds_returns {W : Type} (R : Runtime W) (os : environ)
  (config : feeds_config) (ldes2sparql_image : string) (fs : feed_list) (w : W) :
  mkdir_succeeds R ->
  config = Mapping (Some (FeedsMapping fs)) ->
  Forall (fun feed => well_formed (snd feed) = true) fs ->
  exists w' t,
    process_feeds R os config ldes2sparql_image w = (w', t, inr (returned (run_calls t))) /\
    Forall2 (fun feed call => spawn_call_of (str_lower R) os ldes2sparql_image feed call /\
                              outcome_logged t feed call) fs (run_calls t).
Proof.
  intros Hmk -> Hfs. unfold process_feeds.
  unfold bind at 1. unfold print at 1, emit at 1.
  unfold bind at 1.
  destruct (get_compose_labels_returns R os w) as [w1 [t1 [labels1 [E1 L1]]]].
  rewrite E1. unfold bind at 1.
  destruct (get_parent_network_returns R os w1) as [w2 [t2 [detected [E2 L2]]]].
  rewrite E2. unfold bind at 1.
  destruct (choose_network_returns R os detected w2) as [t3 [E3 L3]]. rewrite E3.
  unfold bind at 1. unfold print at 1, emit at 1.
  destruct (process_feed_list_returns R Hmk os ldes2sparql_image
              (getenv os "HOST_PWD" (getcwd R)) labels1
              (if truthy detected then detected else getenv_opt os "DOCKER_NETWORK")
              fs Hfs [] w2)
    as [w4 [t4 [E4 H4]]].
  rewrite E4. simpl app at 1.
  eexists. eexists.
  assert (Hrun : run_calls
                   ([Printed (FoundFeeds (length fs))] ++ t1 ++ t2 ++ t3 ++
                    [Printed (DefaultEndpoint (default_sparql_endpoint os))] ++ t4)
                 = run_calls t4).
  { rewrite !run_calls_app, (lookups_no_run t1 L1), (lookups_no_run t2 L2),
      (lookups_no_run t3 L3). reflexivity. }
  rewrite Hrun. split; [reflexivity|].
  eapply Forall2_impl; [|exact H4].
  intros f c [Hs Hl]. split; [assumption|].
  rewrite !app_assoc. now apply outcome_logged_suffix.
Qed.

Lemma spawn_calls_named (str_lower : string -> string) (os : environ)
  (ldes2sparql_image : string) (t : list event)
  (fs : feed_list) (calls : list (container_config * (exception + Container))) :
  Forall2 (fun feed call => spawn_call_of str_lower os ldes2sparql_image feed call /\
                            outcome_logged t feed call) fs calls ->
  map (fun call => cfg_name (fst call)) calls = map container_name (map fst fs) /\
  length calls = length fs.
Proof.
  induction 1 as [|feed call fs' calls' [[Hn _] _] _ [IHn IHl]]; simpl; [auto|].
  split; congruence.
Qed.

Lemma append_cancel (p a b : string) : (p ++ a = p ++ b)%string -> a = b.
Proof.
  induction p as [|c r IH]; simpl; intros H; [assumption|].
  injection H as H. now apply IH.
Qed.

Lemma container_name_text (a b : pyval) :
  container_name a = container_name b <-> py_str a = py_str b.
Proof.
  unfold container_name. split; [apply append_cancel | now intros ->].
Qed.

Lemma container_names_NoDup (names : list pyval) :
  NoDup (map py_str names) -> NoDup (map container_name names).
Proof.
  induction names as [|n r IH]; simpl; intros H; [constructor|].
  inversion H as [|x l Hn Hr]; subst. constructor; [|now apply IH].
  intros Hin. apply Hn. apply in_map_iff in Hin. destruct Hin as [m [Hm Hin]].
  apply container_name_text in Hm. rewrite <- Hm. now apply in_map.
Qed.

Lemma mock_mkdir_succeeds : mkdir_succeeds Mock.runtime.
Proof. intros path w. reflexivity. Qed.

Lemma abc_well_formed :
  Forall (fun feed : pyval * feed_value => well_formed (snd feed) = true) Mock.abc.
Proof. repeat constructor. Qed.

(** C5, as amended.  Provided every feed is well formed and its state
    directory can be created, so that each feed reaches its spawn call,
    every feed of the configuration gets one spawn call, in order, whatever
    the other spawn calls do; the outcome of each is printed; the list
    returned holds exactly the handles of the calls that returned, so with
    [k] failing calls it has [N - k] handles, and [N - 1] when exactly one
    call fails. *)
Theorem C5_spawn_failure_isolated :
  forall (W : Type) (R : Runtime W) (os : environ) (config : feeds_config)
         (ldes2sparql_image : string) (fs : feed_list) (w : W),
    mkdir_succeeds R ->
    config = Mapping (Some (FeedsMapping fs)) ->
    Forall (fun feed => well_formed (snd feed) = true) fs ->
    exists w' t containers,
      process_feeds R os config ldes2sparql_image w = (w', t, inr containers) /\
      Forall2 (fun feed call => spawn_call_of (str_lower R) os ldes2sparql_image feed call /\
                                outcome_logged t feed call) fs (run_calls t) /\
      containers = returned (run_calls t) /\
      length containers + length (raised (run_calls t)) = length fs /\
      (length (raised (run_calls t)) = 1 -> length containers = length fs - 1).
Proof.
  intros W R os config image fs w Hmk Hcfg Hfs.
  destruct (process_feeds_returns R os config image fs w Hmk Hcfg Hfs) as [w' [t [E F]]].
  exists w', t, (returned (run_calls t)).
  destruct (spawn_calls_named _ _ _ _ _ _ F) as [_ Hlen].
  pose proof (returned_raised_length (run_calls t)) as Hsum.
  repeat split; try assumption; lia.
Qed.

Lemma C5_spawn_failure_isolated_witness :
  exists w' t containers,
    process_feeds Mock.runtime [] Mock.three_feeds "img"
      (Mock.fresh (inr Mock.three_feeds) [ "ldes-consumer-b" ]) = (w', t, inr containers) /\
    Forall2 (fun feed call => spawn_call_of ascii_lower [] "img" feed call /\
                              outcome_logged t feed call) Mock.abc (run_calls t) /\
    containers = returned (run_calls t) /\
    length containers + length (raised (run_calls t)) = 3 /\
    (length (raised (run_calls t)) = 1 -> length containers = 2).
Proof.
  exact (C5_spawn_failure_isolated Mock.world Mock.runtime [] Mock.three_feeds "img" _
           (Mock.fresh (inr Mock.three_feeds) [ "ldes-consumer-b" ])
           mock_mkdir_succeeds eq_refl abc_well_formed).
Defined.

(** C5 as stated fails: the preparation of a feed runs outside the [try]
    block.  Of three feeds let the spawn call of the first be refused and
    the second carry [LOG_LEVEL: off], which YAML reads as a boolean.
    Exactly one spawn call fails, and yet no list is returned: the second
    feed raises [AttributeError] at [.lower()] and the third is never
    reached. *)
Lemma C5_malformed_feed_aborts_batch :
  ~ (forall (W : Type) (R : Runtime W) (os : environ) (config : feeds_config)
            (ldes2sparql_image : string) (fs : feed_list) (w : W),
        config = Mapping (Some (FeedsMapping fs)) ->
        length (raised (run_calls
                  (trace_of (process_feeds R os config ldes2sparql_image w)))) = 1 ->
        exists containers,
          result_of (process_feeds R os config ldes2sparql_image w) = inr containers /\
          length containers = length fs - 1).
Proof.
  intros H.
  destruct (H Mock.world Mock.runtime [] off_feeds "img" _
              (Mock.fresh (inr off_feeds) [ "ldes-consumer-a" ]) eq_refl eq_refl)
    as [containers [E _]].
  vm_compute in E. discriminate E.
Qed.

(** C6, as amended.  Provided every feed is well formed and its state
    directory can be created, the spawn calls are named
    [ldes-consumer-<feedName>], feed by feed, and when every spawn call
    returns the list returned has one handle per feed.  The name is a
    function of the text of the feed name: two names give one container
    name exactly when they are written alike, so feed names that are
    strings give distinct container names when they are distinct, and the
    spawn calls carry distinct names when no two feed names are written
    alike. *)
Theorem C6_one_container_per_feed :
  forall (W : Type) (R : Runtime W) (os : environ) (config : feeds_config)
         (ldes2sparql_image : string) (fs : feed_list) (w : W),
    mkdir_succeeds R ->
    config = Mapping (Some (FeedsMapping fs)) ->
    Forall (fun feed => well_formed (snd feed) = true) fs ->
    exists w' t containers,
      process_feeds R os config ldes2sparql_image w = (w', t, inr containers) /\
      containers = returned (run_calls t) /\
      map (fun call => cfg_name (fst call)) (run_calls t) =
        map container_name (map fst fs) /\
      (raised (run_calls t) = [] -> length containers = length fs) /\
      (forall a b, container_name a = container_name b <-> py_str a = py_str b) /\
      (forall a b : string, container_name (PStr a) = container_name (PStr b) -> a = b) /\
      (NoDup (map py_str (map fst fs)) ->
       NoDup (map (fun call => cfg_name (fst call)) (run_calls t))).
Proof.
  intros W R os config image fs w Hmk Hcfg Hfs.
  destruct (process_feeds_returns R os config image fs w Hmk Hcfg Hfs) as [w' [t [E F]]].
  exists w', t, (returned (run_calls t)).
  destruct (spawn_calls_named _ _ _ _ _ _ F) as [Hnames Hlen].
  pose proof (returned_raised_length (run_calls t)) as Hsum.
  split; [exact E|]. split; [reflexivity|]. split; [exact Hnames|].
  split; [|split; [|split]].
  - intros Hnone. rewrite Hnone in Hsum. simpl in Hsum. lia.
  - apply container_name_text.
  - intros a b Hab. now apply container_name_text in Hab.
  - intros Hnd. rewrite Hnames. now apply container_names_NoDup.
Qed.

Lemma C6_one_container_per_feed_witness :
  exists w' t containers,
    process_feeds Mock.runtime [] Mock.three_feeds "img"
      (Mock.fresh (inr Mock.three_feeds) []) = (w', t, inr containers) /\
    containers = returned (run_calls t) /\
    map (fun call => cfg_name (fst call)) (run_calls t) =
      [ "ldes-consumer-a"; "ldes-consumer-b"; "ldes-consumer-c" ] /\
    (raised (run_calls t) = [] -> length containers = 3) /\
    (forall a b, container_name a = container_name b <-> py_str a = py_str b) /\
    (forall a b : string, container_name (PStr a) = container_name (PStr b) -> a = b) /\
    (NoDup [ "a"; "b"; "c" ] -> NoDup (map (fun call => cfg_name (fst call)) (run_calls t))).
Proof.
  exact (C6_one_container_per_feed Mock.world Mock.runtime [] Mock.three_feeds "img" _
           (Mock.fresh (inr Mock.three_feeds) [])
           mock_mkdir_succeeds eq_refl abc_well_formed).
Defined.

(** C6 as stated fails twice.  Every spawn call made can succeed without
    [N] containers resulting: of three feeds the second carries
    [LOG_LEVEL: off], the first is spawned, the second raises
    [AttributeError] outside the [try] block, the third is never reached.
    And distinct feed names can give one container name: the YAML keys [1]
    and ['1'], an integer and a string, are both formatted as
    [ldes-consumer-1]. *)
Lemma C6_malformed_feed_or_like_named :
  ~ (forall (W : Type) (R : Runtime W) (os : environ) (config : feeds_config)
            (ldes2sparql_image : string) (fs : feed_list) (w : W),
        config = Mapping (Some (FeedsMapping fs)) ->
        raised (run_calls (trace_of (process_feeds R os config ldes2sparql_image w))) = [] ->
        exists containers,
          result_of (process_feeds R os config ldes2sparql_image w) = inr containers /\
          length containers = length fs) /\
  ~ (forall a b : pyval, a <> b -> container_name a <> container_name b).
Proof.
  split; intros H.
  - destruct (H Mock.world Mock.runtime [] off_feeds "img" _
                (Mock.fresh (inr off_feeds) []) eq_refl eq_refl)
      as [containers [E _]].
    vm_compute in E. discriminate E.
  - apply (H (PInt 1) (PStr "1")); [discriminate | reflexivity].
Qed.


(** ** Start-up *)

(** C2, as amended.  The driver connects to the daemon first and loads the
    configuration second.  When the daemon cannot be reached the process
    exits with status 1 having neither read the configuration nor spawned
    anything.  When the daemon answers and loading the configuration
    raises, the process exits with status 1 after exactly three outside
    calls (client creation, ping, load), so nothing is spawned; for a
    missing or malformed file the exit is the [sys.exit(1)] of
    [load_ldes_feeds]. *)
Theorem C2_connect_then_load :
  forall (W : Type) (R : Runtime W) (os : environ) (w : W),
    let run := main_startup R os w in
    (forall e, snd (connect R w) = inl e ->
       result_of run = inl (SystemExit 1) /\
       exit_code (result_of run) <> 0%Z /\
       (forall r, ~ In (CallLoad (config_path_of os) r) (trace_of run)) /\
       run_calls (trace_of run) = []) /\
    (forall e, snd (connect R w) = inr tt ->
       snd (safe_load R (config_path_of os) (fst (connect R w))) = inl e ->
       exit_code (result_of run) = 1%Z /\
       api_calls (trace_of run) =
         [ CallFromEnv (inr tt); CallPing (inr tt); CallLoad (config_path_of os) (inl e) ] /\
       run_calls (trace_of run) = [] /\
       (e = FileNotFoundError \/ e = YAMLError -> result_of run = inl (SystemExit 1))).
Proof.
  intros W R os w run. subst run.
  unfold main_startup, load_ldes_feeds, connect, config_path_of.
  open_monad.
  destruct (from_env R w) as [w1 [e1|[]]]; cbv beta iota zeta.
  - split; [|intros e H; discriminate H].
    intros e _. unfold result_of, trace_of. simpl.
    repeat split; try discriminate.
    intros r [H|[H|[]]]; discriminate H.
  - destruct (ping R w1) as [w2 [e2|[]]]; cbv beta iota zeta.
    + split; [|intros e H; discriminate H].
      intros e _. unfold result_of, trace_of. simpl.
      repeat split; try discriminate.
      intros r [H|[H|[H|[]]]]; discriminate H.
    + split; [intros e H; discriminate H|].
      intros e _ Hload. simpl fst in Hload.
      destruct (safe_load R (getenv os "LDES_CONFIG_PATH" "/data/ldes-feeds.yaml") w2)
        as [w3 r]. simpl in Hload. subst r.
      destruct e; unfold result_of, trace_of; simpl;
        (repeat split; try reflexivity; intros [H|H]; try discriminate H; reflexivity).
Qed.

Lemma C2_connect_then_load_witness :
  exit_code (result_of (main_startup Mock.runtime [] (Mock.fresh (inl YAMLError) []))) = 1%Z /\
  run_calls (trace_of (main_startup Mock.runtime [] (Mock.fresh (inl YAMLError) []))) = [].
Proof.
  destruct (C2_connect_then_load Mock.world Mock.runtime [] (Mock.fresh (inl YAMLError) []))
    as [_ H].
  destruct (H YAMLError eq_refl eq_refl) as [H1 [_ [H2 _]]].
  split; [exact H1 | exact H2].
Defined.

(** C2 as stated fails: with the daemon up and the configuration file
    missing, the client is created and the daemon pinged before the load is
    tried. *)
Lemma C2_daemon_called_before_load :
  ~ (forall (W : Type) (R : Runtime W) (os : environ) (w : W) (e : exception),
        In (CallLoad (config_path_of os) (inl e)) (trace_of (main_startup R os w)) ->
        e = FileNotFoundError \/ e = YAMLError ->
        docker_calls (trace_of (main_startup R os w)) = []).
Proof.
  intros H.
  specialize (H Mock.world Mock.runtime []
                {| Mock.daemon_up := true; Mock.files := []; Mock.held := [];
                   Mock.counter := 0; Mock.refused := []; Mock.self := None |}
                FileNotFoundError).
  vm_compute in H.
  assert (E : [ CallFromEnv (inr tt); CallPing (inr tt) ] = @nil event).
  { apply H; [right; right; right; left; reflexivity | left; reflexivity]. }
  discriminate E.
Qed.

(** * Further properties *)

(** ** The environment of one feed, continued *)



(** X2.  LOG_LEVEL is taken from the feed's override, else from the
    process variable LDES_LOG_LEVEL, else from the process variable
    LOG_LEVEL, else it is DEBUG; whichever is taken goes through
    [str.lower]. *)
Theorem X2_log_level_sources :
  forall (str_lower : string -> string) (os : environ) (feed_name : pyval)
         (fd : feed_data) (env : dict pyval),
    env_vars str_lower os feed_name fd = inr env ->
    (forall s, dict_get (overrides fd) "LOG_LEVEL" = Some (PStr s) ->
               dict_get env "LOG_LEVEL" = Some (PStr (str_lower s))) /\
    (dict_get (overrides fd) "LOG_LEVEL" = None ->
     (forall s, getenv_opt os "LDES_LOG_LEVEL" = Some s ->
                dict_get env "LOG_LEVEL" = Some (PStr (str_lower s))) /\
     (getenv_opt os "LDES_LOG_LEVEL" = None ->
      (forall s, getenv_opt os "LOG_LEVEL" = Some s ->
                 dict_get env "LOG_LEVEL" = Some (PStr (str_lower s))) /\
      (getenv_opt os "LOG_LEVEL" = None ->
       dict_get env "LOG_LEVEL" = Some (PStr (str_lower "DEBUG"))))).
Proof.
  intros str_lower os feed_name fd env Henv.
  destruct (env_vars_inr _ _ _ _ _ Henv) as [d [Hd He]].
  assert (Hv : dict_get env "LOG_LEVEL" = dict_get d "LOG_LEVEL").
  { destruct (env_vars_required_value str_lower os feed_name fd env d "LOG_LEVEL" Hd He)
      as [H _]; [simpl; tauto | exact H]. }
  rewrite Hv. clear Hv He Henv.
  destruct (env_vars_display_inr _ _ _ _ _ Hd) as [_ [t [Elog ->]]]. clear Hd.
  cbn [dict_get String.eqb Ascii.eqb Bool.eqb]. revert Elog.
  unfold getenv, getenv_opt, dict_get_or.
  destruct (dict_get (overrides fd) "LOG_LEVEL") as [v|] eqn:Eo.
  - intros ->. split; [|discriminate].
    intros s Hs. injection Hs as <-. reflexivity.
  - intros Elog. split; [discriminate|]. intros _.
    destruct (dict_get os "LDES_LOG_LEVEL") as [l|].
    + injection Elog as <-. split; [|discriminate].
      intros s Hs. injection Hs as <-. reflexivity.
    + split; [discriminate|]. intros _.
      destruct (dict_get os "LOG_LEVEL") as [l|].
      * injection Elog as <-. split; [|discriminate].
        intros s Hs. injection Hs as <-. reflexivity.
      * injection Elog as <-. split; [discriminate | reflexivity].
Qed.

Lemma X2_log_level_sources_witness :
  dict_get [ ("SPARQL_ENDPOINT", PStr ""); ("TARGET_GRAPH", PStr "urn:kgap:ldes:s");
             ("FOLLOW", PStr "false"); ("MEMBER_BATCH_SIZE", PStr "500");
             ("MATERIALIZE", PStr "false"); ("LOG_LEVEL", PStr "info");
             ("LDES", PStr "https://a"); ("POLLING_FREQUENCY", PStr "60000");
             ("FAILURE_IS_FATAL", PStr "false");
             ("OPERATION_MODE", PStr "Replication"); ("SHAPE", PStr "") ] "LOG_LEVEL"
    = Some (PStr (ascii_lower "INFO")).
Proof.
  destruct (X2_log_level_sources ascii_lower
              [ ("LOG_LEVEL", "ERROR"); ("LDES_LOG_LEVEL", "INFO") ] (PStr "s")
              (Mock.plain_feed "https://a") _ eq_refl) as [_ H].
  destruct (H eq_refl) as [H1 _]. exact (H1 "INFO" eq_refl).
Defined.

Lemma dict_contains_keys {V : Type} (d : dict V) (k : string) :
  dict_contains d k = existsb (String.eqb k) (keys d).
Proof.
  unfold dict_contains. induction d as [|[k' v] r IH]; simpl; [reflexivity|].
  rewrite (String.eqb_sym k k'). destruct (String.eqb k' k); [reflexivity | exact IH].
Qed.

Lemma fold_add_custom_key_order (fe d : dict pyval) :
  NoDup (keys fe) ->
  keys (fold_left add_custom fe d) =
  keys d ++ filter (fun k => negb (dict_contains d k)) (keys fe).
Proof.
  revert d. induction fe as [|[k v] r IH]; simpl; intros d Hnd.
  - now rewrite app_nil_r.
  - inversion Hnd as [|k0 r0 Hk Hr]; subst.
    destruct (dict_contains d k) eqn:Ec; simpl.
    + now apply IH.
    + rewrite IH by assumption.
      unfold dict_contains in Ec. destruct (dict_get d k) eqn:Eg; [discriminate|].
      rewrite keys_dict_set_absent by assumption. rewrite <- app_assoc. simpl.
      f_equal. f_equal. apply filter_ext_in. intros k' Hk'.
      unfold dict_contains. rewrite dict_get_set_other; [reflexivity|].
      intros ->. contradiction.
Qed.

(** X3.  The environment lists the eleven required keys first, in the order
    of the dictionary display, and after them the override keys that are not
    required, in the order of the override map. *)
Theorem X3_environment_key_order :
  forall (str_lower : string -> string) (os : environ) (feed_name : pyval)
         (fd : feed_data) (env : dict pyval),
    env_vars str_lower os feed_name fd = inr env ->
    NoDup (keys (overrides fd)) ->
    keys env =
    required_keys ++
    filter (fun k => negb (existsb (String.eqb k) required_keys)) (keys (overrides fd)).
Proof.
  intros str_lower os feed_name fd env Henv Hnd.
  destruct (env_vars_inr _ _ _ _ _ Henv) as [d [Hd ->]].
  rewrite fold_add_custom_key_order by assumption.
  rewrite (env_vars_display_keys _ _ _ _ _ Hd). f_equal.
  apply filter_ext. intros k. rewrite dict_contains_keys.
  now rewrite (env_vars_display_keys _ _ _ _ _ Hd).
Qed.

Lemma X3_environment_key_order_witness :
  keys [ ("SPARQL_ENDPOINT", PStr ""); ("TARGET_GRAPH", PStr "urn:kgap:ldes:s");
         ("FOLLOW", PStr "false"); ("MEMBER_BATCH_SIZE", PInt 250);
         ("MATERIALIZE", PStr "false"); ("LOG_LEVEL", PStr "debug");
         ("LDES", PStr ""); ("POLLING_FREQUENCY", PStr "60000");
         ("FAILURE_IS_FATAL", PStr "false");
         ("OPERATION_MODE", PStr "Replication"); ("SHAPE", PStr "");
         ("RETRIES", PStr "3"); ("VERBOSE", PStr "True") ]
  = required_keys ++ [ "RETRIES"; "VERBOSE" ].
Proof.
  apply (X3_environment_key_order ascii_lower [] (PStr "s")
    {| url := None; target_graph := None;
       environment := Environment [ ("RETRIES", PInt 3); ("MEMBER_BATCH_SIZE", PInt 250);
                                    ("VERBOSE", PBool true) ] |} _ eq_refl).
  simpl. repeat constructor; simpl; intuition discriminate.
Defined.

(** ** Context detection, continued *)

Lemma copy_labels_get (ls : dict string) (ks : list string) (acc : dict string) (k : string) :
  dict_get (fold_left (copy_label ls) ks acc) k =
  if existsb (String.eqb k) ks
  then match dict_get ls k with
       | Some v => Some v
       | None => dict_get acc k
       end
  else dict_get acc k.
Proof.
  revert acc. induction ks as [|k0 r IH]; simpl; intros acc; [reflexivity|].
  rewrite IH. unfold copy_label.
  destruct (String.eqb_spec k k0) as [->|Hne]; simpl.
  - destruct (dict_get ls k0) as [v|] eqn:E.
    + rewrite dict_get_set_same. now destruct (existsb (String.eqb k0) r).
    + now destruct (existsb (String.eqb k0) r).
  - destruct (dict_get ls k0) as [v0|] eqn:E; [|reflexivity].
    rewrite dict_get_set_other by congruence. reflexivity.
Qed.

(** X5.  When the orchestrator finds its own container, the labels it
    hands on are the container's labels restricted to the three allowed
    compose keys: an allowed key keeps the container's value, any other
    key of the container, its service label included, is left out. *)
Theorem X5_compose_labels_allow_list :
  forall (W : Type) (R : Runtime W) (os : environ) (w : W)
         (hostname : string) (c : self_container) (ls : dict string),
    getenv_opt os "HOSTNAME" = Some hostname ->
    hostname <> "" ->
    snd (containers_get R hostname w) = inr c ->
    labels c = inr ls ->
    exists d,
      result_of (get_compose_labels R os w) = inr d /\
      (forall k, dict_get d k =
                 if existsb (String.eqb k) compose_keys then dict_get ls k else None) /\
      dict_get d "com.docker.compose.service" = None.
Proof.
  intros W R os w hostname c ls Hh Hne Hget Hl.
  unfold get_compose_labels, result_of. open_monad. rewrite Hh.
  destruct (String.eqb_spec hostname ""); [contradiction|].
  destruct (containers_get R hostname w) as [w1 r]. simpl in Hget. subst r.
  cbv beta iota zeta. rewrite Hl. cbv beta iota zeta.
  assert (Hd : forall k, dict_get (fold_left (copy_label ls) compose_keys []) k =
                         if existsb (String.eqb k) compose_keys then dict_get ls k else None).
  { intros k. rewrite copy_labels_get. simpl dict_get at 2.
    destruct (existsb (String.eqb k) compose_keys); [|reflexivity].
    now destruct (dict_get ls k). }
  exists (fold_left (copy_label ls) compose_keys []).
  split; [|split; [exact Hd | now rewrite Hd]].
  destruct (fold_left (copy_label ls) compose_keys []); reflexivity.
Qed.

(** X6.  When the orchestrator finds its own container and the container
    is attached to networks, the first of them in stored order is the one
    detected. *)
Theorem X6_first_network_detected :
  forall (W : Type) (R : Runtime W) (os : environ) (w : W)
         (hostname : string) (c : self_container) (first : string) (others : list string),
    getenv_opt os "HOSTNAME" = Some hostname ->
    hostname <> "" ->
    snd (containers_get R hostname w) = inr c ->
    NetworkSettings c = Value (Value (first :: others)) ->
    result_of (get_parent_network R os w) = inr (Some first) /\
    In (Printed (NetworkDetected first)) (trace_of (get_parent_network R os w)).
Proof.
  intros W R os w hostname c first others Hh Hne Hget Hn.
  unfold get_parent_network, result_of, trace_of. open_monad. rewrite Hh.
  destruct (String.eqb_spec hostname ""); [contradiction|].
  destruct (containers_get R hostname w) as [w1 r]. simpl in Hget. subst r.
  cbv beta iota zeta. unfold attrs_networks. rewrite Hn. simpl. tauto.
Qed.

Lemma X5_compose_labels_allow_list_witness :
  exists d,
    result_of (get_compose_labels Mock.runtime in_container
                 (composed (inr Mock.three_feeds) [])) = inr d /\
    (forall k, dict_get d k =
               if existsb (String.eqb k) compose_keys
               then dict_get [ ("com.docker.compose.project", "kgap");
                               ("com.docker.compose.service", "ldes-consumer");
                               ("com.docker.compose.project.working_dir", "/srv/kgap") ] k
               else None) /\
    dict_get d "com.docker.compose.service" = None.
Proof.
  apply (X5_compose_labels_allow_list Mock.world Mock.runtime in_container
           (composed (inr Mock.three_feeds) []) "0123456789ab" compose_parent);
    [reflexivity | discriminate | reflexivity | reflexivity].
Defined.

Lemma X6_first_network_detected_witness :
  result_of (get_parent_network Mock.runtime in_container
               (composed (inr Mock.three_feeds) [])) = inr (Some "kgap_default") /\
  In (Printed (NetworkDetected "kgap_default"))
    (trace_of (get_parent_network Mock.runtime in_container
                 (composed (inr Mock.three_feeds) []))).
Proof.
  apply (X6_first_network_detected Mock.world Mock.runtime in_container
           (composed (inr Mock.three_feeds) []) "0123456789ab" compose_parent
           "kgap_default" [ "bridge" ]);
    [reflexivity | discriminate | reflexivity | reflexivity].
Defined.

(** ** Kinds of events *)

Lemma only_app (allowed : event -> bool) (t1 t2 : list event) :
  only allowed t1 -> only allowed t2 -> only allowed (t1 ++ t2).
Proof. intros H1 H2. apply Forall_app. now split. Qed.

Lemma only_weaken (p q : event -> bool) (t : list event) :
  (forall ev, p ev = true -> q ev = true) -> only p t -> only q t.
Proof. intros Hpq H. eapply Forall_impl; [|exact H]. exact Hpq. Qed.

Lemma only_collect_none {A : Type} (allowed : event -> bool) (f : event -> option A)
  (t : list event) :
  (forall ev, allowed ev = true -> f ev = None) -> only allowed t -> collect f t = [].
Proof.
  intros Hf H. apply collect_none. eapply Forall_impl; [|exact H]. exact Hf.
Qed.

Lemma lookup_events (t : list event) : Forall is_lookup t -> only detection_event t.
Proof.
  intros H. eapply Forall_impl; [|exact H]. intros [] Hev; simpl in *; tauto.
Qed.

Lemma detection_is_process_event (ev : event) :
  detection_event ev = true -> process_event ev = true.
Proof. destruct ev; simpl; congruence. Qed.

Lemma spawn_is_process_event (ev : event) :
  spawn_event ev = true -> process_event ev = true.
Proof. destruct ev; simpl; congruence. Qed.

(** ** Spawning, continued *)

Lemma run_calls_of_mkdir_and_run (t : list event) :
  run_calls (mkdir_and_run_calls t) = run_calls t.
Proof.
  unfold run_calls, mkdir_and_run_calls.
  induction t as [|ev r IH]; simpl; [reflexivity|].
  destruct ev; simpl; congruence.
Qed.

Lemma mkdir_and_run_calls_app (t1 t2 : list event) :
  mkdir_and_run_calls (t1 ++ t2) = mkdir_and_run_calls t1 ++ mkdir_and_run_calls t2.
Proof. apply collect_app. Qed.

Lemma choose_network_trace {W : Type} (os : environ) (detected : option string) (w : W) :
  exists t,
    choose_network (W:=W) os detected w =
      (w, t, inr (if truthy detected then detected else getenv_opt os "DOCKER_NETWORK")) /\
    (t = [] \/ exists n, t = [ Printed (NetworkFromEnv n) ]).
Proof.
  unfold choose_network, ret, bind, print, emit.
  destruct (truthy detected); [exists []; split; [reflexivity | now left]|].
  destruct (truthy (getenv_opt os "DOCKER_NETWORK")).
  - eexists. split; [reflexivity | right; eexists; reflexivity].
  - exists []. split; [reflexivity | now left].
Qed.

Section SpawningShape.

Context {W : Type} (R : Runtime W).
Variables (os : environ) (ldes2sparql_image host_pwd : string).
Variables (labels0 : dict string) (network0 : option string).

(** One turn of the loop either raises before its spawn call, at a feed
    that is not a mapping, in the state directory creation, or in the
    target graph and the environment, or makes the directory and then the
    spawn call and returns. *)
Lemma process_feed_shape (containers : list Container) (feed : pyval * feed_value) (w : W) :
  let x := process_feed R os ldes2sparql_image host_pwd labels0 network0 containers feed w in
  only spawn_event (trace_of x) /\
  ((snd feed = FeedNotMapping /\
    x = (w, [ Printed (FeedHeader (fst feed)) ], inl (Exc AttributeError))) \/
   (exists fd e,
       snd feed = Feed fd /\
       result_of x = inl (Exc e) /\
       mkdir_and_run_calls (trace_of x) =
         [ CallMkdir (feed_state_dir host_pwd (fst feed))
             (snd (mkdir R (feed_state_dir host_pwd (fst feed)) w)) ] /\
       (snd (mkdir R (feed_state_dir host_pwd (fst feed)) w) = inl e \/
        (snd (mkdir R (feed_state_dir host_pwd (fst feed)) w) = inr tt /\
         e = AttributeError /\ well_formed (Feed fd) = false /\
         world_of x = fst (mkdir R (feed_state_dir host_pwd (fst feed)) w)))) \/
   (exists fd env r,
       snd feed = Feed fd /\
       env_vars (str_lower R) os (fst feed) fd = inr env /\
       snd (mkdir R (feed_state_dir host_pwd (fst feed)) w) = inr tt /\
       mkdir_and_run_calls (trace_of x) =
         [ CallMkdir (feed_state_dir host_pwd (fst feed)) (inr tt);
           CallRun (container_config_of ldes2sparql_image (fst feed) env
                      (state_volume host_pwd (fst feed)) labels0 network0) r ] /\
       result_of x =
         inr (containers ++
              returned [ (container_config_of ldes2sparql_image (fst feed) env
                            (state_volume host_pwd (fst feed)) labels0 network0, r) ]))).
Proof.
  destruct feed as [feed_name [|fd]]; simpl fst; simpl snd.
  { cbv zeta. split; [repeat constructor | left; split; reflexivity]. }
  unfold process_feed, trace_of, result_of, world_of. open_monad.
  destruct (mkdir R (feed_state_dir host_pwd feed_name) w) as [w1 [e|[]]];
    cbv beta iota zeta.
  - split; [repeat constructor|]. right; left. exists fd, e. simpl. auto.
  - destruct (resolved_target_graph os feed_name fd) as [e|target] eqn:Etarget;
      cbv beta iota zeta.
    + destruct (target_graph_raises _ _ _ _ Etarget) as [-> Hwf].
      split; [repeat constructor|]. right; left. exists fd, AttributeError.
      simpl. split; [reflexivity|]. split; [reflexivity|]. split; [reflexivity|].
      right. auto.
    + destruct (env_vars (str_lower R) os feed_name fd) as [e|env] eqn:Eenv;
        cbv beta iota zeta.
      * destruct (env_vars_raises _ _ _ _ _ Eenv) as [-> Hwf].
        split; [repeat constructor|]. right; left. exists fd, AttributeError.
        simpl. split; [reflexivity|]. split; [reflexivity|]. split; [reflexivity|].
        right. auto.
      * fold (state_volume host_pwd feed_name).
        match goal with
        | |- context [containers_run R ?cfg w1] =>
            destruct (containers_run R cfg w1) as [w2 [e|c]] eqn:Erun
        end; cbv beta iota zeta.
        -- split; [repeat constructor|]. right; right. exists fd, env, (inl e). simpl.
           rewrite app_nil_r. auto.
        -- split; [repeat constructor|]. right; right. exists fd, env, (inr c). simpl.
           auto.
Qed.

Lemma process_feed_list_shape (fs : feed_list) :
  forall (containers : list Container) (w : W),
    let x := process_feed_list R os ldes2sparql_image host_pwd labels0 network0
               fs containers w in
    only spawn_event (trace_of x) /\
    Forall (fun call =>
              exists feed_name fd env,
                In (feed_name, Feed fd) fs /\
                env_vars (str_lower R) os feed_name fd = inr env /\
                fst call = container_config_of ldes2sparql_image feed_name env
                             (state_volume host_pwd feed_name) labels0 network0)
           (run_calls (trace_of x)).
Proof.
  induction fs as [|feed rest IH]; intros containers w x; subst x.
  - split; constructor.
  - simpl process_feed_list. unfold bind.
    pose proof (process_feed_shape containers feed w) as Hshape. cbv zeta in Hshape.
    destruct (process_feed R os ldes2sparql_image host_pwd labels0 network0
                containers feed w) as [[w1 t1] [e1|acc]].
    + unfold trace_of, result_of in *. cbn [fst snd] in *.
      destruct Hshape as [Hev [[_ Hx] | [[fd [e [_ [_ [Hcalls _]]]]]
                                        | [fd [env [r [_ [_ [_ [_ Hres]]]]]]]]]];
        [|split; [assumption|]|discriminate].
      * injection Hx as _ -> _. split; [assumption | constructor].
      * rewrite <- run_calls_of_mkdir_and_run, Hcalls. constructor.
    + specialize (IH acc w1). cbv zeta in IH.
      destruct (process_feed_list R os ldes2sparql_image host_pwd labels0 network0
                  rest acc w1) as [[w2 t2] r2].
      unfold trace_of, result_of in *. cbn [fst snd] in *.
      destruct IH as [Hev2 Hcalls2].
      destruct Hshape as [Hev [[_ Hx] | [[fd [e [_ [Hres _]]]]
                                        | [fd [env [r [Hfd [Henv [_ [Hcalls _]]]]]]]]]];
        [discriminate | discriminate |].
      split; [now apply only_app|].
      rewrite run_calls_app. apply Forall_app. split.
      * rewrite <- run_calls_of_mkdir_and_run, Hcalls. repeat constructor.
        exists (fst feed), fd, env. simpl. rewrite <- Hfd.
        destruct feed; simpl; auto.
      * eapply Forall_impl; [|exact Hcalls2].
        intros call [f [fd' [env' [Hin H]]]]. exists f, fd', env'. simpl. auto.
Qed.

End SpawningShape.

(** [process_feeds] on a configuration with a mapping of feeds: the two
    detections, the choice of the network, and then the loop, entered with
    what was detected. *)
Lemma process_feeds_unfold {W : Type} (R : Runtime W) (os : environ)
  (config : feeds_config) (ldes2sparql_image : string) (fs : feed_list) (w : W) :
  config = Mapping (Some (FeedsMapping fs)) ->
  exists w2 t3,
    (t3 = [] \/ exists n, t3 = [ Printed (NetworkFromEnv n) ]) /\
    let y := process_feed_list R os ldes2sparql_image (getenv os "HOST_PWD" (getcwd R))
               (detected_labels R os w) (chosen_network R os w) fs [] w2 in
    process_feeds R os config ldes2sparql_image w =
      (world_of y,
       [ Printed (FoundFeeds (length fs)) ] ++
       trace_of (get_compose_labels R os w) ++
       trace_of (get_parent_network R os (world_of (get_compose_labels R os w))) ++
       t3 ++ [ Printed (DefaultEndpoint (default_sparql_endpoint os)) ] ++ trace_of y,
       result_of y).
Proof.
  intros ->.
  destruct (get_compose_labels_returns R os w) as [w1 [t1 [labels1 [E1 _]]]].
  destruct (get_parent_network_returns R os w1) as [w2 [t2 [detected [E2 _]]]].
  assert (HL : detected_labels R os w = labels1)
    by (unfold detected_labels; now rewrite E1).
  assert (HW : world_of (get_compose_labels R os w) = w1) by now rewrite E1.
  assert (HT1 : trace_of (get_compose_labels R os w) = t1) by now rewrite E1.
  assert (HN : chosen_network R os w =
               if truthy detected then detected else getenv_opt os "DOCKER_NETWORK")
    by (unfold chosen_network; rewrite HW, E2; reflexivity).
  assert (HT2 : trace_of (get_parent_network R os w1) = t2) by now rewrite E2.
  destruct (choose_network_trace os detected w2) as [t3 [E3 Ht3]].
  exists w2, t3. split; [exact Ht3|].
  cbv zeta. rewrite HL, HN, HW, HT1, HT2.
  unfold process_feeds.
  unfold bind at 1. unfold print at 1, emit at 1.
  unfold bind at 1. rewrite E1. unfold bind at 1. rewrite E2. unfold bind at 1.
  rewrite E3.
  unfold bind at 1. unfold print at 1, emit at 1.
  destruct (process_feed_list R os ldes2sparql_image (getenv os "HOST_PWD" (getcwd R))
              labels1 (if truthy detected then detected else getenv_opt os "DOCKER_NETWORK")
              fs [] w2) as [[w4 t4] r4].
  reflexivity.
Qed.

Section ProcessFeeds.

Context {W : Type} (R : Runtime W).
Variables (os : environ) (config : feeds_config) (ldes2sparql_image : string).
Variables (fs : feed_list) (w : W).
Hypothesis has_feeds : config = Mapping (Some (FeedsMapping fs)).

(** The lookups of the own container: none without a hostname, one per
    detection function with one. *)
Lemma detection_lookups (w0 : W) :
  get_calls (trace_of (get_compose_labels R os w0)) =
    (if truthy (getenv_opt os "HOSTNAME")
     then [ dict_get_or os "HOSTNAME" "" ] else []) /\
  get_calls (trace_of (get_parent_network R os w0)) =
    (if truthy (getenv_opt os "HOSTNAME")
     then [ dict_get_or os "HOSTNAME" "" ] else []).
Proof.
  unfold get_compose_labels, get_parent_network, trace_of, getenv_opt, dict_get_or, truthy.
  open_monad.
  destruct (dict_get os "HOSTNAME") as [hostname|]; [|split; reflexivity].
  destruct (String.eqb hostname ""); [split; reflexivity|]. simpl negb. cbv iota.
  destruct (containers_get R hostname w0) as [w1 [e|c]]; cbv beta iota zeta.
  - split; reflexivity.
  - split.
    + destruct (labels c) as [e|ls]; cbv beta iota zeta; [reflexivity|].
      destruct (fold_left (copy_label ls) compose_keys []); reflexivity.
    + destruct (attrs_networks c) as [e|[[|n ns]|]]; reflexivity.
Qed.

Lemma process_feeds_shape :
  let x := process_feeds R os config ldes2sparql_image w in
  only process_event (trace_of x) /\
  Forall (fun call => exists feed,
                        In feed fs /\
                        spawn_config_of R os ldes2sparql_image w feed (fst call))
         (run_calls (trace_of x)) /\
  get_calls (trace_of x) =
    (if truthy (getenv_opt os "HOSTNAME")
     then [ dict_get_or os "HOSTNAME" ""; dict_get_or os "HOSTNAME" "" ] else []).
Proof.
  destruct (process_feeds_unfold R os config ldes2sparql_image fs w has_feeds)
    as [w2 [t3 [Ht3 E]]].
  cbv zeta in E.
  destruct (process_feed_list_shape R os ldes2sparql_image
              (getenv os "HOST_PWD" (getcwd R)) (detected_labels R os w)
              (chosen_network R os w) fs [] w2) as [Hev Hcalls].
  assert (L1 : Forall is_lookup (trace_of (get_compose_labels R os w))).
  { destruct (get_compose_labels_returns R os w) as [w1 [t1 [d1 [E1 L]]]].
    now rewrite E1. }
  assert (L2 : Forall is_lookup
                 (trace_of (get_parent_network R os
                              (world_of (get_compose_labels R os w))))).
  { destruct (get_parent_network_returns R os (world_of (get_compose_labels R os w)))
      as [w1 [t1 [d1 [E1 L]]]].
    now rewrite E1. }
  destruct (detection_lookups w) as [G1 _].
  destruct (detection_lookups (world_of (get_compose_labels R os w))) as [_ G2].
  assert (P3 : only detection_event t3 /\ get_calls t3 = []).
  { destruct Ht3 as [->|[n ->]]; split; repeat constructor. }
  destruct P3 as [P3 G3].
  remember (process_feed_list R os ldes2sparql_image (getenv os "HOST_PWD" (getcwd R))
              (detected_labels R os w) (chosen_network R os w) fs [] w2) as y eqn:Hy.
  remember (trace_of y) as ty eqn:Hty.
  remember (trace_of (get_compose_labels R os w)) as tl eqn:Htl.
  remember (trace_of (get_parent_network R os (world_of (get_compose_labels R os w))))
    as tn eqn:Htn.
  cbv zeta. rewrite E. unfold trace_of. cbn [fst snd].
  assert (Hp : forall ev, detection_event ev = true -> process_event ev = true)
    by apply detection_is_process_event.
  repeat split.
  - repeat apply only_app; try (repeat constructor; fail).
    + apply (only_weaken detection_event); [exact Hp | now apply lookup_events].
    + apply (only_weaken detection_event); [exact Hp | now apply lookup_events].
    + now apply (only_weaken detection_event).
    + apply (only_weaken spawn_event); [apply spawn_is_process_event | assumption].
  - rewrite !run_calls_app, (lookups_no_run tl L1), (lookups_no_run tn L2).
    assert (R3 : run_calls t3 = []).
    { apply (only_collect_none detection_event); [|assumption].
      intros []; simpl; congruence. }
    rewrite R3. simpl.
    eapply Forall_impl; [|exact Hcalls].
    intros call [feed_name [fd [env [Hin [Henv Hcfg]]]]].
    exists (feed_name, Feed fd). split; [assumption|].
    exists fd, env. simpl. auto.
  - assert (Gy : get_calls ty = []).
    { apply (only_collect_none spawn_event); [|assumption].
      intros []; simpl; congruence. }
    unfold get_calls in *. rewrite !collect_app, G1, G2, G3, Gy.
    simpl. now destruct (truthy (getenv_opt os "HOSTNAME")).
Qed.

End ProcessFeeds.


(** X7.  Every spawn call is attached to the network detected from the
    orchestrator's own container when there is one; otherwise to the network
    named by DOCKER_NETWORK when that is set and not empty; otherwise to no
    network.  A detected network wins over the variable. *)
Theorem X7_network_of_spawn_calls :
  forall (W : Type) (R : Runtime W) (os : environ) (config : feeds_config)
         (ldes2sparql_image : string) (fs : feed_list) (w : W)
         (detected : option string),
    config = Mapping (Some (FeedsMapping fs)) ->
    result_of (get_parent_network R os (world_of (get_compose_labels R os w)))
      = inr detected ->
    Forall (fun call =>
              cfg_network (fst call) =
              if truthy detected then detected
              else if truthy (getenv_opt os "DOCKER_NETWORK")
                   then getenv_opt os "DOCKER_NETWORK"
                   else None)
           (run_calls (trace_of (process_feeds R os config ldes2sparql_image w))).
Proof.
  intros W R os config image fs w detected Hcfg Hdet.
  destruct (process_feeds_shape R os config image fs w Hcfg) as [_ [Hcalls _]].
  eapply Forall_impl; [|exact Hcalls].
  intros call [feed [Hin [fd [env [Hfd [Henv ->]]]]]]. simpl.
  unfold chosen_network. rewrite Hdet.
  destruct (truthy detected) eqn:Et; [now rewrite Et|].
  now destruct (truthy (getenv_opt os "DOCKER_NETWORK")).
Qed.

Lemma X7_network_of_spawn_calls_witness :
  Forall (fun call => cfg_network (fst call) = Some "kgap_default")
    (run_calls (trace_of (process_feeds Mock.runtime
                            (in_container ++ [ ("DOCKER_NETWORK", "other") ])
                            Mock.three_feeds "img"
                            (composed (inr Mock.three_feeds) [])))).
Proof.
  exact (X7_network_of_spawn_calls Mock.world Mock.runtime
           (in_container ++ [ ("DOCKER_NETWORK", "other") ]) Mock.three_feeds "img" _
           (composed (inr Mock.three_feeds) []) (Some "kgap_default") eq_refl eq_refl).
Defined.

(** X8.  When no compose labels were detected a spawn call carries no
    labels.  When some were, it carries them all, and in addition the
    service label, set to the name of the spawned container. *)
Theorem X8_labels_of_spawn_calls :
  forall (W : Type) (R : Runtime W) (os : environ) (config : feeds_config)
         (ldes2sparql_image : string) (fs : feed_list) (w : W)
         (compose_labels : dict string),
    config = Mapping (Some (FeedsMapping fs)) ->
    result_of (get_compose_labels R os w) = inr compose_labels ->
    Forall (fun call =>
              (compose_labels = [] -> cfg_labels (fst call) = None) /\
              (compose_labels <> [] ->
               exists ls,
                 cfg_labels (fst call) = Some ls /\
                 dict_get ls "com.docker.compose.service" = Some (cfg_name (fst call)) /\
                 forall k, k <> "com.docker.compose.service" ->
                           dict_get ls k = dict_get compose_labels k))
           (run_calls (trace_of (process_feeds R os config ldes2sparql_image w))).
Proof.
  intros W R os config image fs w compose_labels Hcfg Hdet.
  destruct (process_feeds_shape R os config image fs w Hcfg) as [_ [Hcalls _]].
  eapply Forall_impl; [|exact Hcalls].
  intros call [feed [Hin [fd [env [Hfd [Henv ->]]]]]]. simpl.
  unfold detected_labels. rewrite Hdet.
  destruct compose_labels as [|kv rest].
  - split; [reflexivity | congruence].
  - split; [discriminate|]. intros _. eexists. split; [reflexivity|]. split.
    + apply dict_get_set_same.
    + intros k Hk. apply dict_get_set_other. congruence.
Qed.

Lemma X8_labels_of_spawn_calls_witness :
  Forall (fun call =>
            exists ls,
              cfg_labels (fst call) = Some ls /\
              dict_get ls "com.docker.compose.service" = Some (cfg_name (fst call)) /\
              dict_get ls "com.docker.compose.project" = Some "kgap")
    (run_calls (trace_of (process_feeds Mock.runtime in_container Mock.three_feeds "img"
                            (composed (inr Mock.three_feeds) [])))).
Proof.
  eapply Forall_impl;
    [|exact (X8_labels_of_spawn_calls Mock.world Mock.runtime in_container
               Mock.three_feeds "img" _ (composed (inr Mock.three_feeds) []) _
               eq_refl eq_refl)].
  intros call [_ H]. destruct H as [ls [H1 [H2 H3]]]; [discriminate|].
  exists ls. repeat split; try assumption. rewrite H3 by discriminate. reflexivity.
Defined.

(** X9.  Every spawn call, after failures of earlier ones as well, uses the
    configured image, is detached, does not ask for automatic removal, is
    named after a feed of the configuration, carries that feed's
    environment, and mounts one volume: the feed's state directory under
    HOST_PWD (the working directory when unset), bound read-write to
    [/state]. *)
Theorem X9_options_of_spawn_calls :
  forall (W : Type) (R : Runtime W) (os : environ) (config : feeds_config)
         (ldes2sparql_image : string) (fs : feed_list) (w : W),
    config = Mapping (Some (FeedsMapping fs)) ->
    Forall (fun call =>
              cfg_image (fst call) = ldes2sparql_image /\
              cfg_detach (fst call) = true /\
              cfg_remove (fst call) = false /\
              exists feed_name fd,
                In (feed_name, Feed fd) fs /\
                cfg_name (fst call) = container_name feed_name /\
                env_vars (str_lower R) os feed_name fd = inr (cfg_environment (fst call)) /\
                cfg_volumes (fst call) =
                  [ (feed_state_dir (getenv os "HOST_PWD" (getcwd R)) feed_name,
                     [ ("bind", "/state"); ("mode", "rw") ]) ])
           (run_calls (trace_of (process_feeds R os config ldes2sparql_image w))).
Proof.
  intros W R os config image fs w Hcfg.
  destruct (process_feeds_shape R os config image fs w Hcfg) as [_ [Hcalls _]].
  eapply Forall_impl; [|exact Hcalls].
  intros call [[feed_name value] [Hin [fd [env [Hfd [Henv ->]]]]]]. simpl in *. subst value.
  repeat split. exists feed_name, fd. auto.
Qed.

Lemma X9_options_of_spawn_calls_witness :
  Forall (fun call =>
            cfg_image (fst call) = "img" /\
            cfg_detach (fst call) = true /\
            cfg_remove (fst call) = false /\
            exists feed_name fd,
              In (feed_name, Feed fd) Mock.abc /\
              cfg_name (fst call) = container_name feed_name /\
              env_vars ascii_lower [ ("HOST_PWD", "/srv") ] feed_name fd
                = inr (cfg_environment (fst call)) /\
              cfg_volumes (fst call) =
                [ (feed_state_dir "/srv" feed_name,
                   [ ("bind", "/state"); ("mode", "rw") ]) ])
    (run_calls (trace_of (process_feeds Mock.runtime [ ("HOST_PWD", "/srv") ]
                            Mock.three_feeds "img"
                            (Mock.fresh (inr Mock.three_feeds) [ "ldes-consumer-a" ])))).
Proof.
  exact (X9_options_of_spawn_calls Mock.world Mock.runtime [ ("HOST_PWD", "/srv") ]
           Mock.three_feeds "img" _
           (Mock.fresh (inr Mock.three_feeds) [ "ldes-consumer-a" ]) eq_refl).
Defined.

(** What [process_feeds] returns, and the directory creations and spawn
    calls it makes, are those of its loop. *)
Lemma process_feeds_loop {W : Type} (R : Runtime W) (os : environ)
  (config : feeds_config) (ldes2sparql_image : string) (fs : feed_list) (w : W) :
  config = Mapping (Some (FeedsMapping fs)) ->
  exists w2,
    let x := process_feeds R os config ldes2sparql_image w in
    let y := process_feed_list R os ldes2sparql_image (getenv os "HOST_PWD" (getcwd R))
               (detected_labels R os w) (chosen_network R os w) fs [] w2 in
    result_of x = result_of y /\
    world_of x = world_of y /\
    run_calls (trace_of x) = run_calls (trace_of y) /\
    mkdir_and_run_calls (trace_of x) = mkdir_and_run_calls (trace_of y).
Proof.
  intros Hcfg.
  destruct (process_feeds_unfold R os config ldes2sparql_image fs w Hcfg)
    as [w2 [t3 [Ht3 E]]].
  cbv zeta in E. exists w2. cbv zeta.
  assert (L1 : Forall is_lookup (trace_of (get_compose_labels R os w))).
  { destruct (get_compose_labels_returns R os w) as [w1 [t1 [d1 [E1 L]]]].
    now rewrite E1. }
  assert (L2 : Forall is_lookup
                 (trace_of (get_parent_network R os
                              (world_of (get_compose_labels R os w))))).
  { destruct (get_parent_network_returns R os (world_of (get_compose_labels R os w)))
      as [w1 [t1 [d1 [E1 L]]]].
    now rewrite E1. }
  assert (P3 : only detection_event t3).
  { destruct Ht3 as [->|[n ->]]; repeat constructor. }
  remember (process_feed_list R os ldes2sparql_image (getenv os "HOST_PWD" (getcwd R))
              (detected_labels R os w) (chosen_network R os w) fs [] w2) as y eqn:Hy.
  remember (trace_of y) as ty eqn:Hty.
  remember (trace_of (get_compose_labels R os w)) as tl eqn:Htl.
  remember (trace_of (get_parent_network R os (world_of (get_compose_labels R os w))))
    as tn eqn:Htn.
  rewrite E. unfold trace_of, result_of, world_of. cbn [fst snd].
  assert (Hnone : forall A (f : event -> option A),
             (forall ev, detection_event ev = true -> f ev = None) ->
             collect f ([ Printed (FoundFeeds (length fs)) ] ++ tl ++ tn ++ t3 ++
                        [ Printed (DefaultEndpoint (default_sparql_endpoint os)) ] ++ ty)
             = collect f ty).
  { intros A f Hf. rewrite !collect_app.
    rewrite (only_collect_none detection_event f tl Hf (lookup_events tl L1)).
    rewrite (only_collect_none detection_event f tn Hf (lookup_events tn L2)).
    rewrite (only_collect_none detection_event f t3 Hf P3).
    simpl. rewrite !Hf by reflexivity. reflexivity. }
  repeat split.
  - apply Hnone. intros []; simpl; congruence.
  - apply Hnone. intros []; simpl; congruence.
Qed.


Section SpawningRuns.

Context {W : Type} (R : Runtime W).
Variables (os : environ) (ldes2sparql_image host_pwd : string).
Variables (labels0 : dict string) (network0 : option string).

Lemma process_feed_list_cons (feed : pyval * feed_value) (rest : feed_list)
  (containers : list Container) (w : W) :
  process_feed_list R os ldes2sparql_image host_pwd labels0 network0
    (feed :: rest) containers w =
  match process_feed R os ldes2sparql_image host_pwd labels0 network0 containers feed w with
  | (w1, t1, inl e) => (w1, t1, inl e)
  | (w1, t1, inr containers') =>
      match process_feed_list R os ldes2sparql_image host_pwd labels0 network0
              rest containers' w1 with
      | (w2, t2, r) => (w2, t1 ++ t2, r)
      end
  end.
Proof. reflexivity. Qed.

(** When every feed reaches its spawn call, every feed gets one, with the
    keyword arguments built for it, and the loop alternates: the state
    directory of a feed is made, then the feed is spawned. *)
Lemma process_feed_list_sequence (fs : feed_list) :
  mkdir_succeeds R ->
  Forall (fun feed => well_formed (snd feed) = true) fs ->
  forall (containers : list Container) (w : W),
    let x := process_feed_list R os ldes2sparql_image host_pwd labels0 network0
               fs containers w in
    Forall2 (fun feed call =>
               exists fd env,
                 snd feed = Feed fd /\
                 env_vars (str_lower R) os (fst feed) fd = inr env /\
                 fst call = container_config_of ldes2sparql_image (fst feed) env
                              (state_volume host_pwd (fst feed)) labels0 network0)
            fs (run_calls (trace_of x)) /\
    mkdir_and_run_calls (trace_of x) =
    flat_map (fun fc => [ CallMkdir (feed_state_dir host_pwd (fst (fst fc))) (inr tt);
                          CallRun (fst (snd fc)) (snd (snd fc)) ])
             (combine fs (run_calls (trace_of x))).
Proof.
  intros Hmk. induction 1 as [|feed rest Hfeed Hrest IH]; intros containers w x; subst x.
  - split; [constructor | reflexivity].
  - rewrite process_feed_list_cons.
    pose proof (process_feed_shape R os ldes2sparql_image host_pwd labels0 network0
                  containers feed w) as Hshape. cbv zeta in Hshape.
    destruct (process_feed R os ldes2sparql_image host_pwd labels0 network0
                containers feed w) as [[w1 t1] r1].
    unfold trace_of, result_of, world_of in Hshape. cbn [fst snd] in Hshape.
    destruct Hshape as [_ [[Hnm _] | [[fd [e [Hfd [_ [_ [Hbad|Hbad]]]]]]
                                     | [fd [env [r [Hfd [Henv [_ [Hcalls Hres]]]]]]]]]].
    + rewrite Hnm in Hfeed. discriminate Hfeed.
    + rewrite Hmk in Hbad. discriminate.
    + destruct Hbad as [_ [_ [Hbad _]]]. rewrite Hfd in Hfeed. congruence.
    + subst r1.
      match goal with
      | |- context [process_feed_list R os ldes2sparql_image host_pwd labels0 network0
                      rest ?acc w1] =>
          specialize (IH acc w1); cbv zeta in IH;
          destruct (process_feed_list R os ldes2sparql_image host_pwd labels0 network0
                      rest acc w1) as [[w2 t2] r2]
      end.
      unfold trace_of in *. cbn [fst snd] in *. destruct IH as [IHc IHs].
      rewrite mkdir_and_run_calls_app, run_calls_app, Hcalls, IHs.
      rewrite <- (run_calls_of_mkdir_and_run t1), Hcalls.
      split; [|reflexivity].
      simpl. constructor; [|exact IHc]. exists fd, env. auto.
Qed.


(** When state directories cannot be made, the loop raises at its first
    feed, after one attempt, and spawns nothing. *)
Lemma process_feed_list_no_directory (feed_name : pyval) (fd : feed_data)
  (rest : feed_list) (e : exception) :
  (forall path w, snd (mkdir R path w) = inl e) ->
  forall (containers : list Container) (w : W),
    let x := process_feed_list R os ldes2sparql_image host_pwd labels0 network0
               ((feed_name, Feed fd) :: rest) containers w in
    result_of x = inl (Exc e) /\
    mkdir_and_run_calls (trace_of x) =
      [ CallMkdir (feed_state_dir host_pwd feed_name) (inl e) ].
Proof.
  intros Hmk containers w x; subst x.
  rewrite process_feed_list_cons.
  pose proof (process_feed_shape R os ldes2sparql_image host_pwd labels0 network0
                containers (feed_name, Feed fd) w) as Hshape.
  cbv zeta in Hshape. cbn [fst snd] in Hshape.
  destruct (process_feed R os ldes2sparql_image host_pwd labels0 network0
              containers (feed_name, Feed fd) w) as [[w1 t1] r1].
  unfold trace_of, result_of, world_of in *. cbn [fst snd] in *. rewrite Hmk in Hshape.
  destruct Hshape as [_ [[Hnm _] | [[fd' [e' [_ [Hres [Hcalls [Hbad|[Hbad _]]]]]]]
                                   | [fd' [env [r [_ [_ [Hok _]]]]]]]]];
    try discriminate.
  injection Hbad as <-. subst r1. cbn [fst snd]. now split.
Qed.

End SpawningRuns.

(** X10.  [process_feeds] asks the daemon for the orchestrator's own
    container twice when HOSTNAME is set and not empty, once for the labels
    and once for the network, and never otherwise; it makes no other call
    than these lookups, directory creations and spawn calls. *)
Theorem X10_lookups_of_process_feeds :
  forall (W : Type) (R : Runtime W) (os : environ) (config : feeds_config)
         (ldes2sparql_image : string) (fs : feed_list) (w : W),
    config = Mapping (Some (FeedsMapping fs)) ->
    get_calls (trace_of (process_feeds R os config ldes2sparql_image w)) =
      (if truthy (getenv_opt os "HOSTNAME")
       then [ dict_get_or os "HOSTNAME" ""; dict_get_or os "HOSTNAME" "" ]
       else []) /\
    only process_event (trace_of (process_feeds R os config ldes2sparql_image w)).
Proof.
  intros W R os config image fs w Hcfg.
  destruct (process_feeds_shape R os config image fs w Hcfg) as [Hev [_ Hget]].
  now split.
Qed.

Lemma X10_lookups_of_process_feeds_witness :
  get_calls (trace_of (process_feeds Mock.runtime in_container Mock.three_feeds "img"
                         (composed (inr Mock.three_feeds) [])))
    = [ "0123456789ab"; "0123456789ab" ] /\
  only process_event
    (trace_of (process_feeds Mock.runtime in_container Mock.three_feeds "img"
                 (composed (inr Mock.three_feeds) []))).
Proof.
  exact (X10_lookups_of_process_feeds Mock.world Mock.runtime in_container
           Mock.three_feeds "img" _ (composed (inr Mock.three_feeds) []) eq_refl).
Defined.

(** X11.  When every feed is well formed and its state directory can be
    made, every feed of the configuration gets one spawn call, in stored
    order, made with the keyword arguments built for that feed; and the
    directory creations and spawn calls come in pairs, feed by feed: the
    feed's state directory is made, then the feed is spawned, before the
    next feed is touched. *)
Theorem X11_directory_then_spawn :
  forall (W : Type) (R : Runtime W) (os : environ) (config : feeds_config)
         (ldes2sparql_image : string) (fs : feed_list) (w : W),
    mkdir_succeeds R ->
    config = Mapping (Some (FeedsMapping fs)) ->
    Forall (fun feed => well_formed (snd feed) = true) fs ->
    let t := trace_of (process_feeds R os config ldes2sparql_image w) in
    Forall2 (fun feed call => spawn_config_of R os ldes2sparql_image w feed (fst call))
            fs (run_calls t) /\
    mkdir_and_run_calls t =
    flat_map (fun fc =>
                [ CallMkdir (feed_state_dir (getenv os "HOST_PWD" (getcwd R)) (fst (fst fc)))
                    (inr tt);
                  CallRun (fst (snd fc)) (snd (snd fc)) ])
             (combine fs (run_calls t)).
Proof.
  intros W R os config image fs w Hmk Hcfg Hfs t. subst t.
  destruct (process_feeds_loop R os config image fs w Hcfg) as [w2 H].
  cbv zeta in H. destruct H as [_ [_ [Hrun Hboth]]].
  rewrite Hrun, Hboth.
  destruct (process_feed_list_sequence R os image (getenv os "HOST_PWD" (getcwd R))
              (detected_labels R os w) (chosen_network R os w) fs Hmk Hfs [] w2)
    as [Hcalls Hseq].
  split; [|exact Hseq].
  eapply Forall2_impl; [|exact Hcalls].
  intros feed call [fd [env [Hfd [Henv Hc]]]]. exists fd, env. auto.
Qed.

Lemma X11_directory_then_spawn_witness :
  let t := trace_of (process_feeds Mock.runtime [] Mock.three_feeds "img"
                       (Mock.fresh (inr Mock.three_feeds) [ "ldes-consumer-b" ])) in
  Forall2 (fun feed call => spawn_config_of Mock.runtime [] "img"
                              (Mock.fresh (inr Mock.three_feeds) [ "ldes-consumer-b" ])
                              feed (fst call))
          Mock.abc (run_calls t) /\
  mkdir_and_run_calls t =
  flat_map (fun fc =>
              [ CallMkdir (feed_state_dir "/app" (fst (fst fc))) (inr tt);
                CallRun (fst (snd fc)) (snd (snd fc)) ])
           (combine Mock.abc (run_calls t)).
Proof.
  exact (X11_directory_then_spawn Mock.world Mock.runtime [] Mock.three_feeds "img" _
           (Mock.fresh (inr Mock.three_feeds) [ "ldes-consumer-b" ])
           mock_mkdir_succeeds eq_refl abc_well_formed).
Defined.


(** X13.  When state directories cannot be made, [process_feeds] raises the
    error of the first attempt and makes no spawn call. *)
Theorem X13_no_directory_no_spawn :
  forall (W : Type) (R : Runtime W) (os : environ) (config : feeds_config)
         (ldes2sparql_image : string) (feed_name : pyval) (fd : feed_data)
         (rest : feed_list) (e : exception) (w : W),
    (forall path w', snd (mkdir R path w') = inl e) ->
    config = Mapping (Some (FeedsMapping ((feed_name, Feed fd) :: rest))) ->
    let x := process_feeds R os config ldes2sparql_image w in
    result_of x = inl (Exc e) /\
    mkdir_and_run_calls (trace_of x) =
      [ CallMkdir (feed_state_dir (getenv os "HOST_PWD" (getcwd R)) feed_name) (inl e) ] /\
    run_calls (trace_of x) = [].
Proof.
  intros W R os config image feed_name fd rest e w Hmk Hcfg x. subst x.
  destruct (process_feeds_loop R os config image _ w Hcfg) as [w2 H].
  cbv zeta in H. destruct H as [Hres [_ [Hrun Hboth]]].
  destruct (process_feed_list_no_directory R os image (getenv os "HOST_PWD" (getcwd R))
              (detected_labels R os w) (chosen_network R os w) feed_name fd rest e
              Hmk [] w2)
    as [Hr Hc].
  rewrite Hres, Hboth. repeat split; try assumption.
  rewrite Hrun, <- run_calls_of_mkdir_and_run, Hc. reflexivity.
Qed.


Lemma X13_no_directory_no_spawn_witness :
  let x := process_feeds read_only [] Mock.three_feeds "img"
             (Mock.fresh (inr Mock.three_feeds) []) in
  result_of x = inl (Exc (OSError "Read-only file system")) /\
  mkdir_and_run_calls (trace_of x) =
    [ CallMkdir (feed_state_dir "/app" (PStr "a")) (inl (OSError "Read-only file system")) ] /\
  run_calls (trace_of x) = [].
Proof.
  apply (X13_no_directory_no_spawn Mock.world read_only [] Mock.three_feeds "img"
           (PStr "a") (Mock.plain_feed "https://a")
           [ (PStr "b", Feed (Mock.plain_feed "https://b"));
             (PStr "c", Feed (Mock.plain_feed "https://c")) ]
           (OSError "Read-only file system")
           (Mock.fresh (inr Mock.three_feeds) [])).
  - intros path w'. reflexivity.
  - reflexivity.
Defined.


(** ** Teardown and supervision, continued *)

Section TeardownRuns.

Context {W : Type} (R : Runtime W).

Lemma cleanup_container_trace (c : Container) (w : W) :
  only teardown_event (trace_of (cleanup_container R c w)) /\
  Forall (stop_answer R) (stop_calls (trace_of (cleanup_container R c w))).
Proof.
  unfold cleanup_container, trace_of. open_monad.
  destruct (stop R c 10 w) as [w1 [e|[]]] eqn:Es; cbv beta iota zeta.
  - split; [repeat constructor|]. simpl. repeat constructor.
    exists w. simpl. now rewrite Es.
  - destruct (remove_container R c w1) as [w2 [e|[]]]; cbv beta iota zeta;
      (split; [repeat constructor|]); simpl; repeat constructor;
      exists w; simpl; now rewrite Es.
Qed.

Lemma cleanup_each_trace (containers : list Container) :
  forall w : W,
    only teardown_event (trace_of (cleanup_each R containers w)) /\
    Forall (stop_answer R) (stop_calls (trace_of (cleanup_each R containers w))).
Proof.
  induction containers as [|c rest IH]; intros w.
  - split; constructor.
  - simpl cleanup_each. unfold bind.
    destruct (cleanup_container_trace c w) as [H1 S1].
    destruct (cleanup_container_returns R c w) as [w1 [t1 [E1 _]]].
    rewrite E1 in *. destruct (IH w1) as [H2 S2].
    destruct (cleanup_each R rest w1) as [[w2 t2] r2].
    unfold trace_of in *. cbn [fst snd] in *.
    split; [now apply only_app|].
    unfold stop_calls in *. rewrite collect_app. apply Forall_app. now split.
Qed.

Lemma cleanup_containers_trace (containers : list Container) (w : W) :
  only teardown_event (trace_of (cleanup_containers R containers w)) /\
  Forall (stop_answer R) (stop_calls (trace_of (cleanup_containers R containers w))).
Proof.
  destruct containers as [|c rest]; [split; constructor|].
  unfold cleanup_containers, bind, print, emit.
  destruct (cleanup_each_trace (c :: rest) w) as [H S].
  destruct (cleanup_each R (c :: rest) w) as [[w1 t1] r1].
  unfold trace_of in *. cbn [fst snd] in *.
  split; [apply only_app; [repeat constructor | assumption] | exact S].
Qed.

Lemma none_succeeded {A B : Type} (calls : list (A * (exception + B))) :
  Forall (fun call => exists e, snd call = inl e) calls -> succeeded calls = [].
Proof.
  induction 1 as [|call rest [e He] _ IH]; simpl; [reflexivity|]. now rewrite He.
Qed.

Lemma refresh_all_tracked (containers : list Container) :
  forall w : W,
    only reload_event (trace_of (refresh_all R containers w)) /\
    forall tracked active,
      result_of (refresh_all R containers w) = inr (tracked, active) ->
      tracked = tracked_after (reload_calls (trace_of (refresh_all R containers w))).
Proof.
  induction containers as [|c rest IH]; intros w.
  - split; [constructor|]. intros tracked active H. injection H as <- <-. reflexivity.
  - simpl refresh_all. unfold try_except, bind, call, ret.
    destruct (reload R c w) as [w1 [e|fresh]]; cbv beta iota zeta;
      [|destruct (String.eqb (status fresh) "running"); cbv beta iota zeta];
      destruct (IH w1) as [Hev Htr];
      destruct (refresh_all R rest w1) as [[w2 t2] [e2|[tracked2 active2]]];
      unfold trace_of, result_of in *; cbn [fst snd] in *;
      (split;
       [repeat (apply only_app || constructor || assumption)
       | intros tracked active H; try discriminate H; injection H as <- <-;
         unfold reload_calls, tracked_after in *; rewrite !collect_app;
         simpl; rewrite app_nil_r; f_equal; now apply (Htr tracked2 active2)]).
Qed.

End TeardownRuns.

(** X14.  When the daemon refuses every stop, teardown still calls [stop]
    on every handle in order and returns normally, and it removes nothing:
    [remove] is reached only after a [stop] that returned. *)
Theorem X14_refused_stops_remove_nothing :
  forall (W : Type) (R : Runtime W) (containers : list Container) (w : W),
    (forall c w', exists e, snd (stop R c 10 w') = inl e) ->
    let x := cleanup_containers R containers w in
    result_of x = inr tt /\
    map fst (stop_calls (trace_of x)) = containers /\
    remove_calls (trace_of x) = [].
Proof.
  intros W R containers w Hstop x. subst x.
  destruct (cleanup_containers_trace R containers w) as [_ Hans].
  destruct (cleanup_containers_returns R containers w) as [w1 [t [E [Hs [Hr _]]]]].
  rewrite E in *. unfold result_of, trace_of in *. cbn [fst snd] in *.
  repeat split; try assumption.
  rewrite none_succeeded in Hr.
  - now apply map_eq_nil in Hr.
  - eapply Forall_impl; [|exact Hans].
    intros call [w' Hw']. destruct (Hstop (fst call) w') as [e He].
    exists e. congruence.
Qed.

Lemma X14_refused_stops_remove_nothing_witness :
  let handles := [ mk_container "c0" (Some "ldes-consumer-a") "created";
                   mk_container "c1" (Some "ldes-consumer-c") "created" ] in
  let x := cleanup_containers unstoppable handles
             (world_of (process_feeds Mock.runtime [] Mock.three_feeds "img"
                          (Mock.fresh (inr Mock.three_feeds) [ "ldes-consumer-b" ]))) in
  result_of x = inr tt /\
  map fst (stop_calls (trace_of x)) = handles /\
  remove_calls (trace_of x) = [].
Proof.
  intros handles.
  apply (X14_refused_stops_remove_nothing Mock.world unstoppable handles).
  intros c w'. exists (APIError "cannot stop container"). reflexivity.
Defined.

(** X15.  A turn of the supervision loop only looks: its calls are the
    refreshes, it spawns, stops and removes nothing, and it sleeps once, for
    ten seconds.  No handle is dropped: a handle whose refresh raised stays
    tracked as it was, next to the refreshed ones. *)
Theorem X15_poll_only_refreshes :
  forall (W : Type) (R : Runtime W) (containers : list Container) (w : W),
    let x := monitor_once R containers w in
    only poll_event (trace_of x) /\
    sleeps (trace_of x) = [ 10%Z ] /\
    exists tracked active,
      result_of x = inr (tracked, active) /\
      tracked = tracked_after (reload_calls (trace_of x)) /\
      length tracked = length containers.
Proof.
  intros W R containers w x. subst x.
  destruct (refresh_all_returns R containers w)
    as [w1 [t [tracked [active [E [Hc [Ha [Hapi Hl]]]]]]]].
  destruct (refresh_all_tracked R containers w) as [Hev Htr].
  rewrite (monitor_once_unfold R containers w w1 t tracked active E).
  rewrite E in Hev, Htr. unfold trace_of, result_of in *. cbn [fst snd] in *.
  assert (Hre : forall l, reload_calls (t ++ [Printed l; Sleep 10]) = reload_calls t).
  { intros l. unfold reload_calls. rewrite collect_app. simpl. apply app_nil_r. }
  repeat split.
  - apply only_app; [|repeat constructor].
    apply (only_weaken reload_event); [|assumption]. intros []; simpl; congruence.
  - unfold sleeps. rewrite collect_app.
    rewrite (only_collect_none reload_event _ t) by
      (assumption || (intros []; simpl; congruence)).
    reflexivity.
  - exists tracked, active. rewrite Hre. repeat split; [|assumption].
    now apply (Htr tracked active).
Qed.

(** ** The whole run *)

Section WholeRun.

Context {W : Type} (R : Runtime W).

Lemma monitor_once_facts (containers : list Container) (w : W) :
  exists w1 t tracked active,
    monitor_once R containers w = (w1, t, inr (tracked, active)) /\
    only poll_event t /\
    sleeps t = [ 10%Z ] /\
    map fst (reload_calls t) = containers /\
    length tracked = length containers.
Proof.
  destruct (refresh_all_returns R containers w)
    as [w1 [t [tracked [active [E [Hc [Ha [Hapi Hl]]]]]]]].
  destruct (refresh_all_tracked R containers w) as [Hev _].
  rewrite E in Hev. unfold trace_of in Hev. cbn [fst snd] in Hev.
  exists w1. eexists. exists tracked, active.
  split; [exact (monitor_once_unfold R containers w w1 t tracked active E)|].
  repeat split.
  - apply only_app; [|repeat constructor].
    apply (only_weaken reload_event); [|assumption]. intros []; simpl; congruence.
  - unfold sleeps. rewrite collect_app.
    rewrite (only_collect_none reload_event _ t) by
      (assumption || (intros []; simpl; congruence)).
    reflexivity.
  - unfold reload_calls in *. rewrite collect_app. simpl. now rewrite app_nil_r.
  - assumption.
Qed.

(** The refreshes of a turn cut short: the first [k] handles, in order. *)
Lemma refresh_first_facts (k : nat) :
  forall (containers : list Container) (w : W),
  exists w1 t tracked,
    refresh_first R k containers w = (w1, t, inr tracked) /\
    only reload_event t /\
    map fst (reload_calls t) = firstn k containers /\
    length tracked = length containers.
Proof.
  induction k as [|k IH]; intros containers w.
  - exists w, [], containers. destruct containers; repeat split; constructor.
  - destruct containers as [|c rest].
    + exists w, [], []. repeat split; constructor.
    + simpl refresh_first. unfold try_except, bind, call, ret.
      destruct (reload R c w) as [w1 [e|fresh]]; cbv beta iota zeta;
        destruct (IH rest w1) as [w2 [t [tracked [E [Hev [Hc Hl]]]]]];
        rewrite E; cbv beta iota zeta;
        (eexists; eexists; eexists; split; [reflexivity|]);
        (split; [|split]);
        try (repeat (apply only_app || constructor || assumption); fail);
        try (unfold reload_calls in *; rewrite !collect_app; simpl; rewrite ?app_nil_r;
             now rewrite Hc);
        simpl; now rewrite Hl.
Qed.

(** The turn during which the signal arrives only refreshes, and sleeps
    no more. *)
Lemma interrupted_turn_facts (point : nat) (containers : list Container) (w : W) :
  exists w1 t tracked,
    interrupted_turn R point containers w = (w1, t, inr tracked) /\
    only poll_event t /\
    sleeps t = [] /\
    map fst (reload_calls t) = firstn point containers /\
    length tracked = length containers.
Proof.
  assert (Hp : forall ev, reload_event ev = true -> poll_event ev = true)
    by (intros []; simpl; congruence).
  unfold interrupted_turn. destruct (Nat.ltb_spec (length containers) point) as [Hlt|Hge].
  - destruct (refresh_all_returns R containers w)
      as [w1 [t [tracked [active [E [Hc [Ha [Hapi Hl]]]]]]]].
    destruct (refresh_all_tracked R containers w) as [Hev _].
    rewrite E in Hev. unfold trace_of in Hev. cbn [fst snd] in Hev.
    unfold bind, print, emit, ret. rewrite E. cbv beta iota zeta. cbn [fst snd].
    exists w1.
    exists (t ++ [ Printed (match active with
                            | [] => AllStopped
                            | _ :: _ => Running (length active) (length containers)
                            end) ] ++ []).
    exists tracked.
    split; [destruct active; reflexivity|].
    split; [|split; [|split]].
    + apply only_app; [now apply (only_weaken reload_event)|].
      destruct active; repeat constructor.
    + unfold sleeps. rewrite collect_app.
      rewrite (only_collect_none reload_event _ t) by
        (assumption || (intros []; simpl; congruence)).
      destruct active; reflexivity.
    + rewrite firstn_all2 by lia.
      unfold reload_calls in *. rewrite collect_app.
      replace (collect _ (_ ++ [])) with (@nil (Container * (exception + Container)))
        by (destruct active; reflexivity).
      now rewrite app_nil_r.
    + assumption.
  - destruct (refresh_first_facts point containers w) as [w1 [t [tracked [E [Hev [Hc Hl]]]]]].
    exists w1, t, tracked. split; [exact E|].
    split; [now apply (only_weaken reload_event)|].
    split; [|now split].
    apply (only_collect_none reload_event); [|assumption]. intros []; simpl; congruence.
Qed.

Lemma supervise_turn (n point : nat) (containers : list Container) (w : W) :
  supervise R (S n) point containers w =
  match monitor_once R containers w with
  | (w1, t1, inl e) => (w1, t1, inl e)
  | (w1, t1, inr polled) =>
      match supervise R n point (fst polled) w1 with
      | (w2, t2, r) => (w2, t1 ++ t2, r)
      end
  end.
Proof. reflexivity. Qed.

Lemma supervise_signal (point : nat) (containers tracked : list Container)
  (w w0 : W) (t0 : list event) :
  interrupted_turn R point containers w = (w0, t0, inr tracked) ->
  supervise R 0 point containers w =
  match cleanup_containers R tracked w0 with
  | (w1, t1, inl e) => (w1, t0 ++ [ Printed ShutdownSignal ] ++ t1, inl e)
  | (w1, t1, inr _) =>
      (w1, t0 ++ [ Printed ShutdownSignal ] ++ t1 ++ [], inl (SystemExit 0))
  end.
Proof.
  intros E. simpl supervise. unfold bind at 1. rewrite E.
  unfold bind, print, emit, raise.
  destruct (cleanup_containers R tracked w0) as [[w1 t1] [e|u]]; reflexivity.
Qed.

(** However many turns the supervision loop completes before the signal,
    and wherever in a turn the signal arrives, the run ends in
    [sys.exit(0)]. *)
Lemma supervise_exits_zero (polls point : nat) :
  forall (containers : list Container) (w : W),
    result_of (supervise R polls point containers w) = inl (SystemExit 0).
Proof.
  induction polls as [|n IH]; intros containers w.
  - destruct (interrupted_turn_facts point containers w) as [w0 [t0 [tracked [E _]]]].
    rewrite (supervise_signal point containers tracked w w0 t0 E).
    destruct (cleanup_containers_returns R tracked w0) as [w1 [t [E1 _]]].
    now rewrite E1.
  - rewrite supervise_turn.
    destruct (monitor_once_facts containers w) as [w1 [t1 [tracked [active [E _]]]]].
    rewrite E. cbn [fst]. specialize (IH tracked w1). unfold result_of in *.
    destruct (supervise R n point tracked w1) as [[w2 t2] r]. cbn [fst snd] in *.
    assumption.
Qed.

(** The supervision loop and the teardown that ends it: one sleep and one
    refresh of every handle per whole turn, the refreshes done of the turn
    the signal cuts short, then one stop per handle. *)
Lemma supervise_counts (polls point : nat) :
  forall (containers : list Container) (w : W),
    let t := trace_of (supervise R polls point containers w) in
    sleeps t = repeat 10%Z polls /\
    length (reload_calls t) = polls * length containers + min point (length containers) /\
    length (stop_calls t) = length containers /\
    run_calls t = [].
Proof.
  induction polls as [|n IH]; intros containers w t; subst t.
  - destruct (interrupted_turn_facts point containers w)
      as [w0 [t0 [tracked [E [Hev0 [Hsl0 [Hre0 Hlen0]]]]]]].
    rewrite (supervise_signal point containers tracked w w0 t0 E).
    destruct (cleanup_containers_trace R tracked w0) as [Hev _].
    destruct (cleanup_containers_returns R tracked w0) as [w1 [t [E1 [Hs _]]]].
    rewrite E1 in *. unfold trace_of in *. cbn [fst snd] in *.
    assert (Hn : forall A (f : event -> option A),
               (forall ev, teardown_event ev = true -> f ev = None) ->
               collect f ([Printed ShutdownSignal] ++ t ++ []) = []).
    { intros A f Hf. rewrite !collect_app, (only_collect_none teardown_event f t Hf Hev).
      simpl. now rewrite Hf. }
    assert (Hn0 : forall A (f : event -> option A),
               (forall ev, poll_event ev = true -> f ev = None) -> collect f t0 = []).
    { intros A f Hf. now apply (only_collect_none poll_event). }
    repeat split.
    + unfold sleeps in *. rewrite collect_app, Hsl0. apply Hn. intros []; simpl; congruence.
    + unfold reload_calls in *. rewrite collect_app, Hn by (intros []; simpl; congruence).
      rewrite app_nil_r, <- (length_map fst), Hre0, length_firstn. reflexivity.
    + unfold stop_calls in *. rewrite collect_app, Hn0 by (intros []; simpl; congruence).
      rewrite !collect_app. simpl. rewrite app_nil_r.
      rewrite <- (length_map fst). now rewrite Hs.
    + unfold run_calls. rewrite collect_app, Hn0 by (intros []; simpl; congruence).
      apply Hn. intros []; simpl; congruence.
  - rewrite supervise_turn.
    destruct (monitor_once_facts containers w)
      as [w1 [t1 [tracked [active [E [Hev [Hsl [Hre Hlen]]]]]]]].
    rewrite E. cbn [fst]. specialize (IH tracked w1). cbv zeta in IH.
    destruct (supervise R n point tracked w1) as [[w2 t2] r2].
    unfold trace_of in *. cbn [fst snd] in *.
    destruct IH as [IHs [IHr [IHt IHn]]].
    assert (Hn : forall A (f : event -> option A),
               (forall ev, poll_event ev = true -> f ev = None) -> collect f t1 = []).
    { intros A f Hf. now apply (only_collect_none poll_event). }
    repeat split.
    + unfold sleeps in *. rewrite collect_app, Hsl, IHs. reflexivity.
    + unfold reload_calls in *. rewrite collect_app, length_app, IHr.
      rewrite <- (length_map fst), Hre, Hlen. simpl. lia.
    + unfold stop_calls in *. rewrite collect_app, Hn by (intros []; simpl; congruence).
      simpl. now rewrite IHt, Hlen.
    + unfold run_calls in *. rewrite collect_app, Hn by (intros []; simpl; congruence).
      simpl. exact IHn.
Qed.

Lemma supervise_nothing (polls point : nat) (w : W) :
  api_calls (trace_of (supervise R polls point [] w)) = [] /\
  world_of (supervise R polls point [] w) = w.
Proof.
  induction polls as [|n IH].
  - unfold supervise, interrupted_turn. simpl length.
    destruct point as [|p]; split; reflexivity.
  - rewrite supervise_turn.
    change (monitor_once R [] w) with (w, [ Printed AllStopped; Sleep 10 ],
                                       @inr base_exception _ (@nil Container, @nil Container)).
    cbn [fst]. destruct (supervise R n point [] w) as [[w2 t2] r2].
    unfold trace_of, world_of in *. cbn [fst snd] in *.
    destruct IH as [IH1 IH2]. split; [|assumption].
    unfold api_calls in *. rewrite collect_app. simpl. exact IH1.
Qed.

(** The lines and lookups before the loop of [process_feeds]. *)
Lemma process_feeds_events (os : environ) (config : feeds_config)
  (ldes2sparql_image : string) (w : W) :
  only process_event (trace_of (process_feeds R os config ldes2sparql_image w)).
Proof.
  destruct config as [|[|]|[[|n|fs]|]]; try (repeat constructor; fail).
  - unfold process_feeds.
    unfold bind at 1. unfold print at 1, emit at 1.
    unfold bind at 1.
    destruct (get_compose_labels_returns R os w) as [w1 [t1 [labels1 [E1 L1]]]].
    rewrite E1. unfold bind at 1.
    destruct (get_parent_network_returns R os w1) as [w2 [t2 [detected [E2 L2]]]].
    rewrite E2. unfold bind at 1.
    destruct (choose_network_returns R os detected w2) as [t3 [E3 L3]]. rewrite E3.
    unfold bind, print, emit, raise, trace_of. cbn [fst snd].
    assert (Hp : forall ev, detection_event ev = true -> process_event ev = true)
      by apply detection_is_process_event.
    repeat apply only_app; try (repeat constructor; fail);
      apply (only_weaken detection_event); try exact Hp; now apply lookup_events.
  - now destruct (process_feeds_shape R os _ ldes2sparql_image fs w eq_refl).
Qed.

Lemma load_ldes_feeds_events (config_path : string) (w : W) :
  only startup_event (trace_of (load_ldes_feeds R config_path w)).
Proof.
  unfold load_ldes_feeds, trace_of. open_monad.
  destruct (safe_load R config_path w) as [w1 [e|config]]; cbv beta iota zeta;
    [destruct e|]; repeat constructor.
Qed.

(** Nothing is refreshed, stopped or removed, and nothing sleeps, before
    the supervision loop. *)
Lemma main_startup_events (os : environ) (w : W) :
  only startup_event (trace_of (main_startup R os w)).
Proof.
  unfold main_startup. open_monad.
  destruct (from_env R w) as [w1 [e|[]]]; cbv beta iota zeta; [repeat constructor|].
  destruct (ping R w1) as [w2 [e|[]]]; cbv beta iota zeta; [repeat constructor|].
  pose proof (load_ldes_feeds_events
                (getenv os "LDES_CONFIG_PATH" "/data/ldes-feeds.yaml") w2) as Hload.
  destruct (load_ldes_feeds R (getenv os "LDES_CONFIG_PATH" "/data/ldes-feeds.yaml") w2)
    as [[w3 t3] [e|config]]; unfold trace_of in *; cbn [fst snd] in *.
  - apply only_app; [repeat constructor | assumption].
  - pose proof (process_feeds_events os config
                  (getenv os "LDES2SPARQL_IMAGE" "ghcr.io/maregraph-eu/ldes2sparql:latest")
                  w3) as Hproc.
    destruct (process_feeds R os config
                (getenv os "LDES2SPARQL_IMAGE" "ghcr.io/maregraph-eu/ldes2sparql:latest") w3)
      as [[w4 t4] [e|containers]]; unfold trace_of in *; cbn [fst snd] in *;
      repeat (apply only_app; [try (repeat constructor; fail)|]);
      try assumption; try (repeat constructor; fail);
      try (apply (only_weaken process_event); [intros []; simpl; congruence | assumption]).
Qed.

End WholeRun.

Lemma main_unfold {W : Type} (R : Runtime W) (os : environ) (polls point : nat) (w : W) :
  main R os polls point w =
  match main_startup R os w with
  | (w1, t1, inl e) => (w1, t1, inl e)
  | (w1, t1, inr containers) =>
      match supervise R polls point containers w1 with
      | (w2, t2, r) => (w2, t1 ++ t2, r)
      end
  end.
Proof. reflexivity. Qed.

(** X16.  When start-up returns the tracked handles, the run ends with
    exit status 0 wherever the signal finds the supervision loop: after
    [polls] whole turns, and in the next turn after [point] of its steps,
    the refreshes one by one and then the status line ([point = 0] also
    stands for a signal during the sleep before).  By then the run has
    begun one sleep of ten seconds per whole turn, and refreshed every
    tracked handle once per whole turn and the first [point] handles once
    more; at shutdown it calls [stop] once for every tracked handle,
    vanished ones included. *)
Theorem X16_graceful_shutdown :
  forall (W : Type) (R : Runtime W) (os : environ) (polls point : nat) (w : W)
         (containers : list Container),
    result_of (main_startup R os w) = inr containers ->
    let x := main R os polls point w in
    result_of x = inl (SystemExit 0) /\
    exit_code (result_of x) = 0%Z /\
    sleeps (trace_of x) = repeat 10%Z polls /\
    length (reload_calls (trace_of x)) =
      polls * length containers + min point (length containers) /\
    length (stop_calls (trace_of x)) = length containers.
Proof.
  intros W R os polls point w containers Hstart x. subst x. rewrite main_unfold.
  pose proof (main_startup_events R os w) as Hev.
  destruct (main_startup R os w) as [[w1 t1] r1].
  unfold result_of, trace_of in Hstart, Hev. cbn [fst snd] in Hstart, Hev. subst r1.
  pose proof (supervise_exits_zero R polls point containers w1) as Hexit.
  destruct (supervise_counts R polls point containers w1) as [Hs [Hr [Ht _]]].
  destruct (supervise R polls point containers w1) as [[w2 t2] r2].
  unfold result_of, trace_of in *. cbn [fst snd] in *. subst r2.
  assert (Hn : forall A (f : event -> option A),
             (forall ev, startup_event ev = true -> f ev = None) -> collect f t1 = []).
  { intros A f Hf. now apply (only_collect_none startup_event). }
  repeat split.
  - unfold sleeps in *. rewrite collect_app, Hn by (intros []; simpl; congruence).
    exact Hs.
  - unfold reload_calls in *. rewrite collect_app, Hn by (intros []; simpl; congruence).
    exact Hr.
  - unfold stop_calls in *. rewrite collect_app, Hn by (intros []; simpl; congruence).
    exact Ht.
Qed.

(** Three whole turns, and the signal after the first refresh of the
    fourth, with two handles tracked. *)
Lemma X16_graceful_shutdown_witness :
  let x := main Mock.runtime [] 3 1
             (Mock.fresh (inr Mock.three_feeds) [ "ldes-consumer-b" ]) in
  result_of x = inl (SystemExit 0) /\
  exit_code (result_of x) = 0%Z /\
  sleeps (trace_of x) = [ 10%Z; 10%Z; 10%Z ] /\
  length (reload_calls (trace_of x)) = 7 /\
  length (stop_calls (trace_of x)) = 2.
Proof.
  exact (X16_graceful_shutdown Mock.world Mock.runtime [] 3 1
           (Mock.fresh (inr Mock.three_feeds) [ "ldes-consumer-b" ])
           [ mk_container "c0" (Some "ldes-consumer-a") "created";
             mk_container "c1" (Some "ldes-consumer-c") "created" ] eq_refl).
Defined.

(** X17.  When start-up raises, the run ends there with what was raised:
    the supervision loop is not entered and no teardown is done, so
    containers spawned before the failure are neither stopped nor
    removed. *)
Theorem X17_failed_startup_no_teardown :
  forall (W : Type) (R : Runtime W) (os : environ) (polls point : nat) (w : W)
         (e : base_exception),
    result_of (main_startup R os w) = inl e ->
    let x := main R os polls point w in
    result_of x = inl e /\
    world_of x = world_of (main_startup R os w) /\
    trace_of x = trace_of (main_startup R os w) /\
    stop_calls (trace_of x) = [] /\
    remove_calls (trace_of x) = [].
Proof.
  intros W R os polls point w e Hstart x. subst x. rewrite main_unfold.
  pose proof (main_startup_events R os w) as Hev.
  destruct (main_startup R os w) as [[w1 t1] r1].
  unfold result_of, trace_of, world_of in *. cbn [fst snd] in *. subst r1.
  cbn [fst snd]. repeat split.
  - apply (only_collect_none startup_event); [|assumption]. intros []; simpl; congruence.
  - apply (only_collect_none startup_event); [|assumption]. intros []; simpl; congruence.
Qed.

Lemma X17_failed_startup_no_teardown_witness :
  let x := main Mock.runtime [] 3 0 (Mock.fresh (inr off_feeds) []) in
  result_of x = inl (Exc AttributeError) /\
  Mock.present (world_of x) "c0" = true /\
  stop_calls (trace_of x) = [] /\
  remove_calls (trace_of x) = [].
Proof.
  destruct (X17_failed_startup_no_teardown Mock.world Mock.runtime [] 3 0
              (Mock.fresh (inr off_feeds) []) (Exc AttributeError) eq_refl)
    as [H1 [H2 [_ [H4 H5]]]].
  cbv zeta. split; [exact H1|]. split; [rewrite H2; reflexivity|].
  split; [exact H4 | exact H5].
Defined.



(** X18.  [load_ldes_feeds] hands back the loaded document as it is; it
    turns a missing file and a YAML error into exit status 1, each with its
    own message; any other exception of the load, a permission error for
    one, goes through to the caller as it is, with no message. *)
Theorem X18_load_outcomes :
  forall (W : Type) (R : Runtime W) (config_path : string) (w : W),
    let x := load_ldes_feeds R config_path w in
    (forall config, snd (safe_load R config_path w) = inr config ->
                    result_of x = inr config) /\
    (snd (safe_load R config_path w) = inl FileNotFoundError ->
     result_of x = inl (SystemExit 1) /\
     In (Printed (ConfigNotFound config_path)) (trace_of x)) /\
    (snd (safe_load R config_path w) = inl YAMLError ->
     result_of x = inl (SystemExit 1) /\ In (Printed YamlParseError) (trace_of x)) /\
    (forall e, snd (safe_load R config_path w) = inl e ->
               e <> FileNotFoundError -> e <> YAMLError ->
               result_of x = inl (Exc e) /\
               trace_of x = [ CallLoad config_path (inl e) ]).
Proof.
  intros W R config_path w x. subst x.
  unfold load_ldes_feeds, result_of, trace_of. open_monad.
  destruct (safe_load R config_path w) as [w1 r]. cbn [snd].
  repeat split.
  - intros config ->. reflexivity.
  - subst r. reflexivity.
  - subst r. simpl. tauto.
  - subst r. reflexivity.
  - subst r. simpl. tauto.
  - subst r. destruct e; try reflexivity; contradiction.
  - subst r. destruct e; try reflexivity; contradiction.
Qed.

Lemma X18_load_outcomes_witness :
  let x := load_ldes_feeds Mock.runtime Mock.config_path
             (Mock.fresh (inl (OSError "Permission denied")) []) in
  result_of x = inl (Exc (OSError "Permission denied")) /\
  trace_of x = [ CallLoad Mock.config_path (inl (OSError "Permission denied")) ].
Proof.
  destruct (X18_load_outcomes Mock.world Mock.runtime Mock.config_path
              (Mock.fresh (inl (OSError "Permission denied")) [])) as [_ [_ [_ H]]].
  apply (H (OSError "Permission denied")); [reflexivity | discriminate | discriminate].
Defined.

(** X19.  With the daemon reachable, a loaded document without a [feeds]
    section (a mapping without the key, or a sequence or a string that
    does not hold it) makes the run spawn nothing and inspect nothing: its
    only outside calls are the client creation, the ping and the load; it
    says that the section is missing, goes on to supervise an empty set,
    and ends with exit status 0 at the signal.  A document on which the
    section cannot be looked for or counted (an empty file, which loads as
    [None], a number, a sequence or string holding ["feeds"], or a mapping
    whose [feeds] is [null] or a number) ends the run in [TypeError], with
    exit status 1, after the same three calls and without that message. *)
Theorem X19_no_feeds_section :
  forall (W : Type) (R : Runtime W) (os : environ) (polls point : nat) (w : W)
         (config : feeds_config),
    snd (connect R w) = inr tt ->
    snd (safe_load R (config_path_of os) (fst (connect R w))) = inr config ->
    let x := main R os polls point w in
    (config = Mapping None \/ config = NotMapping false ->
     exit_code (result_of x) = 0%Z /\
     api_calls (trace_of x) =
       [ CallFromEnv (inr tt); CallPing (inr tt);
         CallLoad (config_path_of os) (inr config) ] /\
     In (Printed NoFeedsSection) (trace_of x) /\
     In (Printed (SpawnedCount 0)) (trace_of x)) /\
    (config = NotIterable \/ config = NotMapping true \/
     config = Mapping (Some FeedsUnsized) ->
     result_of x = inl (Exc TypeError) /\
     exit_code (result_of x) = 1%Z /\
     api_calls (trace_of x) =
       [ CallFromEnv (inr tt); CallPing (inr tt);
         CallLoad (config_path_of os) (inr config) ] /\
     ~ In (Printed NoFeedsSection) (trace_of x)).
Proof.
  intros W R os polls point w config Hconn Hload x. subst x.
  rewrite main_unfold.
  unfold main_startup, load_ldes_feeds, connect, config_path_of in *.
  open_monad.
  destruct (from_env R w) as [w1 [e|[]]]; [discriminate|]. cbv beta iota zeta.
  destruct (ping R w1) as [w2 [e|[]]]; [discriminate|]. cbv beta iota zeta.
  cbn [fst] in Hload.
  destruct (safe_load R (getenv os "LDES_CONFIG_PATH" "/data/ldes-feeds.yaml") w2)
    as [w3 r]. cbn [snd] in Hload. subst r. cbv beta iota zeta.
  split.
  - intros Hnone.
    assert (Hp : process_feeds R os config
                   (getenv os "LDES2SPARQL_IMAGE" "ghcr.io/maregraph-eu/ldes2sparql:latest")
                   w3 = (w3, [ Printed NoFeedsSection ] ++ [], inr []))
      by (destruct Hnone as [->| ->]; reflexivity).
    rewrite Hp. cbv beta iota zeta.
    pose proof (supervise_exits_zero R polls point [] w3) as Hexit.
    destruct (supervise_nothing R polls point w3) as [Hcalls _].
    destruct (supervise R polls point [] w3) as [[w4 t4] r4].
    unfold result_of, trace_of in *. cbn [fst snd] in *. subst r4.
    repeat split.
    + unfold api_calls in *. rewrite !collect_app. simpl. now rewrite Hcalls.
    + simpl. tauto.
    + simpl. tauto.
  - intros Hbad.
    assert (Hp : process_feeds R os config
                   (getenv os "LDES2SPARQL_IMAGE" "ghcr.io/maregraph-eu/ldes2sparql:latest")
                   w3 = (w3, [], inl (Exc TypeError)))
      by (destruct Hbad as [->|[->| ->]]; reflexivity).
    rewrite Hp. cbv beta iota zeta.
    unfold result_of, trace_of. cbn [fst snd].
    repeat split.
    simpl. intros H. repeat (destruct H as [H|H]; [discriminate H|]). exact H.
Qed.

Lemma X19_no_feeds_section_witness :
  (let x := main Mock.runtime [] 2 1 (Mock.fresh (inr (Mapping None)) []) in
   exit_code (result_of x) = 0%Z /\
   api_calls (trace_of x) =
     [ CallFromEnv (inr tt); CallPing (inr tt);
       CallLoad Mock.config_path (inr (Mapping None)) ] /\
   In (Printed NoFeedsSection) (trace_of x) /\
   In (Printed (SpawnedCount 0)) (trace_of x)) /\
  (let x := main Mock.runtime [] 2 1 (Mock.fresh (inr NotIterable) []) in
   result_of x = inl (Exc TypeError) /\
   exit_code (result_of x) = 1%Z /\
   api_calls (trace_of x) =
     [ CallFromEnv (inr tt); CallPing (inr tt);
       CallLoad Mock.config_path (inr NotIterable) ] /\
   ~ In (Printed NoFeedsSection) (trace_of x)).
Proof.
  split.
  - apply (X19_no_feeds_section Mock.world Mock.runtime [] 2 1
             (Mock.fresh (inr (Mapping None)) []) (Mapping None) eq_refl eq_refl).
    left. reflexivity.
  - apply (X19_no_feeds_section Mock.world Mock.runtime [] 2 1
             (Mock.fresh (inr NotIterable) []) NotIterable eq_refl eq_refl).
    left. reflexivity.
Defined.

(** ** Fallbacks *)

(** X20.  A required key the feed does not override gets its fallback:
    [false] for FOLLOW, MATERIALIZE and FAILURE_IS_FATAL, [500] for
    MEMBER_BATCH_SIZE, [60000] for POLLING_FREQUENCY, [Replication] for
    OPERATION_MODE and the empty string for SHAPE; and LDES is the empty
    string for a feed without [url]. *)
Theorem X20_fixed_fallbacks :
  forall (str_lower : string -> string) (os : environ) (feed_name : pyval)
         (fd : feed_data) (env : dict pyval),
    env_vars str_lower os feed_name fd = inr env ->
    (forall k fallback,
        In (k, fallback) fixed_defaults ->
        dict_get (overrides fd) k = None ->
        dict_get env k = Some (PStr fallback)) /\
    (url fd = None -> dict_get env "LDES" = Some (PStr "")).
Proof.
  intros str_lower os feed_name fd env Henv.
  destruct (env_vars_inr _ _ _ _ _ Henv) as [d [Hd He]].
  assert (Hreq : forall k, In k required_keys -> dict_get env k = dict_get d k).
  { intros k Hk.
    now destruct (env_vars_required_value str_lower os feed_name fd env d k Hd He Hk). }
  destruct (env_vars_display_inr _ _ _ _ _ Hd) as [_ [t [_ ->]]]. split.
  - intros k fallback Hin Hnone.
    simpl in Hin.
    repeat (destruct Hin as [Hin|Hin];
            [injection Hin as <- <-; rewrite Hreq by (simpl; tauto);
             simpl; unfold dict_get_or; now rewrite Hnone|]).
    destruct Hin.
  - intros Hurl. rewrite Hreq by (simpl; tauto). simpl. unfold feed_url. now rewrite Hurl.
Qed.

Lemma X20_fixed_fallbacks_witness :
  dict_get [ ("SPARQL_ENDPOINT", PStr "");
             ("TARGET_GRAPH", PStr "urn:kgap:ldes:sensors");
             ("FOLLOW", PStr "true"); ("MEMBER_BATCH_SIZE", PStr "500");
             ("MATERIALIZE", PStr "false"); ("LOG_LEVEL", PStr "debug");
             ("LDES", PStr "https://example/feed");
             ("POLLING_FREQUENCY", PStr "60000");
             ("FAILURE_IS_FATAL", PStr "false");
             ("OPERATION_MODE", PStr "Replication"); ("SHAPE", PStr "") ] "OPERATION_MODE"
    = Some (PStr "Replication").
Proof.
  destruct (X20_fixed_fallbacks ascii_lower [] (PStr "sensors") Mock.sensors _ eq_refl)
    as [H _].
  apply (H "OPERATION_MODE" "Replication"); [simpl; tauto | reflexivity].
Defined.
